(** * Tacheo: the task table and its API routes

    A shallow embedding of the task routes of [tacheo.py]
    ([get_tasks], [get_all_tasks], [create_task], [update_task],
    [hard_delete_single_task], [clear_trash]) and of the page script's
    status requests ([toggleTask], [deleteTask], [restoreTask]), over an
    explicit model of the [tasks] table.

    The SQLite table is a list of rows in rowid order together with the
    AUTOINCREMENT counter; every route is a function from the database
    before the request to the response and the database after it. *)

From stdpp Require Import base decidable option list strings gmap pretty sorting.
From Stdlib Require Import ZArith Lia Ascii.

#[local] Set Warnings "-clear-no-such-hyp".

Open Scope string_scope.
Open Scope list_scope.
Open Scope Z_scope.

(** ** Values *)

(** A value held by a field of the JSON request body (or by an item of an
    array). Arrays and objects are kept as one case: sqlite3 cannot bind
    either. JSON numbers with a fraction are outside the model. *)
Inductive json : Type :=
  | JNull
  | JBool (b : bool)
  | JInt (z : Z)
  | JStr (s : string)
  | JCompound.

(** A value bound to a [?] of a statement. *)
Inductive sqlval : Type :=
  | SqlNull
  | SqlInt (z : Z)
  | SqlText (s : string).

(** The exceptions the routes can meet. *)
Inductive exn : Type :=
  | KeyError (k : string)
  | TypeError
  | AttributeError
  | BindError
  | OverflowError
  | IntegrityError.

(** The error monad the statements run in. *)
Inductive result (A : Type) : Type :=
  | Ok (a : A)
  | Raise (e : exn).
Arguments Ok {A} a.
Arguments Raise {A} e.

Definition rbind {A B : Type} (r : result A) (k : A → result B) : result B :=
  match r with
  | Ok a => k a
  | Raise e => Raise e
  end.

Notation "x ←! r ; k" := (rbind r (λ x, k))
  (at level 20, r at level 100, k at level 200, right associativity,
   format "x  ←!  r ;  '/' k").

(** How the sqlite3 module adapts a Python value to a parameter: [None] is
    NULL, [bool] is an [int], an [int] must fit 64 bits, [list] and [dict]
    are refused. *)
Definition adapt (j : json) : result sqlval :=
  match j with
  | JNull => Ok SqlNull
  | JBool b => Ok (SqlInt (if b then 1 else 0))
  | JInt z =>
      if (- 2 ^ 63 <=? z) && (z <? 2 ^ 63) then Ok (SqlInt z)
      else Raise OverflowError
  | JStr s => Ok (SqlText s)
  | JCompound => Raise BindError
  end.

(** TEXT affinity of a column: an integer is stored as its decimal text,
    NULL stays NULL ([None]). *)
Definition text_affinity (v : sqlval) : option string :=
  match v with
  | SqlNull => None
  | SqlInt z => Some (pretty z)
  | SqlText s => Some s
  end.

(** ** The [tasks] table *)

Module Task.
(** One row. [title] is TEXT NOT NULL; the other text columns may hold
    NULL; [created_at] is the text of CURRENT_TIMESTAMP. *)
Record t : Type := mk {
  id : Z;
  title : string;
  description : option string;
  due_date : option string;
  priority : option string;
  category : option string;
  status : option string;
  created_at : string;
  user_id : Z
}.

Definition set_status (s : option string) (r : t) : t :=
  mk (id r) (title r) (description r) (due_date r) (priority r)
     (category r) s (created_at r) (user_id r).

Definition set_priority (p : option string) (r : t) : t :=
  mk (id r) (title r) (description r) (due_date r) p
     (category r) (status r) (created_at r) (user_id r).

Definition set_fields (ti : string) (de du pr ca : option string) (r : t) : t :=
  mk (id r) ti de du pr ca (status r) (created_at r) (user_id r).
End Task.

Abbreviation task := Task.t.

#[global] Instance task_eq_dec : EqDecision task.
Proof. solve_decision. Defined.

(** The database: the rows of [tasks] in rowid order and the largest rowid
    ever handed out (sqlite_sequence). *)
Record store : Type := mkStore {
  rows : list task;
  seq : Z
}.

Definition init_db : store := mkStore [] 0.

(** ** SQL comparisons *)

(** [col = 'lit'] in a WHERE clause: NULL compares to nothing. *)
Definition sql_eq (col : option string) (lit : string) : bool :=
  match col with
  | None => false
  | Some s => bool_decide (s = lit)
  end.

(** [col != 'lit'] in a WHERE clause: NULL compares to nothing. *)
Definition sql_ne (col : option string) (lit : string) : bool :=
  match col with
  | None => false
  | Some s => negb (bool_decide (s = lit))
  end.

(** [COALESCE(due_date, '9999-12-31')]. *)
Definition due_key (r : task) : string :=
  default "9999-12-31" (Task.due_date r).

(** The ORDER BY of both listings,
    [COALESCE(due_date, '9999-12-31') ASC, created_at DESC]:
    [order_le a b] when [a] may stand before [b]. Text is compared byte by
    byte (the BINARY collation). *)
Definition order_le (a b : task) : bool :=
  match String.compare (due_key a) (due_key b) with
  | Lt => true
  | Gt => false
  | Eq => String.leb (Task.created_at b) (Task.created_at a)
  end.

Fixpoint insert_row (x : task) (l : list task) : list task :=
  match l with
  | [] => [x]
  | y :: l' => if order_le x y then x :: l else y :: insert_row x l'
  end.

(** The sorter: a stable insertion sort of the scanned rows. *)
Definition order_by (l : list task) : list task :=
  foldr insert_row [] l.

(** ** Responses *)

(** The JSON bodies the routes answer with. *)
Inductive body : Type :=
  | Success                 (* {'success': True} *)
  | ErrorInvalid            (* {'error': 'Données invalides'} *)
  | ErrorExn (e : exn).     (* {'error': str(e)} *)

(** A response: [jsonify(body), code], or the server's own error page when
    the route lets an exception escape. *)
Inductive response : Type :=
  | Jsonify (b : body) (code : Z)
  | InternalServerError (e : exn).

Definition status_code (r : response) : Z :=
  match r with
  | Jsonify _ c => c
  | InternalServerError _ => 500
  end.

(** The error classes of the specification, as they would show in a
    response. *)
Definition ValidationError (r : response) : Prop := status_code r = 400.
Definition NotFoundError (r : response) : Prop := status_code r = 404.

(** ** Request bodies *)

(** [data[k]] *)
Definition subscript (data : gmap string json) (k : string) : result json :=
  match data !! k with
  | Some v => Ok v
  | None => Raise (KeyError k)
  end.

(** [data.get(k, d)] *)
Definition get (data : gmap string json) (k : string) (d : json) : json :=
  default d (data !! k).

(** [k in data] *)
Definition has_key (k : string) (data : gmap string json) : bool :=
  bool_decide (is_Some (data !! k)).

#[global] Instance json_eq_dec : EqDecision json.
Proof. solve_decision. Defined.

(** What [request.json] can be: any JSON value. An object keeps its
    fields, an array its items; a number is an integer (numbers with a
    fraction are outside the model, as they are for field values). A
    request whose body does not parse as JSON, or is not sent as JSON,
    makes [request.json] itself fail; such requests are outside the model
    too. *)
Inductive payload : Type :=
  | Object (data : gmap string json)
  | Array (items : list json)
  | Text (s : string)
  | Number (z : Z)
  | Boolean (b : bool)
  | Null.

(** [bool(data)] *)
Definition truthy (data : payload) : bool :=
  match data with
  | Object d => negb (size d =? 0)%nat
  | Array items => negb (length items =? 0)%nat
  | Text s => negb (bool_decide (s = ""))
  | Number z => negb (z =? 0)
  | Boolean b => b
  | Null => false
  end.

(** [k in s] for two strings: [k] occurs in [s]. *)
Fixpoint occurs (k s : string) : bool :=
  String.prefix k s
  || match s with
     | EmptyString => false
     | String _ s' => occurs k s'
     end.

(** [k in data]: a key of an object, an item of an array, a piece of a
    string; numbers, booleans and null are not containers. *)
Definition contains (k : string) (data : payload) : result bool :=
  match data with
  | Object d => Ok (has_key k d)
  | Array items => Ok (bool_decide (JStr k ∈ items))
  | Text s => Ok (occurs k s)
  | Number _ | Boolean _ | Null => Raise TypeError
  end.

(** [len(data)]; of a string, the number of its characters as the model
    holds them. *)
Definition len (data : payload) : result nat :=
  match data with
  | Object d => Ok (size d)
  | Array items => Ok (length items)
  | Text s => Ok (String.length s)
  | Number _ | Boolean _ | Null => Raise TypeError
  end.

(** [data[k]] with a string [k]: only an object can be read so. *)
Definition item (data : payload) (k : string) : result json :=
  match data with
  | Object d => subscript d k
  | _ => Raise TypeError
  end.

(** [data.get(k, d)]: only an object has the method. *)
Definition get_item (data : payload) (k : string) (d : json) : result json :=
  match data with
  | Object m => Ok (get m k d)
  | _ => Raise AttributeError
  end.

(** ** Listing routes *)

Definition status_clause (status_filter : string) (r : task) : bool :=
  if bool_decide (status_filter = "deleted") then
    sql_eq (Task.status r) "deleted"
  else if bool_decide (status_filter = "pending") then
    sql_eq (Task.status r) "pending"
  else if bool_decide (status_filter = "completed") then
    sql_eq (Task.status r) "completed"
  else
    sql_ne (Task.status r) "deleted".

Definition category_clause (category_filter : string) (r : task) : bool :=
  if bool_decide (category_filter ≠ "all") then
    sql_eq (Task.category r) category_filter
  else true.

Definition priority_clause (priority_filter : string) (r : task) : bool :=
  if bool_decide (priority_filter ≠ "all") then
    sql_eq (Task.priority r) priority_filter
  else true.

(** The WHERE clause [get_tasks] builds in [base_query]. *)
Definition where_clause (user_id : Z)
    (status_filter category_filter priority_filter : string) (r : task) : bool :=
  bool_decide (Task.user_id r = user_id)
  && status_clause status_filter r
  && category_clause category_filter r
  && priority_clause priority_filter r.

(** GET /api/tasks *)
Definition get_tasks (user_id : Z)
    (status_filter category_filter priority_filter : string)
    (db : store) : list task :=
  order_by
    (filter (λ r, where_clause user_id status_filter category_filter
                    priority_filter r) (rows db)).

(** GET /api/alltasks *)
Definition get_all_tasks (user_id : Z) (db : store) : list task :=
  order_by (filter (λ r, Task.user_id r = user_id) (rows db)).

(** ** Statements that write *)

(** [id = ? AND user_id = ?] *)
Definition targets (task_id user_id : Z) (r : task) : bool :=
  bool_decide (Task.id r = task_id) && bool_decide (Task.user_id r = user_id).

(** INSERT INTO tasks (title, description, due_date, priority, category,
    status, user_id): the parameters are bound in order, [title] is NOT
    NULL, the rowid is the next of the AUTOINCREMENT sequence and
    [created_at] takes its default, the clock [now]. *)
Definition insert_task (title description due_date priority category status : json)
    (user_id : Z) (now : string) (db : store) : result store :=
  ti ←! adapt title;
  de ←! adapt description;
  du ←! adapt due_date;
  pr ←! adapt priority;
  ca ←! adapt category;
  st ←! adapt status;
  match text_affinity ti with
  | None => Raise IntegrityError
  | Some t =>
      Ok (mkStore
            (rows db ++
             [Task.mk (seq db + 1) t (text_affinity de) (text_affinity du)
                      (text_affinity pr) (text_affinity ca) (text_affinity st)
                      now user_id])
            (seq db + 1))
  end.

(** UPDATE tasks SET status = ? WHERE id = ? AND user_id = ?. The
    parameters are bound in order: the status, then [task_id], which the
    URL rule [<int:task_id>] lets be a natural number of any size;
    [user_id] is the id of a row of [users]. *)
Definition update_status (status : json) (task_id user_id : Z) (db : store)
    : result store :=
  st ←! adapt status;
  _ ←! adapt (JInt task_id);
  Ok (mkStore
        (map (λ r, if targets task_id user_id r
                   then Task.set_status (text_affinity st) r else r)
             (rows db))
        (seq db)).

(** UPDATE tasks SET title=?, description=?, due_date=?, priority=?,
    category=? WHERE id=? AND user_id = ?. The five values and [task_id]
    are bound in order; the NOT NULL constraint on [title] is checked on
    the rows the statement reaches. *)
Definition update_fields (title description due_date priority category : json)
    (task_id user_id : Z) (db : store) : result store :=
  ti ←! adapt title;
  de ←! adapt description;
  du ←! adapt due_date;
  pr ←! adapt priority;
  ca ←! adapt category;
  _ ←! adapt (JInt task_id);
  match text_affinity ti with
  | None =>
      if existsb (targets task_id user_id) (rows db)
      then Raise IntegrityError else Ok db
  | Some t =>
      Ok (mkStore
            (map (λ r, if targets task_id user_id r
                       then Task.set_fields t (text_affinity de)
                              (text_affinity du) (text_affinity pr)
                              (text_affinity ca) r
                       else r)
                 (rows db))
            (seq db))
  end.

(** DELETE FROM tasks WHERE id = ? AND user_id = ? *)
Definition delete_task (task_id user_id : Z) (db : store) : result store :=
  _ ←! adapt (JInt task_id);
  Ok (mkStore (filter (λ r, ¬ targets task_id user_id r) (rows db)) (seq db)).

(** ** Writing routes *)

(** POST /api/tasks. Everything runs inside the route's [try]: an
    exception becomes the 500 answer. *)
Definition create_task (user_id : Z) (now : string) (data : payload)
    (db : store) : response * store :=
  match
    invalid ←! (if negb (truthy data) then Ok true
                else found ←! contains "title" data; Ok (negb found));
    if (invalid : bool) then Ok None
    else
      title ←! item data "title";
      description ←! get_item data "description" (JStr "");
      due_date ←! get_item data "due_date" JNull;
      priority ←! get_item data "priority" (JStr "important");
      category ←! get_item data "category" (JStr "personnel");
      status ←! get_item data "status" (JStr "pending");
      db' ←! insert_task title description due_date priority category status
               user_id now db;
      Ok (Some db')
  with
  | Ok None => (Jsonify ErrorInvalid 400, db)
  | Ok (Some db') => (Jsonify Success 201, db')
  | Raise e => (Jsonify (ErrorExn e) 500, db)
  end.

(** PUT /api/tasks/<int:task_id>. The view has no [try]: an exception is
    answered by the server's error page. *)
Definition update_task (task_id user_id : Z) (data : payload)
    (db : store) : response * store :=
  let executed :=
    status_only ←! (found ←! contains "status" data;
                    if (found : bool) then n ←! len data; Ok (n =? 1)%nat
                    else Ok false);
    if (status_only : bool) then
      status ←! item data "status";
      update_status status task_id user_id db
    else
      title ←! item data "title";
      description ←! item data "description";
      due_date ←! item data "due_date";
      priority ←! item data "priority";
      category ←! item data "category";
      update_fields title description due_date priority category
        task_id user_id db
  in
  match executed with
  | Ok db' => (Jsonify Success 200, db')
  | Raise e => (InternalServerError e, db)
  end.

(** DELETE /api/tasks/<int:task_id> *)
Definition hard_delete_single_task (task_id user_id : Z) (db : store)
    : response * store :=
  match delete_task task_id user_id db with
  | Ok db' => (Jsonify Success 200, db')
  | Raise e => (InternalServerError e, db)
  end.

(** DELETE /api/tasks/clear_trash *)
Definition clear_trash (user_id : Z) (db : store) : response * store :=
  (Jsonify Success 200,
   mkStore
     (filter (λ r, ¬ (sql_eq (Task.status r) "deleted"
                      && bool_decide (Task.user_id r = user_id)))
             (rows db))
     (seq db)).

(** ** The page script *)

(** A [fetch] of the page: PUT /api/tasks/<id> with a JSON body. *)
Inductive request : Type :=
  | PUT (id : Z) (data : gmap string json).

(** [toggleTask(id)] over the page's [allTasks]: the request it sends, if
    any. *)
Definition toggleTask (allTasks : list task) (id : Z) : option request :=
  match List.find (λ t, bool_decide (Task.id t = id)) allTasks with
  | None => None
  | Some task =>
      if bool_decide (Task.status task = Some "deleted") then None
      else
        let newStatus :=
          if bool_decide (Task.status task = Some "completed")
          then "pending" else "completed" in
        Some (PUT id {[ "status" := JStr newStatus ]})
  end.

(** [deleteTask(id)]; [confirmed] is the answer to the confirm dialog. *)
Definition deleteTask (confirmed : bool) (id : Z) : option request :=
  if negb confirmed then None
  else Some (PUT id {[ "status" := JStr "deleted" ]}).

(** [restoreTask(id)] *)
Definition restoreTask (id : Z) : option request :=
  Some (PUT id {[ "status" := JStr "pending" ]}).

(** The server's answer to a request of the page script of [user_id]; no
    request leaves the database as it is. *)
Definition serve (user_id : Z) (req : option request) (db : store) : store :=
  match req with
  | None => db
  | Some (PUT id data) => snd (update_task id user_id (Object data) db)
  end.

(** ** Notions of the specification *)

(** [before a b l]: some occurrence of [a] in [l] stands before some
    occurrence of [b]. *)
Definition before (a b : task) (l : list task) : Prop :=
  ∃ l1 l2 l3, l = l1 ++ a :: l2 ++ b :: l3.

(** What either listing route can answer for [user_id] on [db]. *)
Definition listing (user_id : Z) (db : store) (l : list task) : Prop :=
  (∃ sf cf pf, l = get_tasks user_id sf cf pf db)
  ∨ l = get_all_tasks user_id db.

(** The rows of one account, in table order. *)
Definition tasks_of (user_id : Z) (db : store) : list task :=
  filter (λ r, Task.user_id r = user_id) (rows db).

(** The table with the priority column rewritten by [p]. *)
Definition reprioritise (p : task → option string) (db : store) : store :=
  mkStore (map (λ r, Task.set_priority (p r) r) (rows db)) (seq db).

(** The operations of the specification that write, as requests to the
    routes: Update is a PUT with any body, SetStatus a PUT whose body holds
    the status alone. *)
Inductive mutation : Type :=
  | Create (now : string) (data : payload)
  | Update (task_id : Z) (data : payload)
  | SetStatus (task_id : Z) (status : json)
  | HardDelete (task_id : Z)
  | EmptyTrash.

Definition run (user_id : Z) (m : mutation) (db : store) : response * store :=
  match m with
  | Create now data => create_task user_id now data db
  | Update task_id data => update_task task_id user_id data db
  | SetStatus task_id status =>
      update_task task_id user_id (Object {[ "status" := status ]}) db
  | HardDelete task_id => hard_delete_single_task task_id user_id db
  | EmptyTrash => clear_trash user_id db
  end.

(** The body of a full edit. *)
Definition edit_body (title description due_date priority category : json)
    : gmap string json :=
  {[ "title" := title; "description" := description; "due_date" := due_date;
     "priority" := priority; "category" := category ]}.

(** The transitions of the specification's state machine. *)
Definition transition (old new : string) : Prop :=
  (old = "pending" ∧ new = "completed")
  ∨ (old = "completed" ∧ new = "pending")
  ∨ (old = "pending" ∧ new = "deleted")
  ∨ (old = "completed" ∧ new = "deleted")
  ∨ (old = "deleted" ∧ new = "pending").

(** The controls of a task card that change a status. *)
Inductive click : Type :=
  | Toggle
  | MoveToTrash (confirmed : bool)
  | Restore.

Definition script (c : click) (allTasks : list task) (id : Z) : option request :=
  match c with
  | Toggle => toggleTask allTasks id
  | MoveToTrash confirmed => deleteTask confirmed id
  | Restore => restoreTask id
  end.

(** The ids of the table: AUTOINCREMENT assigns rowids from 1 on, and a
    rowid fits 64 bits. These are the ids the page holds in [allTasks]
    and puts in the URL of its requests. *)
Definition rowid (z : Z) : Prop := 0 < z < 2 ^ 63.

(** The primary key: ids are distinct and none exceeds the sequence. *)
Definition ids_ok (db : store) : Prop :=
  NoDup (map Task.id (rows db)) ∧ ∀ r, r ∈ rows db → Task.id r ≤ seq db.

(** How many rows a statement removed. *)
Definition purged (before_db after_db : store) : nat :=
  (length (rows before_db) - length (rows after_db))%nat.

(** ** Sample data *)

Definition alice : Z := 1.
Definition bob : Z := 2.

Definition t0 : string := "2024-05-01 10:00:00".
Definition t1 : string := "2024-05-01 10:00:01".
Definition t2 : string := "2024-05-01 10:00:02".

(** One task created with a status of the caller's own. *)
Definition db_archived : store :=
  snd (create_task alice t0
         (Object {[ "title" := JStr "a"; "status" := JStr "archived" ]}) init_db).

(** One task created with a null status. *)
Definition db_null_status : store :=
  snd (create_task alice t0
         (Object {[ "title" := JStr "a"; "status" := JNull ]}) init_db).

(** A task due on 9999-12-31, then a later task with no due date. *)
Definition db_far_due : store :=
  snd (create_task alice t1 (Object {[ "title" := JStr "b" ]})
         (snd (create_task alice t0
                 (Object {[ "title" := JStr "a"; "due_date" := JStr "9999-12-31" ]})
                 init_db))).

(** Two dated tasks and an undated one. *)
Definition db_dated : store :=
  snd (create_task alice t2 (Object {[ "title" := JStr "c" ]})
         (snd (create_task alice t1
                 (Object {[ "title" := JStr "b"; "due_date" := JStr "2024-06-01" ]})
                 (snd (create_task alice t0
                         (Object {[ "title" := JStr "a";
                            "due_date" := JStr "2024-07-15" ]})
                         init_db))))).

(** One task, created and then moved to the trash. *)
Definition db_trashed : store :=
  snd (update_task 1 alice (Object {[ "status" := JStr "deleted" ]})
         (snd (create_task alice t0 (Object {[ "title" := JStr "a" ]}) init_db))).

(** Alice and Bob each hold a row with the same id. *)
Definition db_shared_id : store :=
  mkStore
    [Task.mk 1 "a" (Some "") None (Some "important") (Some "personnel")
       (Some "deleted") t0 alice;
     Task.mk 1 "b" (Some "") None (Some "important") (Some "personnel")
       (Some "deleted") t1 bob]
    1.

(** One task, created from a title alone. *)
Definition db_one : store :=
  snd (create_task alice t0 (Object {[ "title" := JStr "a" ]}) init_db).

(** ** More of the page script *)

(** The three counters of [updateStats], read from the page's
    [allTasks]: total active, pending, completed. A null status is not
    ['deleted'] for [!==]. *)
Definition updateStats (allTasks : list task) : nat * nat * nat :=
  let totalActive :=
    length (filter (λ t, Task.status t ≠ Some "deleted") allTasks) in
  let pendingCount :=
    length (filter (λ t, Task.status t = Some "pending") allTasks) in
  let completedCount :=
    length (filter (λ t, Task.status t = Some "completed") allTasks) in
  (totalActive, pendingCount, completedCount).

(** The values of a task form (the add form or the edit modal). *)
Record form : Type := mkForm {
  f_title : string;
  f_description : string;
  f_due_date : string;
  f_priority : string;
  f_category : string
}.

(** [value || null] *)
Definition or_null (value : string) : json :=
  if bool_decide (value = "") then JNull else JStr value.

(** [addTask()]: the body it posts to /api/tasks, if any. [trim] is the
    script's [String.prototype.trim]. *)
Definition addTask (trim : string → string) (f : form)
    : option (gmap string json) :=
  let title := trim (f_title f) in
  if bool_decide (title = "") then None
  else
    Some {[ "title" := JStr title;
            "description" := JStr (trim (f_description f));
            "due_date" := or_null (f_due_date f);
            "priority" := JStr (f_priority f);
            "category" := JStr (f_category f);
            "status" := JStr "pending" ]}.

(** [saveEdit()] with the modal open on [editingTaskId]. *)
Definition saveEdit (editingTaskId : Z) (f : form) : request :=
  PUT editingTaskId
    (edit_body (JStr (f_title f)) (JStr (f_description f))
       (or_null (f_due_date f)) (JStr (f_priority f)) (JStr (f_category f))).

(** ** Runs of requests *)

(** The table after a run of writing requests, each with its account. *)
Definition run_all (ms : list (Z * mutation)) (db : store) : store :=
  foldl (λ d um, snd (run (fst um) (snd um) d)) db ms.

(** ** Uploaded file names *)

(** [c.lower()] on a byte: only the ASCII capitals move. (Of the letters
    outside ASCII none lowers to text made of ASCII letters that spell one
    of the allowed extensions, so the test below agrees with the one on
    code points.) *)
Definition lower_ascii (c : Ascii.ascii) : Ascii.ascii :=
  let n := Ascii.N_of_ascii c in
  if ((65 <=? n) && (n <=? 90))%N then Ascii.ascii_of_N (n + 32) else c.

(** [s.lower()] *)
Fixpoint lower (s : string) : string :=
  match s with
  | EmptyString => EmptyString
  | String c s' => String (lower_ascii c) (lower s')
  end.

(** [s.rsplit('.', 1)[1]] when ['.' in s]: the text after the last dot. *)
Fixpoint after_last_dot (s : string) : option string :=
  match s with
  | EmptyString => None
  | String c s' =>
      match after_last_dot s' with
      | Some e => Some e
      | None => if bool_decide (c = "."%char) then Some s' else None
      end
  end.

(** [app.config['ALLOWED_EXTENSIONS']] *)
Definition ALLOWED_EXTENSIONS : list string := ["png"; "jpg"; "jpeg"; "gif"].

Definition allowed_file (filename : string) : bool :=
  match after_last_dot filename with
  | None => false
  | Some ext => bool_decide (lower ext ∈ ALLOWED_EXTENSIONS)
  end.

(** ** Accounts *)

Module User.
(** One row of [users]: [username] is TEXT NOT NULL UNIQUE,
    [password_hash] is NOT NULL, [profile_photo] may be NULL. *)
Record t : Type := mk {
  id : Z;
  username : string;
  password_hash : string;
  profile_photo : option string;
  created_at : string
}.

Definition set_username (n : string) (r : t) : t :=
  mk (id r) n (password_hash r) (profile_photo r) (created_at r).

Definition set_password_hash (h : string) (r : t) : t :=
  mk (id r) (username r) h (profile_photo r) (created_at r).

Definition set_profile_photo (p : option string) (r : t) : t :=
  mk (id r) (username r) (password_hash r) p (created_at r).
End User.

Abbreviation user := User.t.

(** The whole database: both tables and the sequence of [users]. *)
Record site : Type := mkSite {
  tasks_table : store;
  users : list user;
  users_seq : Z
}.

Definition empty_site : site := mkSite init_db [] 0.

(** The messages the account pages show. *)
Inductive notice : Type :=
  | FieldsRequired          (* Tous les champs sont requis. *)
  | UsernameTaken           (* Ce nom d'utilisateur existe déjà. ... *)
  | WrongPassword           (* Mot de passe incorrect. *)
  | NoAccount               (* Compte introuvable. *)
  | AccountDeleted          (* Votre compte et toutes vos tâches ont été supprimés ... *)
  | PhotoUpdated            (* Photo de profil mise à jour avec succès ! *)
  | PhotoUnreadable         (* Erreur lors du traitement de l'image. *)
  | PhotoSaveError          (* Erreur lors de la sauvegarde : ... *)
  | PhotoInvalid            (* Veuillez sélectionner un fichier valide ... *)
  | PhotoDeleted            (* Photo de profil supprimée avec succès. ... *)
  | UsernameEmpty           (* Le nom d'utilisateur ne peut pas être vide. *)
  | UsernameSame            (* Le nouveau nom d'utilisateur est le même que l'actuel. *)
  | UsernameExists          (* Nom d'utilisateur existe déjà. *)
  | UsernameChanged         (* Nom d'utilisateur modifié avec succès en: ... *)
  | UsernameError           (* Erreur lors du changement de nom d'utilisateur: ... *)
  | PasswordFieldsRequired  (* Tous les champs de mot de passe sont requis. *)
  | PasswordMismatch        (* Le nouveau mot de passe et sa confirmation ne correspondent pas. *)
  | PasswordChanged         (* Mot de passe changé avec succès. *)
  | OldPasswordWrong        (* L'ancien mot de passe est incorrect. *)
  | DeletePasswordRequired  (* Le mot de passe de confirmation est requis ... *)
  | DeletePasswordWrong.    (* Mot de passe de confirmation incorrect. *)

(** What an account route answers with. *)
Inductive page : Type :=
  | Redirect (endpoint : string)
  | AuthForm (error : option notice) (is_register : bool)
  | SettingsPage (message : option notice) (is_success : bool)
  | BadRequest.

(** What became of an uploaded image: [process_image] gave a buffer and
    the file was written, [process_image] gave [None], or an exception
    was raised on the way. *)
Inductive image_outcome : Type :=
  | ImageSaved
  | ImageUnreadable
  | ImageError.

(** [load_user(user_id)] *)
Definition load_user (user_id : Z) (s : site) : option user :=
  List.find (λ r, bool_decide (User.id r = user_id)) (users s).

(** SELECT ... FROM users WHERE username = ?, [fetchone()]. *)
Definition by_username (username : string) (s : site) : option user :=
  List.find (λ r, bool_decide (User.username r = username)) (users s).

(** [current_user], from the id the session holds. *)
Definition current_user (session : option Z) (s : site) : option user :=
  match session with
  | Some user_id => load_user user_id s
  | None => None
  end.

(** UPDATE users SET ... WHERE id = ? *)
Definition update_user (user_id : Z) (f : user → user) (s : site) : site :=
  mkSite (tasks_table s)
    (map (λ r, if bool_decide (User.id r = user_id) then f r else r) (users s))
    (users_seq s).

(** [not all([a, b, c])] on values of [request.form.get]. *)
Definition blank (v : option string) : bool :=
  match v with
  | None => true
  | Some x => bool_decide (x = "")
  end.

Section routes.
(** [generate_password_hash(password)] with its random salt made a
    parameter, [check_password_hash(pwhash, password)], [str.strip()]. *)
Variable generate_password_hash : string → string → string.
Variable check_password_hash : string → string → bool.
Variable strip : string → string.

(** POST /register; [salt] is the salt drawn for the hash, [now] the
    clock. *)
Definition register (form : gmap string string) (salt now : string)
    (session : option Z) (s : site) : page * site * option Z :=
  if bool_decide (is_Some (current_user session s)) then
    (Redirect "index", s, session)
  else
    match form !! "username", form !! "password" with
    | Some username, Some password =>
        if bool_decide (username = "") || bool_decide (password = "") then
          (AuthForm (Some FieldsRequired) true, s, session)
        else
          let hashed_password := generate_password_hash password salt in
          if existsb (λ r, bool_decide (User.username r = username)) (users s)
          then (AuthForm (Some UsernameTaken) true, s, session)
          else
            let s' :=
              mkSite (tasks_table s)
                (users s ++
                 [User.mk (users_seq s + 1) username hashed_password None now])
                (users_seq s + 1) in
            match by_username username s' with
            | Some user_data =>
                (Redirect "index", s', Some (User.id user_data))
            | None => (AuthForm None true, s', session)
            end
    | _, _ => (BadRequest, s, session)
    end.

(** POST /login. The [remember_me] box only sets how long the cookie
    lives; it is left out. *)
Definition login (form : gmap string string)
    (session : option Z) (s : site) : page * site * option Z :=
  if bool_decide (is_Some (current_user session s)) then
    (Redirect "index", s, session)
  else
    match form !! "username", form !! "password" with
    | Some username, Some password =>
        match by_username username s with
        | Some user_data =>
            if check_password_hash (User.password_hash user_data) password
            then (Redirect "index", s, Some (User.id user_data))
            else (AuthForm (Some WrongPassword) false, s, session)
        | None => (AuthForm (Some NoAccount) false, s, session)
        end
    | _, _ => (BadRequest, s, session)
    end.

(** GET /logout, behind [login_required]. *)
Definition logout (session : option Z) (s : site) : page * site * option Z :=
  match current_user session s with
  | None => (Redirect "login", s, session)
  | Some _ => (Redirect "login", s, None)
  end.

(** POST /settings, behind [login_required]. [file] is the name of the
    uploaded file, if the request has one; [image] tells how its
    processing went and [timestamp] is the clock as [%Y%m%d_%H%M%S]. The
    files under the upload folder are outside the model. *)
Definition settings (form : gmap string string) (file : option string)
    (image : image_outcome) (timestamp salt : string)
    (session : option Z) (s : site) : page * site * option Z :=
  match current_user session s with
  | None => (Redirect "login", s, session)
  | Some cu =>
      let action := form !! "action" in
      if bool_decide (action = Some "upload_photo") then
        if negb (blank file) && allowed_file (default "" file) then
          match image with
          | ImageSaved =>
              let photo_path :=
                "/static/uploads/" +:+ pretty (User.id cu) +:+ "_"
                +:+ timestamp +:+ ".jpg" in
              (SettingsPage (Some PhotoUpdated) true,
               update_user (User.id cu)
                 (User.set_profile_photo (Some photo_path)) s,
               session)
          | ImageUnreadable =>
              (SettingsPage (Some PhotoUnreadable) false, s, session)
          | ImageError =>
              (SettingsPage (Some PhotoSaveError) false, s, session)
          end
        else (SettingsPage (Some PhotoInvalid) false, s, session)
      else if bool_decide (action = Some "delete_photo") then
        (SettingsPage (Some PhotoDeleted) true,
         update_user (User.id cu) (User.set_profile_photo None) s, session)
      else if bool_decide (action = Some "change_username") then
        let new_username := strip (default "" (form !! "new_username")) in
        if bool_decide (new_username = "") then
          (SettingsPage (Some UsernameEmpty) false, s, session)
        else if bool_decide (new_username = User.username cu) then
          (SettingsPage (Some UsernameSame) true, s, session)
        else
          match by_username new_username s with
          | Some existing_user =>
              if negb (bool_decide (User.id existing_user = User.id cu)) then
                (SettingsPage (Some UsernameExists) false, s, session)
              else if existsb
                        (λ r, bool_decide (User.username r = new_username)
                              && negb (bool_decide (User.id r = User.id cu)))
                        (users s)
              then (SettingsPage (Some UsernameError) false, s, session)
              else
                (SettingsPage (Some UsernameChanged) true,
                 update_user (User.id cu) (User.set_username new_username) s,
                 session)
          | None =>
              (SettingsPage (Some UsernameChanged) true,
               update_user (User.id cu) (User.set_username new_username) s,
               session)
          end
      else if bool_decide (action = Some "change_password") then
        let old_password := form !! "old_password" in
        let new_password := form !! "new_password" in
        let confirm_password := form !! "confirm_password" in
        if blank old_password || blank new_password || blank confirm_password
        then (SettingsPage (Some PasswordFieldsRequired) false, s, session)
        else if negb (bool_decide (new_password = confirm_password)) then
          (SettingsPage (Some PasswordMismatch) false, s, session)
        else if check_password_hash (User.password_hash cu)
                  (default "" old_password) then
          (SettingsPage (Some PasswordChanged) true,
           update_user (User.id cu)
             (User.set_password_hash
                (generate_password_hash (default "" new_password) salt)) s,
           session)
        else (SettingsPage (Some OldPasswordWrong) false, s, session)
      else if bool_decide (action = Some "delete_account") then
        let delete_password := form !! "delete_password" in
        if blank delete_password then
          (SettingsPage (Some DeletePasswordRequired) false, s, session)
        else if check_password_hash (User.password_hash cu)
                  (default "" delete_password) then
          (AuthForm (Some AccountDeleted) false,
           mkSite
             (mkStore
                (filter (λ r, Task.user_id r ≠ User.id cu)
                   (rows (tasks_table s)))
                (seq (tasks_table s)))
             (filter (λ r, User.id r ≠ User.id cu) (users s))
             (users_seq s),
           None)
        else (SettingsPage (Some DeletePasswordWrong) false, s, session)
      else (SettingsPage None false, s, session)
  end.

(** The requests that can change the database or the session. The
    writing task routes are behind [login_required]: without an account
    in the session they redirect and write nothing. *)
Inductive http_request : Type :=
  | POST_register (form : gmap string string) (salt now : string)
  | POST_login (form : gmap string string)
  | GET_logout
  | POST_settings (form : gmap string string) (file : option string)
      (image : image_outcome) (timestamp salt : string)
  | API (m : mutation).

Definition handle (req : http_request) (st : site * option Z)
    : site * option Z :=
  let '(s, session) := st in
  match req with
  | POST_register form salt now =>
      let '(_, s', session') := register form salt now session s in
      (s', session')
  | POST_login form =>
      let '(_, s', session') := login form session s in (s', session')
  | GET_logout =>
      let '(_, s', session') := logout session s in (s', session')
  | POST_settings form file image timestamp salt =>
      let '(_, s', session') :=
        settings form file image timestamp salt session s in
      (s', session')
  | API m =>
      match current_user session s with
      | None => (s, session)
      | Some cu =>
          (mkSite (snd (run (User.id cu) m (tasks_table s))) (users s)
             (users_seq s),
           session)
      end
  end.

(** One browser's run of requests against the database. *)
Definition browse (reqs : list http_request) (st : site * option Z)
    : site * option Z :=
  foldl (λ st req, handle req st) st reqs.
End routes.

(** What the schema promises of the database: user ids and user names
    are distinct, no id is above its sequence, and every task belongs to
    an account that exists. *)
Definition site_ok (s : site) : Prop :=
  NoDup (map User.id (users s))
  ∧ NoDup (map User.username (users s))
  ∧ (∀ r, r ∈ users s → User.id r ≤ users_seq s)
  ∧ ids_ok (tasks_table s)
  ∧ ∀ t, t ∈ rows (tasks_table s) →
         ∃ r, r ∈ users s ∧ User.id r = Task.user_id t.

(** ** Sample accounts *)

(** Stand-ins for the hash library in examples: the hash is the password
    itself. *)
Definition plain_hash (password salt : string) : string := password.
Definition plain_check (pwhash password : string) : bool :=
  bool_decide (pwhash = password).

(** One account, ana, logged in after registering, with one task. *)
Definition site_ana : site * option Z :=
  browse plain_hash plain_check (λ x, x)
    [POST_register {[ "username" := "ana"; "password" := "s3cret" ]}
       "salt" t0;
     API (Create t1 (Object {[ "title" := JStr "a" ]}))]
    (empty_site, None).

(** * Properties *)

(** ** Text order *)

Section text_order.
Implicit Types a b c : string.

Lemma compare_refl a : String.compare a a = Eq.
Proof.
  destruct (String.compare a a) eqn:E; [done | |];
    pose proof (String.compare_antisym a a) as H; rewrite E in H; done.
Qed.

Lemma compare_Eq a b : String.compare a b = Eq ↔ a = b.
Proof.
  split; [apply String.compare_eq_iff | intros ->; apply compare_refl].
Qed.

Lemma compare_Gt_Lt a b : String.compare a b = Gt ↔ String.compare b a = Lt.
Proof.
  rewrite (String.compare_antisym b a).
  destruct (String.compare a b); simpl; split; congruence.
Qed.

Lemma leb_compare a b : String.leb a b = true ↔ String.compare a b ≠ Gt.
Proof.
  unfold String.leb. destruct (String.compare a b); split; congruence.
Qed.

Lemma ltb_compare a b : String.ltb a b = true ↔ String.compare a b = Lt.
Proof.
  unfold String.ltb. destruct (String.compare a b); split; congruence.
Qed.

Lemma leb_trans a b c :
  String.leb a b = true → String.leb b c = true → String.leb a c = true.
Proof.
  intros H1 H2. apply Is_true_true.
  apply Is_true_true in H1, H2.
  exact (transitivity (R := String.le) H1 H2).
Qed.

Lemma compare_Lt_trans a b c :
  String.compare a b = Lt → String.compare b c = Lt →
  String.compare a c = Lt.
Proof.
  intros H1 H2.
  assert (String.leb a c = true) as H3.
  { apply (leb_trans a b c); apply leb_compare; congruence. }
  apply leb_compare in H3.
  destruct (String.compare a c) eqn:E; [| done | done].
  apply compare_Eq in E. subst c.
  apply compare_Gt_Lt in H2. congruence.
Qed.
End text_order.

(** ** The ORDER BY relation *)

Lemma order_le_total a b : order_le a b = true ∨ order_le b a = true.
Proof.
  unfold order_le.
  rewrite (String.compare_antisym (due_key b) (due_key a)).
  destruct (String.compare (due_key a) (due_key b)); simpl; auto.
  destruct (String.leb_total (Task.created_at a) (Task.created_at b)); auto.
Qed.

Lemma order_le_trans a b c :
  order_le a b = true → order_le b c = true → order_le a c = true.
Proof.
  unfold order_le.
  destruct (String.compare (due_key a) (due_key b)) eqn:Eab; [| | done];
  destruct (String.compare (due_key b) (due_key c)) eqn:Ebc; try done.
  - apply compare_Eq in Eab, Ebc. rewrite Eab, Ebc, compare_refl.
    intros H1 H2. by apply (leb_trans _ (Task.created_at b)).
  - apply compare_Eq in Eab. by rewrite Eab, Ebc.
  - apply compare_Eq in Ebc. by rewrite <- Ebc, Eab.
  - by rewrite (compare_Lt_trans _ _ _ Eab Ebc).
Qed.

(** The order reads the due date and the creation time of a row, and
    nothing else. *)
Lemma order_le_ext a b a' b' :
  Task.due_date a = Task.due_date a' →
  Task.created_at a = Task.created_at a' →
  Task.due_date b = Task.due_date b' →
  Task.created_at b = Task.created_at b' →
  order_le a b = order_le a' b'.
Proof.
  unfold order_le, due_key. by intros -> -> -> ->.
Qed.

(** ** The sorter *)

Lemma insert_row_Permutation x l : insert_row x l ≡ₚ x :: l.
Proof.
  induction l as [|y l IH]; simpl; [done |].
  destruct (order_le x y); [done |].
  rewrite IH. apply Permutation_swap.
Qed.

Lemma order_by_Permutation l : order_by l ≡ₚ l.
Proof.
  induction l as [|x l IH]; simpl; [done |].
  by rewrite insert_row_Permutation, IH.
Qed.

Lemma elem_of_order_by x l : x ∈ order_by l ↔ x ∈ l.
Proof. by rewrite order_by_Permutation. Qed.

Lemma insert_row_sorted x l :
  StronglySorted (λ a b, order_le a b = true) l →
  StronglySorted (λ a b, order_le a b = true) (insert_row x l).
Proof.
  induction 1 as [|y l Hl IH Hy]; simpl.
  - repeat constructor.
  - destruct (order_le x y) eqn:E.
    + constructor; [by constructor |].
      constructor; [done |].
      eapply Forall_impl; [exact Hy |].
      intros z Hz. by apply (order_le_trans x y z).
    + constructor; [done |].
      rewrite insert_row_Permutation. constructor; [| done].
      by destruct (order_le_total x y) as [H|H]; [congruence |].
Qed.

Lemma order_by_sorted l :
  StronglySorted (λ a b, order_le a b = true) (order_by l).
Proof.
  induction l as [|x l IH]; simpl; [constructor |].
  by apply insert_row_sorted.
Qed.

(** Renaming the rows by a function the order does not see commutes with
    the sorter. *)
Lemma insert_row_map (f : task → task) x l :
  (∀ a b, order_le (f a) (f b) = order_le a b) →
  insert_row (f x) (map f l) = map f (insert_row x l).
Proof.
  intros Hf. induction l as [|y l IH]; simpl; [done |].
  rewrite Hf. destruct (order_le x y); simpl; [done |]. by rewrite IH.
Qed.

Lemma order_by_map (f : task → task) l :
  (∀ a b, order_le (f a) (f b) = order_le a b) →
  order_by (map f l) = map f (order_by l).
Proof.
  intros Hf. induction l as [|x l IH]; simpl; [done |].
  by rewrite IH, insert_row_map.
Qed.

(** ** Positions in a listing *)

Lemma before_sorted (R : relation task) a b l :
  StronglySorted R l → before a b l → R a b.
Proof.
  intros Hs (l1 & l2 & l3 & ->).
  apply StronglySorted_app_1_r in Hs.
  apply StronglySorted_cons in Hs as [Hall _].
  rewrite Forall_forall in Hall. apply Hall. set_solver.
Qed.

Lemma before_or a b l : a ∈ l → b ∈ l → a ≠ b → before a b l ∨ before b a l.
Proof.
  intros Ha Hb Hne.
  apply list_elem_of_split in Ha as (l1 & l2 & ->).
  apply elem_of_app in Hb as [Hb|Hb].
  - apply list_elem_of_split in Hb as (k1 & k2 & ->).
    right. exists k1, k2, l2. by rewrite <- app_assoc.
  - apply elem_of_cons in Hb as [->|Hb]; [done |].
    apply list_elem_of_split in Hb as (k1 & k2 & ->).
    left. by exists l1, k1, k2.
Qed.

(** In a sorted listing a row that must stand first does, and the other
    never stands before it. *)
Lemma order_by_before a b l :
  a ∈ order_by l → b ∈ order_by l → order_le b a = false →
  before a b (order_by l) ∧ ¬ before b a (order_by l).
Proof.
  intros Ha Hb Hlt.
  assert (¬ before b a (order_by l)) as Hn.
  { intros H. apply (before_sorted _ _ _ _ (order_by_sorted l)) in H.
    congruence. }
  split; [| done].
  destruct (before_or a b (order_by l)) as [H|H]; try done.
  intros ->. destruct (order_le_total b b); congruence.
Qed.

(** ** The WHERE clause *)

Lemma sql_eq_spec col lit : sql_eq col lit = true ↔ col = Some lit.
Proof.
  destruct col as [s|]; simpl; [| done].
  rewrite bool_decide_eq_true. naive_solver.
Qed.

Lemma sql_ne_spec col lit :
  sql_ne col lit = true ↔ ∃ s, col = Some s ∧ s ≠ lit.
Proof.
  destruct col as [s|]; simpl; [| naive_solver].
  rewrite negb_true_iff, bool_decide_eq_false. naive_solver.
Qed.

Lemma category_clause_spec cf r :
  category_clause cf r = true ↔ cf = "all" ∨ Task.category r = Some cf.
Proof.
  unfold category_clause. case_bool_decide as H.
  - rewrite sql_eq_spec. naive_solver.
  - naive_solver.
Qed.

Lemma priority_clause_spec pf r :
  priority_clause pf r = true ↔ pf = "all" ∨ Task.priority r = Some pf.
Proof.
  unfold priority_clause. case_bool_decide as H.
  - rewrite sql_eq_spec. naive_solver.
  - naive_solver.
Qed.

Lemma where_clause_spec u sf cf pf r :
  where_clause u sf cf pf r = true ↔
    Task.user_id r = u ∧ status_clause sf r = true
    ∧ category_clause cf r = true ∧ priority_clause pf r = true.
Proof.
  unfold where_clause.
  rewrite !andb_true_iff, bool_decide_eq_true. naive_solver.
Qed.

Lemma elem_of_get_tasks u sf cf pf db r :
  r ∈ get_tasks u sf cf pf db ↔
    r ∈ rows db ∧ where_clause u sf cf pf r = true.
Proof.
  unfold get_tasks.
  rewrite elem_of_order_by, list_elem_of_filter, Is_true_true. naive_solver.
Qed.

Lemma elem_of_get_all_tasks u db r :
  r ∈ get_all_tasks u db ↔ r ∈ rows db ∧ Task.user_id r = u.
Proof.
  unfold get_all_tasks.
  rewrite elem_of_order_by, list_elem_of_filter. naive_solver.
Qed.

(** The four cases of the status filter. *)
Lemma status_clause_deleted r :
  status_clause "deleted" r = true ↔ Task.status r = Some "deleted".
Proof. unfold status_clause. simpl. apply sql_eq_spec. Qed.

Lemma status_clause_pending r :
  status_clause "pending" r = true ↔ Task.status r = Some "pending".
Proof. unfold status_clause. simpl. apply sql_eq_spec. Qed.

Lemma status_clause_completed r :
  status_clause "completed" r = true ↔ Task.status r = Some "completed".
Proof. unfold status_clause. simpl. apply sql_eq_spec. Qed.

Lemma status_clause_other sf r :
  sf ≠ "deleted" → sf ≠ "pending" → sf ≠ "completed" →
  status_clause sf r = sql_ne (Task.status r) "deleted".
Proof.
  intros H1 H2 H3. unfold status_clause.
  by rewrite !bool_decide_eq_false_2.
Qed.

Lemma status_clause_all r :
  status_clause "all" r = true ↔
    ∃ s, Task.status r = Some s ∧ s ≠ "deleted".
Proof. rewrite status_clause_other by done. apply sql_ne_spec. Qed.

(** ** The routes on the sample tables *)

Example listing_dated :
  map Task.id (get_tasks alice "all" "all" "all" db_dated) = [2; 1; 3].
Proof. by vm_compute. Qed.

Example listing_far_due :
  map Task.id (get_all_tasks alice db_far_due) = [2; 1].
Proof. by vm_compute. Qed.

Example listing_trash :
  map Task.id (get_tasks alice "deleted" "all" "all" db_trashed) = [1]
  ∧ get_tasks alice "all" "all" "all" db_trashed = []
  ∧ get_tasks bob "deleted" "all" "all" db_trashed = [].
Proof. by vm_compute. Qed.

Example create_without_title :
  create_task alice t0 (Object {[ "description" := JStr "d" ]}) init_db
  = (Jsonify ErrorInvalid 400, init_db)
  ∧ create_task alice t0 (Object ∅) init_db = (Jsonify ErrorInvalid 400, init_db)
  ∧ create_task alice t0 (Object {[ "title" := JNull ]}) init_db
    = (Jsonify (ErrorExn IntegrityError) 500, init_db).
Proof. by vm_compute. Qed.

Example edit_without_fields :
  update_task 1 alice (Object {[ "title" := JStr "b" ]}) db_trashed
  = (InternalServerError (KeyError "description"), db_trashed).
Proof. by vm_compute. Qed.

Example create_not_an_object :
  create_task alice t0 Null init_db = (Jsonify ErrorInvalid 400, init_db)
  ∧ create_task alice t0 (Number 0) init_db
    = (Jsonify ErrorInvalid 400, init_db)
  ∧ create_task alice t0 (Array [JStr "name"]) init_db
    = (Jsonify ErrorInvalid 400, init_db)
  ∧ create_task alice t0 (Boolean true) init_db
    = (Jsonify (ErrorExn TypeError) 500, init_db)
  ∧ create_task alice t0 (Text "a title") init_db
    = (Jsonify (ErrorExn TypeError) 500, init_db)
  ∧ create_task alice t0 (Array [JStr "title"]) init_db
    = (Jsonify (ErrorExn TypeError) 500, init_db).
Proof. by vm_compute. Qed.

Example edit_not_an_object :
  update_task 1 alice (Number 5) db_trashed
  = (InternalServerError TypeError, db_trashed)
  ∧ update_task 1 alice (Array [JStr "status"]) db_trashed
    = (InternalServerError TypeError, db_trashed)
  ∧ update_task 1 alice (Text "status") db_trashed
    = (InternalServerError TypeError, db_trashed).
Proof. by vm_compute. Qed.

Example id_too_large :
  update_task (2 ^ 63) alice (Object {[ "status" := JStr "completed" ]})
    db_trashed
  = (InternalServerError OverflowError, db_trashed)
  ∧ hard_delete_single_task (2 ^ 63) alice db_trashed
    = (InternalServerError OverflowError, db_trashed)
  ∧ hard_delete_single_task (2 ^ 63 - 1) alice db_trashed
    = (Jsonify Success 200, db_trashed).
Proof. by vm_compute. Qed.

(** ** Status filters *)

(** C1, as the claim states it, fails: a task created with the status
    [archived] is listed under the filter [all], and its status is neither
    pending nor completed. *)
Lemma all_lists_archived :
  ¬ (∀ r, r ∈ get_tasks alice "all" "all" "all" db_archived →
          Task.status r = Some "pending" ∨ Task.status r = Some "completed").
Proof.
  intros H.
  destruct (H (Task.mk 1 "a" (Some "") None (Some "important")
                 (Some "personnel") (Some "archived") t0 alice))
    as [?|?]; [| done | done].
  vm_compute. apply list_elem_of_here.
Qed.

(** C1 (amended): under [all] every listed task has a status, and it is
    not [deleted]; under [deleted] every listed task is deleted; under
    [pending] (resp. [completed]) the listed tasks are exactly the owner's
    pending (resp. completed) rows that pass the category and priority
    filters. *)
Theorem status_filter_listing u cf pf db r :
  (r ∈ get_tasks u "all" cf pf db →
     Task.user_id r = u ∧ Task.status r ≠ Some "deleted"
     ∧ ∃ s, Task.status r = Some s ∧ s ≠ "deleted")
  ∧ (r ∈ get_tasks u "deleted" cf pf db →
     Task.user_id r = u ∧ Task.status r = Some "deleted")
  ∧ (r ∈ get_tasks u "pending" cf pf db ↔
     r ∈ rows db ∧ Task.user_id r = u ∧ Task.status r = Some "pending"
     ∧ category_clause cf r = true ∧ priority_clause pf r = true)
  ∧ (r ∈ get_tasks u "completed" cf pf db ↔
     r ∈ rows db ∧ Task.user_id r = u ∧ Task.status r = Some "completed"
     ∧ category_clause cf r = true ∧ priority_clause pf r = true).
Proof.
  rewrite !elem_of_get_tasks, !where_clause_spec.
  rewrite status_clause_all, status_clause_deleted,
    status_clause_pending, status_clause_completed.
  repeat split; try naive_solver.
Qed.

(** ** Filter composition *)

(** The status predicate of a filter, case by case. *)
Lemma status_clause_spec sf r :
  status_clause sf r = true ↔
    (sf = "deleted" ∧ Task.status r = Some "deleted")
    ∨ (sf = "pending" ∧ Task.status r = Some "pending")
    ∨ (sf = "completed" ∧ Task.status r = Some "completed")
    ∨ (sf ≠ "deleted" ∧ sf ≠ "pending" ∧ sf ≠ "completed"
       ∧ ∃ s, Task.status r = Some s ∧ s ≠ "deleted").
Proof.
  destruct (decide (sf = "deleted")) as [->|Hd].
  { rewrite status_clause_deleted. naive_solver. }
  destruct (decide (sf = "pending")) as [->|Hp].
  { rewrite status_clause_pending. naive_solver. }
  destruct (decide (sf = "completed")) as [->|Hc].
  { rewrite status_clause_completed. naive_solver. }
  rewrite status_clause_other, sql_ne_spec by done. naive_solver.
Qed.

(** C8: a row is listed exactly when it is a row of the owner that
    satisfies the status predicate of the filter, and the category filter
    is [all] or equals its category, and the priority filter is [all] or
    equals its priority. The status predicate is the one [get_tasks] builds:
    equality with the filter for [deleted], [pending] and [completed], and
    a status other than [deleted] for any other filter. *)
Theorem filters_compose_conjunctively u sf cf pf db r :
  (r ∈ get_tasks u sf cf pf db ↔
     (r ∈ rows db ∧ Task.user_id r = u)
     ∧ status_clause sf r = true
     ∧ (cf = "all" ∨ Task.category r = Some cf)
     ∧ (pf = "all" ∨ Task.priority r = Some pf))
  ∧ (status_clause sf r = true ↔
     (sf = "deleted" ∧ Task.status r = Some "deleted")
     ∨ (sf = "pending" ∧ Task.status r = Some "pending")
     ∨ (sf = "completed" ∧ Task.status r = Some "completed")
     ∨ (sf ≠ "deleted" ∧ sf ≠ "pending" ∧ sf ≠ "completed"
        ∧ ∃ s, Task.status r = Some s ∧ s ≠ "deleted")).
Proof.
  split; [| apply status_clause_spec].
  rewrite elem_of_get_tasks, where_clause_spec.
  rewrite category_clause_spec, priority_clause_spec. naive_solver.
Qed.

(** ** Unrecognised status filters *)

(** C10, as the claim states it, fails: a task created with a null status
    is a task of the owner whose status is not [deleted], and no filtered
    listing returns it. *)
Lemma null_status_unlisted :
  ¬ (∀ r, r ∈ rows db_null_status → Task.user_id r = alice →
          Task.status r ≠ Some "deleted" →
          r ∈ get_tasks alice "archived" "all" "all" db_null_status).
Proof.
  intros H.
  specialize (H (Task.mk 1 "a" (Some "") None (Some "important")
                   (Some "personnel") None t0 alice)).
  vm_compute in H.
  assert (∀ x : task, x ∉ @nil task) as Hn by (intros x Hx; inversion Hx).
  eapply Hn, H; [apply list_elem_of_here | done | done].
Qed.

(** C10 (amended): a status filter other than [pending], [completed] and
    [deleted] lists what [all] lists: the owner's rows whose status is a
    stored value other than [deleted] (a row whose status is NULL is not
    among them), subject to the category and priority filters. *)
Theorem unrecognised_status_filter u sf cf pf db :
  sf ≠ "pending" → sf ≠ "completed" → sf ≠ "deleted" →
  get_tasks u sf cf pf db = get_tasks u "all" cf pf db
  ∧ ∀ r, r ∈ get_tasks u sf cf pf db ↔
      r ∈ rows db ∧ Task.user_id r = u
      ∧ (∃ s, Task.status r = Some s ∧ s ≠ "deleted")
      ∧ (cf = "all" ∨ Task.category r = Some cf)
      ∧ (pf = "all" ∨ Task.priority r = Some pf).
Proof.
  intros Hp Hc Hd.
  assert (∀ r, status_clause sf r = status_clause "all" r) as Hs.
  { intros r. by rewrite !status_clause_other. }
  split.
  - unfold get_tasks, where_clause. f_equal.
    apply list_filter_iff. intros r. by rewrite Hs.
  - intros r. rewrite elem_of_get_tasks, where_clause_spec.
    rewrite category_clause_spec, priority_clause_spec, Hs, status_clause_all.
    naive_solver.
Qed.

Lemma unrecognised_status_filter_witness :
  get_tasks alice "archived" "all" "all" db_archived
  = get_tasks alice "all" "all" "all" db_archived.
Proof.
  apply (unrecognised_status_filter alice "archived" "all" "all" db_archived);
    done.
Defined.

(** ** Order of a listing *)

Lemma listing_order_by u db l : listing u db l → ∃ l0, l = order_by l0.
Proof.
  intros [(sf & cf & pf & ->) | ->]; unfold get_tasks, get_all_tasks; eauto.
Qed.

Lemma filter_map_comm (f : task → task) (P : task → Prop)
    `{!∀ x, Decision (P x)} (l : list task) :
  (∀ x, P (f x) ↔ P x) → filter P (map f l) = map f (filter P l).
Proof.
  intros Hf. induction l as [|x l IH]; simpl; [done |].
  rewrite !filter_cons, IH.
  destruct (decide (P (f x))) as [Hfx|Hfx], (decide (P x)) as [Hx|Hx];
    simpl; try done; pose proof (Hf x); tauto.
Qed.

Lemma order_le_set_priority p q a b :
  order_le (Task.set_priority p a) (Task.set_priority q b) = order_le a b.
Proof. by apply order_le_ext. Qed.

(** C2, as the claim states it, fails: a task due on 9999-12-31 is listed
    after a younger task that has no due date. *)
Lemma undated_before_far_due :
  let l := get_tasks alice "all" "all" "all" db_far_due in
  ¬ (∀ a b, a ∈ l → b ∈ l →
            is_Some (Task.due_date a) → Task.due_date b = None →
            before a b l).
Proof.
  intros l H.
  pose (a := Task.mk 1 "a" (Some "") (Some "9999-12-31") (Some "important")
               (Some "personnel") (Some "pending") t0 alice).
  pose (b := Task.mk 2 "b" (Some "") None (Some "important")
               (Some "personnel") (Some "pending") t1 alice).
  assert (before a b l) as Hb.
  { apply H; [vm_compute; set_solver | vm_compute; set_solver | by eexists | done]. }
  apply (before_sorted (λ x y, order_le x y = true)) in Hb;
    [| apply order_by_sorted].
  vm_compute in Hb. done.
Qed.

(** C2 (amended): in every listing, of two tasks with due dates the one
    with the earlier date (in text order) stands first; a task with no due
    date is ranked as if due on 9999-12-31, so it stands after every task
    due before that day; among tasks of equal rank (equal dates, or both
    without) the one created later stands first; and rewriting the
    priorities of the table changes no listing's order. *)
Theorem listing_order u db l a b :
  listing u db l → a ∈ l → b ∈ l →
  (∀ da db', Task.due_date a = Some da → Task.due_date b = Some db' →
     String.ltb da db' = true → before a b l ∧ ¬ before b a l)
  ∧ (∀ da, Task.due_date a = Some da → String.ltb da "9999-12-31" = true →
     Task.due_date b = None → before a b l ∧ ¬ before b a l)
  ∧ (due_key a = due_key b →
     String.ltb (Task.created_at b) (Task.created_at a) = true →
     before a b l ∧ ¬ before b a l)
  ∧ (∀ p, get_all_tasks u (reprioritise p db)
          = map (λ r, Task.set_priority (p r) r) (get_all_tasks u db))
  ∧ (∀ p sf cf, get_tasks u sf cf "all" (reprioritise p db)
          = map (λ r, Task.set_priority (p r) r) (get_tasks u sf cf "all" db)).
Proof.
  intros Hl Ha Hb.
  destruct (listing_order_by _ _ _ Hl) as [l0 ->].
  assert (∀ x y, String.compare (due_key x) (due_key y) = Lt →
                 order_le y x = false) as Hlt.
  { intros x y E. unfold order_le.
    by rewrite (proj2 (compare_Gt_Lt (due_key y) (due_key x)) E). }
  split; [| split; [| split; [| split]]].
  - intros da db' Ea Eb Hd. apply order_by_before; try done.
    apply Hlt. unfold due_key. rewrite Ea, Eb. by apply ltb_compare.
  - intros da Ea Hd Eb. apply order_by_before; try done.
    apply Hlt. unfold due_key. rewrite Ea, Eb. by apply ltb_compare.
  - intros Ek Hc. apply order_by_before; try done.
    unfold order_le. rewrite Ek, compare_refl.
    apply ltb_compare, compare_Gt_Lt in Hc. unfold String.leb. by rewrite Hc.
  - intros p. unfold get_all_tasks, reprioritise. simpl.
    rewrite filter_map_comm by done.
    apply order_by_map. intros; apply order_le_set_priority.
  - intros p sf cf. unfold get_tasks, reprioritise. simpl.
    rewrite filter_map_comm by done.
    apply order_by_map. intros; apply order_le_set_priority.
Qed.

Lemma listing_order_witness :
  let l := get_tasks alice "all" "all" "all" db_dated in
  let a := Task.mk 2 "b" (Some "") (Some "2024-06-01") (Some "important")
             (Some "personnel") (Some "pending") t1 alice in
  let b := Task.mk 1 "a" (Some "") (Some "2024-07-15") (Some "important")
             (Some "personnel") (Some "pending") t0 alice in
  before a b l ∧ ¬ before b a l.
Proof.
  intros l a b.
  refine (proj1 (listing_order alice db_dated l a b _ _ _)
            "2024-06-01" "2024-07-15" _ _ _).
  - left. by exists "all", "all", "all".
  - vm_compute. set_solver.
  - vm_compute. set_solver.
  - reflexivity.
  - reflexivity.
  - reflexivity.
Defined.

(** ** Creating a task *)

Lemma has_key_true k (data : gmap string json) j :
  data !! k = Some j → has_key k data = true.
Proof. intros H. unfold has_key. apply bool_decide_eq_true. by exists j. Qed.

Lemma has_key_false k (data : gmap string json) :
  data !! k = None → has_key k data = false.
Proof.
  intros H. unfold has_key. apply bool_decide_eq_false.
  rewrite H. by intros [? ?].
Qed.

(** The route on a JSON object, where no operation on the body fails. *)
Lemma create_task_Object u now (data : gmap string json) db :
  create_task u now (Object data) db =
    if (size data =? 0)%nat || negb (has_key "title" data) then
      (Jsonify ErrorInvalid 400, db)
    else
      match
        title ←! subscript data "title";
        insert_task title (get data "description" (JStr ""))
          (get data "due_date" JNull) (get data "priority" (JStr "important"))
          (get data "category" (JStr "personnel"))
          (get data "status" (JStr "pending")) u now db
      with
      | Ok db' => (Jsonify Success 201, db')
      | Raise e => (Jsonify (ErrorExn e) 500, db)
      end.
Proof.
  unfold create_task. simpl.
  destruct (size data =? 0)%nat; simpl; [done |].
  destruct (has_key "title" data); simpl; [| done].
  destruct (subscript data "title") as [title|]; simpl; [| done].
  by destruct (insert_task _ _ _ _ _ _ _ _ _).
Qed.

(** A body that is not an object is never stored: it is refused when it is
    falsy or holds no ['title'], and breaks [data['title']] otherwise
    (a number or [true] breaks the guard itself). *)
Lemma create_task_not_Object u now data db :
  (∀ d, data ≠ Object d) →
  create_task u now data db =
    if negb (truthy data) then (Jsonify ErrorInvalid 400, db)
    else
      match contains "title" data with
      | Ok false => (Jsonify ErrorInvalid 400, db)
      | _ => (Jsonify (ErrorExn TypeError) 500, db)
      end.
Proof.
  intros Hd. unfold create_task.
  destruct data as [d|items|s|z|b|]; [by destruct (Hd d) | ..]; simpl.
  - destruct (length items =? 0)%nat; simpl; [done |].
    by destruct (bool_decide (JStr "title" ∈ items)).
  - destruct (bool_decide (s = "")); simpl; [done |].
    by destruct (occurs "title" s).
  - by destruct (z =? 0).
  - by destruct b.
  - done.
Qed.

Lemma create_task_not_Object_snd u now data db :
  (∀ d, data ≠ Object d) → snd (create_task u now data db) = db.
Proof.
  intros Hd. rewrite create_task_not_Object by done.
  destruct (negb (truthy data)); [done |].
  by destruct (contains "title" data) as [[|]|].
Qed.

Lemma create_task_without_title u now (data : gmap string json) db :
  data !! "title" = None →
  create_task u now (Object data) db = (Jsonify ErrorInvalid 400, db).
Proof.
  intros H. rewrite create_task_Object.
  by rewrite (has_key_false _ _ H), orb_true_r.
Qed.

Lemma create_task_with_title u now (data : gmap string json) db title :
  data !! "title" = Some title →
  create_task u now (Object data) db =
    match insert_task title (get data "description" (JStr ""))
            (get data "due_date" JNull) (get data "priority" (JStr "important"))
            (get data "category" (JStr "personnel"))
            (get data "status" (JStr "pending")) u now db with
    | Ok db' => (Jsonify Success 201, db')
    | Raise e => (Jsonify (ErrorExn e) 500, db)
    end.
Proof.
  intros H. rewrite create_task_Object.
  rewrite (has_key_true _ _ _ H). simpl.
  assert (size data ≠ 0%nat) as Hn.
  { apply map_size_non_empty_iff. intros ->. by rewrite lookup_empty in H. }
  apply Nat.eqb_neq in Hn. rewrite Hn. simpl.
  unfold subscript. by rewrite H.
Qed.

Lemma insert_task_Ok ti de du pr ca st u now db db' :
  insert_task ti de du pr ca st u now db = Ok db' →
  ∃ t vde vdu vpr vca vst,
    adapt st = Ok vst
    ∧ db' = mkStore
        (rows db ++
         [Task.mk (seq db + 1) t (text_affinity vde) (text_affinity vdu)
            (text_affinity vpr) (text_affinity vca) (text_affinity vst)
            now u])
        (seq db + 1).
Proof.
  unfold insert_task.
  destruct (adapt ti) as [vti|]; simpl; [| done].
  destruct (adapt de) as [vde|]; simpl; [| done].
  destruct (adapt du) as [vdu|]; simpl; [| done].
  destruct (adapt pr) as [vpr|]; simpl; [| done].
  destruct (adapt ca) as [vca|]; simpl; [| done].
  destruct (adapt st) as [vst|]; simpl; [| done].
  destruct (text_affinity vti) as [t|]; [| done].
  intros [= <-]. by exists t, vde, vdu, vpr, vca, vst.
Qed.

(** C3, as the claim states it, fails: a body that names the status
    [completed] is accepted and stored with that status. *)
Lemma created_as_completed :
  create_task alice t0 (Object {[ "title" := JStr "a"; "status" := JStr "completed" ]})
    init_db
  = (Jsonify Success 201,
     mkStore [Task.mk 1 "a" (Some "") None (Some "important")
                (Some "personnel") (Some "completed") t0 alice] 1)
  ∧ Some "completed" ≠ Some "pending".
Proof. split; [by vm_compute | done]. Qed.

(** C3 (amended): a successful Create, whatever JSON value the body is,
    comes from an object and appends one row; its owner is the account
    that issued the call; its status is what the body's [status] field
    holds when the body has one, and [pending] when it has none. *)
Theorem created_task_owner_status u now (body : payload) db db' :
  create_task u now body db = (Jsonify Success 201, db') →
  ∃ data r, body = Object data
    ∧ rows db' = rows db ++ [r]
    ∧ Task.user_id r = u
    ∧ (∃ v, adapt (get data "status" (JStr "pending")) = Ok v
            ∧ Task.status r = text_affinity v)
    ∧ (data !! "status" = None → Task.status r = Some "pending")
    ∧ (∀ s, data !! "status" = Some (JStr s) → Task.status r = Some s).
Proof.
  intros H.
  assert (∃ data, body = Object data) as [data ->].
  { destruct body as [d|items|s|z|b|] eqn:Hb; [by exists d | ..];
      rewrite create_task_not_Object in H by done;
      (destruct (negb (truthy _)); [done |]);
      by destruct (contains _ _) as [[|]|]. }
  exists data.
  destruct (data !! "title") as [title|] eqn:Ht.
  - rewrite (create_task_with_title _ _ _ _ _ Ht) in H.
    destruct (insert_task _ _ _ _ _ _ _ _ _) as [db1|e] eqn:Hi; [| done].
    injection H as ->.
    apply insert_task_Ok in Hi as (t & vde & vdu & vpr & vca & vst & Hst & ->).
    eexists. split; [done |]. split; [done |]. simpl. split; [done |].
    split; [by exists vst |].
    unfold get in Hst. split.
    + intros Hn. rewrite Hn in Hst. simpl in Hst. by injection Hst as <-.
    + intros s Hs. rewrite Hs in Hst. simpl in Hst. by injection Hst as <-.
  - by rewrite (create_task_without_title _ _ _ _ Ht) in H.
Qed.

Lemma created_task_owner_status_witness :
  ∃ r, rows db_archived = rows init_db ++ [r]
    ∧ Task.user_id r = alice
    ∧ Task.status r = Some "archived".
Proof.
  assert (create_task alice t0
            (Object {[ "title" := JStr "a"; "status" := JStr "archived" ]}) init_db
          = (Jsonify Success 201, db_archived)) as H
    by (vm_compute; reflexivity).
  destruct (created_task_owner_status alice t0 _ init_db db_archived H)
    as (data & r & [= <-] & Hr & Hu & _ & _ & Hs).
  exists r. split; [done |]. split; [done |]. by apply Hs.
Defined.

(** C5: the route falls short of the claim, and of the page. The add form
    refuses a title that is blank ([addTask] answers "Titre requis"), but
    the route tests only that the body holds a ['title']: a body whose
    title is the empty string is stored and answered with 201, not with
    the validation error. A body that is a number breaks the test itself
    and is answered with 500, not with the validation error either. *)
Theorem empty_title_created :
  create_task alice t0 (Object {[ "title" := JStr "" ]}) init_db
  = (Jsonify Success 201,
     mkStore [Task.mk 1 "" (Some "") None (Some "important")
                (Some "personnel") (Some "pending") t0 alice] 1)
  ∧ ¬ ValidationError (Jsonify Success 201)
  ∧ addTask (λ title, title) (mkForm "" "" "" "important" "personnel") = None
  ∧ create_task alice t0 (Number 5) init_db
    = (Jsonify (ErrorExn TypeError) 500, init_db)
  ∧ ¬ ValidationError (Jsonify (ErrorExn TypeError) 500).
Proof.
  split; [by vm_compute |]. split; [by vm_compute |].
  split; [by vm_compute |]. split; by vm_compute.
Qed.

(** ** Requests for a task that is not there *)

(** The id of a request is bound to a [?]: it must fit 64 bits. *)
Lemma adapt_id task_id :
  - 2 ^ 63 <= task_id < 2 ^ 63 → adapt (JInt task_id) = Ok (SqlInt task_id).
Proof.
  intros H. unfold adapt.
  replace (- 2 ^ 63 <=? task_id) with true by (symmetry; apply Z.leb_le; lia).
  by replace (task_id <? 2 ^ 63) with true by (symmetry; apply Z.ltb_lt; lia).
Qed.

Lemma adapt_id_overflow task_id :
  2 ^ 63 <= task_id → adapt (JInt task_id) = Raise OverflowError.
Proof.
  intros H. unfold adapt.
  replace (task_id <? 2 ^ 63) with false by (symmetry; apply Z.ltb_ge; lia).
  by rewrite andb_false_r.
Qed.

(** The PUT route on a JSON object, where no operation on the body but
    the reading of a field fails. *)
Lemma update_task_Object task_id u (data : gmap string json) db :
  update_task task_id u (Object data) db =
    match
      if has_key "status" data && (size data =? 1)%nat then
        status ←! subscript data "status";
        update_status status task_id u db
      else
        title ←! subscript data "title";
        description ←! subscript data "description";
        due_date ←! subscript data "due_date";
        priority ←! subscript data "priority";
        category ←! subscript data "category";
        update_fields title description due_date priority category
          task_id u db
    with
    | Ok db' => (Jsonify Success 200, db')
    | Raise e => (InternalServerError e, db)
    end.
Proof.
  unfold update_task. simpl.
  by destruct (has_key "status" data); simpl;
    [destruct (size data =? 1)%nat |].
Qed.

(** A body that is not an object breaks the PUT route before any
    statement runs: a number, a boolean or null at ['status' in data], an
    array or a string at [data['status']] or [data['title']]. *)
Lemma update_task_not_Object task_id u data db :
  (∀ d, data ≠ Object d) →
  update_task task_id u data db = (InternalServerError TypeError, db).
Proof.
  intros Hd. unfold update_task.
  destruct data as [d|items|s|z|b|]; [by destruct (Hd d) | ..]; simpl;
    [| | done..].
  - destruct (bool_decide (JStr "status" ∈ items)); simpl; [| done].
    by destruct (length items =? 1)%nat.
  - destruct (occurs "status" s); simpl; [| done].
    by destruct (String.length s =? 1)%nat.
Qed.

Section absent.
Variables (task_id u : Z) (db : store).
Hypothesis absent :
  ∀ r, r ∈ rows db → ¬ (Task.id r = task_id ∧ Task.user_id r = u).

Lemma absent_targets r : r ∈ rows db → targets task_id u r = false.
Proof.
  intros Hr. unfold targets. apply andb_false_iff.
  rewrite !bool_decide_eq_false.
  destruct (decide (Task.id r = task_id)); [| by left].
  right. intros ?. by apply (absent r).
Qed.

Lemma absent_map (f : task → task) :
  map (λ r, if targets task_id u r then f r else r) (rows db) = rows db.
Proof.
  pose proof absent_targets as H. revert H.
  generalize (rows db) as l. induction l as [|x l IH]; intros H; [done |].
  simpl. rewrite (H x) by set_solver. f_equal. apply IH.
  intros r Hr. apply H. set_solver.
Qed.

Lemma absent_filter :
  filter (λ r, ¬ targets task_id u r) (rows db) = rows db.
Proof.
  pose proof absent_targets as H. revert H.
  generalize (rows db) as l. induction l as [|x l IH]; intros H; [done |].
  rewrite filter_cons_True.
  - f_equal. apply IH. intros r Hr. apply H. set_solver.
  - rewrite (H x) by set_solver. simpl. tauto.
Qed.

Lemma absent_existsb : existsb (targets task_id u) (rows db) = false.
Proof.
  pose proof absent_targets as H. revert H.
  generalize (rows db) as l. induction l as [|x l IH]; intros H; [done |].
  simpl. rewrite (H x) by set_solver. apply IH.
  intros r Hr. apply H. set_solver.
Qed.

Lemma absent_update_status st :
  update_status st task_id u db =
    (_ ←! adapt st; _ ←! adapt (JInt task_id); Ok db).
Proof.
  unfold update_status. generalize (adapt (JInt task_id)) as bound.
  intros bound. destruct (adapt st); simpl; [| done].
  destruct bound; simpl; [| done].
  rewrite absent_map. by destruct db.
Qed.

Lemma absent_update_fields ti de du pr ca :
  update_fields ti de du pr ca task_id u db =
    (_ ←! adapt ti; _ ←! adapt de; _ ←! adapt du; _ ←! adapt pr;
     _ ←! adapt ca; _ ←! adapt (JInt task_id); Ok db).
Proof.
  unfold update_fields. generalize (adapt (JInt task_id)) as bound.
  intros bound.
  destruct (adapt ti) as [vti|]; simpl; [| done].
  destruct (adapt de); simpl; [| done].
  destruct (adapt du); simpl; [| done].
  destruct (adapt pr); simpl; [| done].
  destruct (adapt ca); simpl; [| done].
  destruct bound; simpl; [| done].
  destruct (text_affinity vti).
  - rewrite absent_map. by destruct db.
  - by rewrite absent_existsb.
Qed.

Lemma absent_delete_task :
  delete_task task_id u db = (_ ←! adapt (JInt task_id); Ok db).
Proof.
  unfold delete_task. generalize (adapt (JInt task_id)) as bound.
  intros bound. destruct bound; simpl; [| done].
  rewrite absent_filter. by destruct db.
Qed.

(** Whatever the body, the PUT route answers a missing task with success
    or with the server's error page, and writes nothing. *)
Lemma absent_update_task (data : payload) :
  ∃ resp, update_task task_id u data db = (resp, db)
    ∧ (resp = Jsonify Success 200 ∨ ∃ e, resp = InternalServerError e).
Proof.
  destruct data as [d|items|s|z|b|];
    [| rewrite update_task_not_Object by done; eauto ..].
  rewrite update_task_Object.
  generalize (absent_update_status) (absent_update_fields).
  generalize (adapt (JInt task_id)) as bound. intros bound Hus Huf.
  destruct (has_key "status" d && (size d =? 1)%nat).
  - destruct (subscript d "status") as [st|e]; simpl; [| eauto].
    rewrite Hus. destruct (adapt st); simpl; [| eauto].
    destruct bound; simpl; eauto.
  - destruct (subscript d "title") as [ti|]; simpl; [| eauto].
    destruct (subscript d "description") as [de|]; simpl; [| eauto].
    destruct (subscript d "due_date") as [du|]; simpl; [| eauto].
    destruct (subscript d "priority") as [pr|]; simpl; [| eauto].
    destruct (subscript d "category") as [ca|]; simpl; [| eauto].
    rewrite Huf.
    destruct (adapt ti); simpl; [| eauto].
    destruct (adapt de); simpl; [| eauto].
    destruct (adapt du); simpl; [| eauto].
    destruct (adapt pr); simpl; [| eauto].
    destruct (adapt ca); simpl; [| eauto].
    destruct bound; simpl; eauto.
Qed.
End absent.

Lemma update_task_status_only task_id u st db :
  update_task task_id u (Object {[ "status" := st ]}) db =
    match update_status st task_id u db with
    | Ok db' => (Jsonify Success 200, db')
    | Raise e => (InternalServerError e, db)
    end.
Proof.
  rewrite update_task_Object. unfold has_key, subscript.
  by rewrite map_size_singleton, lookup_singleton_eq.
Qed.

Lemma update_task_edit task_id u ti de du pr ca db :
  update_task task_id u (Object (edit_body ti de du pr ca)) db =
    match update_fields ti de du pr ca task_id u db with
    | Ok db' => (Jsonify Success 200, db')
    | Raise e => (InternalServerError e, db)
    end.
Proof.
  rewrite update_task_Object. unfold has_key, subscript, edit_body.
  rewrite bool_decide_eq_false_2; simpl.
  - by repeat (rewrite lookup_insert_eq || rewrite lookup_insert_ne by done).
  - repeat (rewrite lookup_insert_ne by done).
    rewrite lookup_singleton_ne by done. by intros [? ?].
Qed.

(** An id that does not fit 64 bits cannot be bound: every PUT and DELETE
    that names it ends in the server's error page, and writes nothing. *)
Lemma update_task_overflow task_id u data db :
  2 ^ 63 <= task_id →
  ∃ e, update_task task_id u data db = (InternalServerError e, db).
Proof.
  intros Hid. apply adapt_id_overflow in Hid.
  destruct data as [d|items|s|z|b|];
    [| rewrite update_task_not_Object by done; eauto ..].
  rewrite update_task_Object.
  destruct (has_key "status" d && (size d =? 1)%nat).
  - destruct (subscript d "status") as [st|e]; simpl; [| eauto].
    unfold update_status. rewrite Hid.
    destruct (adapt st); simpl; eauto.
  - destruct (subscript d "title") as [ti|]; simpl; [| eauto].
    destruct (subscript d "description") as [de|]; simpl; [| eauto].
    destruct (subscript d "due_date") as [du|]; simpl; [| eauto].
    destruct (subscript d "priority") as [pr|]; simpl; [| eauto].
    destruct (subscript d "category") as [ca|]; simpl; [| eauto].
    unfold update_fields. rewrite Hid.
    destruct (adapt ti); simpl; [| eauto].
    destruct (adapt de); simpl; [| eauto].
    destruct (adapt du); simpl; [| eauto].
    destruct (adapt pr); simpl; [| eauto].
    destruct (adapt ca); simpl; eauto.
Qed.

Lemma hard_delete_overflow task_id u db :
  2 ^ 63 <= task_id →
  hard_delete_single_task task_id u db = (InternalServerError OverflowError, db).
Proof.
  intros Hid. unfold hard_delete_single_task, delete_task.
  by rewrite (adapt_id_overflow _ Hid).
Qed.

(** C4, as the claim states it, fails: on the empty table a status change,
    a full edit and a hard delete of task 7 are all answered with success,
    not with a not-found error. *)
Lemma absent_task_success :
  update_task 7 alice (Object {[ "status" := JStr "completed" ]}) init_db
    = (Jsonify Success 200, init_db)
  ∧ update_task 7 alice
      (Object (edit_body (JStr "a") (JStr "") JNull (JStr "urgent") (JStr "travail")))
      init_db
    = (Jsonify Success 200, init_db)
  ∧ hard_delete_single_task 7 alice init_db = (Jsonify Success 200, init_db)
  ∧ ¬ NotFoundError (Jsonify Success 200).
Proof. repeat split; by vm_compute. Qed.

(** C4 (amended): [task_id] is what the URL rule [<int:task_id>] hands to
    the view, a natural number of any size. When the owner has no task
    with that id, SetStatus, Update and HardDelete leave the table
    unchanged and never report a not-found error, whatever JSON value the
    body is. For an id that fits 64 bits HardDelete answers with success,
    and so do SetStatus and Update whenever the values of the body can be
    bound; for a larger id the three of them end in the server's error
    page, HardDelete with an overflow error. *)
Theorem absent_task_requests task_id u db :
  0 <= task_id →
  (∀ r, r ∈ rows db → ¬ (Task.id r = task_id ∧ Task.user_id r = u)) →
  (snd (hard_delete_single_task task_id u db) = db
   ∧ ¬ NotFoundError (fst (hard_delete_single_task task_id u db)))
  ∧ (∀ data : payload,
       snd (update_task task_id u data db) = db
       ∧ ¬ NotFoundError (fst (update_task task_id u data db)))
  ∧ (task_id < 2 ^ 63 →
       hard_delete_single_task task_id u db = (Jsonify Success 200, db)
       ∧ (∀ st v, adapt st = Ok v →
            update_task task_id u (Object {[ "status" := st ]}) db
            = (Jsonify Success 200, db))
       ∧ (∀ ti de du pr ca vti vde vdu vpr vca,
            adapt ti = Ok vti → adapt de = Ok vde → adapt du = Ok vdu →
            adapt pr = Ok vpr → adapt ca = Ok vca →
            update_task task_id u (Object (edit_body ti de du pr ca)) db
            = (Jsonify Success 200, db)))
  ∧ (2 ^ 63 <= task_id →
       hard_delete_single_task task_id u db
       = (InternalServerError OverflowError, db)
       ∧ (∀ data : payload,
            ∃ e, update_task task_id u data db = (InternalServerError e, db))).
Proof.
  intros Hpos Habs. split; [| split; [| split]].
  - unfold hard_delete_single_task.
    rewrite absent_delete_task by done.
    by destruct (adapt (JInt task_id)).
  - intros data.
    destruct (absent_update_task task_id u db Habs data)
      as (resp & -> & [-> | [e ->]]); by vm_compute.
  - intros Hid.
    assert (adapt (JInt task_id) = Ok (SqlInt task_id)) as Hb
      by (apply adapt_id; lia).
    split; [| split].
    + unfold hard_delete_single_task.
      rewrite absent_delete_task by done. by rewrite Hb.
    + intros st v Hst.
      rewrite update_task_status_only, absent_update_status by done.
      by rewrite Hst, Hb.
    + intros ti de du pr ca vti vde vdu vpr vca Hti Hde Hdu Hpr Hca.
      rewrite update_task_edit, absent_update_fields by done.
      by rewrite Hti, Hde, Hdu, Hpr, Hca, Hb.
  - intros Hid. split; [by apply hard_delete_overflow |].
    intros data. by apply update_task_overflow.
Qed.

Lemma absent_task_requests_witness :
  hard_delete_single_task 7 alice db_trashed = (Jsonify Success 200, db_trashed)
  ∧ update_task 1 bob (Object {[ "status" := JStr "pending" ]}) db_trashed
    = (Jsonify Success 200, db_trashed)
  ∧ hard_delete_single_task (2 ^ 63) alice db_trashed
    = (InternalServerError OverflowError, db_trashed).
Proof.
  assert (∀ i, i ≠ 1 →
            ∀ r, r ∈ rows db_trashed → ¬ (Task.id r = i ∧ Task.user_id r = alice))
    as Hid.
  { intros i Hi r Hr [Hr1 _]. vm_compute in Hr.
    apply list_elem_of_singleton in Hr. subst r. simpl in Hr1. lia. }
  assert (∀ r, r ∈ rows db_trashed → ¬ (Task.id r = 1 ∧ Task.user_id r = bob))
    as Hbob.
  { intros r Hr [_ Hu]. vm_compute in Hr.
    apply list_elem_of_singleton in Hr. subst r. simpl in Hu.
    unfold bob in Hu. lia. }
  split; [| split].
  - refine (proj1 (proj1 (proj2 (proj2
      (absent_task_requests 7 alice db_trashed _ (Hid 7 _)))) _)); lia.
  - refine (proj1 (proj2 (proj1 (proj2 (proj2
      (absent_task_requests 1 bob db_trashed _ Hbob))) _))
      (JStr "pending") _ eq_refl); lia.
  - refine (proj1 (proj2 (proj2 (proj2
      (absent_task_requests (2 ^ 63) alice db_trashed _ (Hid _ _)))) _)); lia.
Defined.

(** ** Emptying the trash *)

(** C7, as the claim states it, fails: the answer is the same success
    marker whether one row was purged or none, so it carries no count. *)
Lemma clear_trash_answer_has_no_count :
  fst (clear_trash alice db_trashed) = Jsonify Success 200
  ∧ purged db_trashed (snd (clear_trash alice db_trashed)) = 1%nat
  ∧ fst (clear_trash alice init_db) = Jsonify Success 200
  ∧ purged init_db (snd (clear_trash alice init_db)) = 0%nat.
Proof. repeat split; by vm_compute. Qed.

Lemma length_filter_complement (P : task → Prop) `{!∀ x, Decision (P x)}
    (l : list task) :
  (length (filter P l) + length (filter (λ x, ¬ P x) l))%nat = length l.
Proof.
  rewrite <- length_app. by rewrite filter_app_complement.
Qed.

(** C7 (amended): EmptyTrash always answers with the success marker (no
    count); the rows that remain are exactly the rows that are not deleted
    rows of the owner, in their order; and the number of rows it removes is
    the number of the owner's deleted rows. *)
Theorem clear_trash_purges u db :
  fst (clear_trash u db) = Jsonify Success 200
  ∧ (∀ r, r ∈ rows (snd (clear_trash u db)) ↔
          r ∈ rows db
          ∧ ¬ (Task.status r = Some "deleted" ∧ Task.user_id r = u))
  ∧ rows (snd (clear_trash u db))
    = filter (λ r, ¬ (Task.status r = Some "deleted" ∧ Task.user_id r = u))
        (rows db)
  ∧ purged db (snd (clear_trash u db))
    = length (filter (λ r, Task.status r = Some "deleted"
                           ∧ Task.user_id r = u) (rows db)).
Proof.
  assert (rows (snd (clear_trash u db))
          = filter (λ r, ¬ (Task.status r = Some "deleted"
                            ∧ Task.user_id r = u)) (rows db)) as Hrows.
  { simpl. apply list_filter_iff. intros r.
    rewrite andb_True, <- sql_eq_spec, bool_decide_spec, Is_true_true. done. }
  split; [done |]. split; [| split; [done |]].
  - intros r. rewrite Hrows, list_elem_of_filter. naive_solver.
  - unfold purged. rewrite Hrows.
    pose proof (length_filter_complement
      (λ r, Task.status r = Some "deleted" ∧ Task.user_id r = u) (rows db)).
    lia.
Qed.

(** ** Accounts do not see or touch each other's rows *)

Lemma get_tasks_tasks_of u sf cf pf db :
  get_tasks u sf cf pf db =
    order_by
      (filter (λ r, status_clause sf r && category_clause cf r
                    && priority_clause pf r)
              (tasks_of u db)).
Proof.
  unfold get_tasks, tasks_of. f_equal.
  rewrite list_filter_filter. apply list_filter_iff. intros r.
  unfold where_clause. rewrite !andb_True, bool_decide_spec. naive_solver.
Qed.

Lemma tasks_of_map (g : task → task) X Y l :
  X ≠ Y →
  (∀ r, Task.user_id r ≠ X → g r = r) →
  (∀ r, Task.user_id (g r) = Task.user_id r) →
  filter (λ r, Task.user_id r = Y) (map g l)
  = filter (λ r, Task.user_id r = Y) l.
Proof.
  intros Hne Hid Hu. induction l as [|x l IH]; simpl; [done |].
  rewrite !filter_cons, IH, Hu.
  destruct (decide (Task.user_id x = Y)) as [Hx|Hx]; [| done].
  rewrite Hid; [done | congruence].
Qed.

Lemma targets_user task_id u r : targets task_id u r = true → Task.user_id r = u.
Proof.
  unfold targets. rewrite andb_true_iff, !bool_decide_eq_true. naive_solver.
Qed.

(** Every answer of the PUT route leaves a table that differs from the old
    one only in rows of the caller. *)
Lemma update_task_rows task_id u (body : payload) db :
  ∃ g : task → task,
    (∀ r, Task.user_id r ≠ u → g r = r)
    ∧ (∀ r, Task.user_id (g r) = Task.user_id r)
    ∧ (∀ r, Task.id (g r) = Task.id r)
    ∧ rows (snd (update_task task_id u body db)) = map g (rows db)
    ∧ seq (snd (update_task task_id u body db)) = seq db.
Proof.
  assert (∀ f : task → task,
    (∀ r, Task.user_id (f r) = Task.user_id r) →
    (∀ r, Task.id (f r) = Task.id r) →
    (∀ r, Task.user_id r ≠ u →
          (if targets task_id u r then f r else r) = r)
    ∧ (∀ r, Task.user_id (if targets task_id u r then f r else r)
            = Task.user_id r)
    ∧ (∀ r, Task.id (if targets task_id u r then f r else r)
            = Task.id r)) as Hg.
  { intros f Hf Hi. split; [| split]; intros r.
    - intros Hr. destruct (targets task_id u r) eqn:E; [| done].
      by apply targets_user in E.
    - by destruct (targets task_id u r).
    - by destruct (targets task_id u r). }
  assert (∃ g : task → task,
    (∀ r, Task.user_id r ≠ u → g r = r)
    ∧ (∀ r, Task.user_id (g r) = Task.user_id r)
    ∧ (∀ r, Task.id (g r) = Task.id r)
    ∧ rows db = map g (rows db)
    ∧ seq db = seq db) as Hsame.
  { exists (λ r, r). by rewrite map_id. }
  destruct body as [data|items|s|z|b|];
    [| by rewrite update_task_not_Object ..].
  rewrite update_task_Object.
  unfold update_status, update_fields.
  generalize (adapt (JInt task_id)) as bound. intros bound.
  destruct (has_key "status" data && (size data =? 1)%nat).
  - destruct (subscript data "status") as [st|]; simpl; [| done].
    destruct (adapt st) as [v|]; simpl; [| done].
    destruct bound; simpl; [| done].
    eexists. split; [| split; [| split; [| done]]]; by apply Hg.
  - destruct (subscript data "title") as [ti|]; simpl; [| done].
    destruct (subscript data "description") as [de|]; simpl; [| done].
    destruct (subscript data "due_date") as [du|]; simpl; [| done].
    destruct (subscript data "priority") as [pr|]; simpl; [| done].
    destruct (subscript data "category") as [ca|]; simpl; [| done].
    destruct (adapt ti) as [vti|]; simpl; [| done].
    destruct (adapt de); simpl; [| done].
    destruct (adapt du); simpl; [| done].
    destruct (adapt pr); simpl; [| done].
    destruct (adapt ca); simpl; [| done].
    destruct bound; simpl; [| done].
    destruct (text_affinity vti).
    + simpl. eexists. split; [| split; [| split; [| done]]]; by apply Hg.
    + by destruct (existsb _ _).
Qed.

(** The DELETE route either runs its statement or, when the id cannot be
    bound, ends in the server's error page with the table as it was. *)
Lemma hard_delete_cases task_id u db :
  (- 2 ^ 63 <= task_id < 2 ^ 63
   ∧ hard_delete_single_task task_id u db
     = (Jsonify Success 200,
        mkStore (filter (λ r, ¬ targets task_id u r) (rows db)) (seq db)))
  ∨ (¬ - 2 ^ 63 <= task_id < 2 ^ 63
     ∧ hard_delete_single_task task_id u db
       = (InternalServerError OverflowError, db)).
Proof.
  unfold hard_delete_single_task, delete_task, adapt.
  destruct (- 2 ^ 63 <=? task_id) eqn:E1;
    [destruct (task_id <? 2 ^ 63) eqn:E2 |]; simpl.
  - left. apply Z.leb_le in E1. apply Z.ltb_lt in E2. split; [lia | done].
  - right. apply Z.ltb_ge in E2. split; [lia | done].
  - right. apply Z.leb_gt in E1. split; [lia | done].
Qed.

Lemma run_tasks_of X Y m db :
  X ≠ Y → tasks_of Y (snd (run X m db)) = tasks_of Y db.
Proof.
  intros Hne. unfold tasks_of.
  assert (∀ task_id (data : payload),
    filter (λ r, Task.user_id r = Y)
      (rows (snd (update_task task_id X data db)))
    = filter (λ r, Task.user_id r = Y) (rows db)) as Hput.
  { intros task_id data.
    destruct (update_task_rows task_id X data db) as (g & Hid & Hu & _ & -> & _).
    by apply (tasks_of_map g X Y). }
  destruct m as [now body|task_id data|task_id st|task_id|]; simpl.
  - destruct body as [data|items|s|z|b|];
      [| by rewrite create_task_not_Object_snd ..].
    destruct (data !! "title") as [title|] eqn:Ht.
    + rewrite (create_task_with_title _ _ _ _ _ Ht).
      destruct (insert_task _ _ _ _ _ _ _ _ _) as [db1|e] eqn:Hi; [| done].
      apply insert_task_Ok in Hi as (t & ? & ? & ? & ? & ? & _ & ->).
      simpl. rewrite filter_app, filter_cons_False, filter_nil by done.
      apply app_nil_r.
    + by rewrite (create_task_without_title _ _ _ _ Ht).
  - apply Hput.
  - apply Hput.
  - destruct (hard_delete_cases task_id X db) as [[_ ->] | [_ ->]]; [| done].
    simpl. rewrite list_filter_filter. apply list_filter_iff. intros r.
    split; [naive_solver |]. intros Hr. split; [done |].
    destruct (targets task_id X r) eqn:E; [| simpl; tauto].
    apply targets_user in E. congruence.
  - rewrite list_filter_filter. apply list_filter_iff. intros r.
    split; [naive_solver |]. intros Hr. split; [done |].
    rewrite andb_True, bool_decide_spec. naive_solver.
Qed.

(** C9: for distinct accounts X and Y, no listing of X holds a row of Y,
    and every writing operation issued by X leaves the rows of Y, and so
    every listing of Y, as they were; nothing is assumed about ids, so the
    same id may exist under both accounts. *)
Theorem cross_account_isolation X Y db :
  X ≠ Y →
  (∀ sf cf pf r, r ∈ get_tasks X sf cf pf db → Task.user_id r ≠ Y)
  ∧ (∀ r, r ∈ get_all_tasks X db → Task.user_id r ≠ Y)
  ∧ (∀ m, tasks_of Y (snd (run X m db)) = tasks_of Y db)
  ∧ (∀ m sf cf pf,
       get_tasks Y sf cf pf (snd (run X m db)) = get_tasks Y sf cf pf db)
  ∧ (∀ m, get_all_tasks Y (snd (run X m db)) = get_all_tasks Y db).
Proof.
  intros Hne. split; [| split; [| split; [| split]]].
  - intros sf cf pf r Hr.
    apply elem_of_get_tasks in Hr as [_ Hw].
    apply where_clause_spec in Hw as [Hu _]. congruence.
  - intros r Hr. apply elem_of_get_all_tasks in Hr as [_ Hu]. congruence.
  - intros m. by apply run_tasks_of.
  - intros m sf cf pf. by rewrite !get_tasks_tasks_of, run_tasks_of.
  - intros m. unfold get_all_tasks. f_equal.
    by apply (run_tasks_of X Y m db).
Qed.

Lemma cross_account_isolation_witness :
  tasks_of bob (snd (run alice (HardDelete 1) db_shared_id))
  = tasks_of bob db_shared_id.
Proof.
  refine (proj1 (proj2 (proj2
    (cross_account_isolation alice bob db_shared_id _))) (HardDelete 1)).
  unfold alice, bob. lia.
Defined.

(** ** Status transitions *)

(** C6, as the claim states it, fails: the PUT route moves a task from the
    trash straight to [completed], and stores a status outside the three
    as well. *)
Lemma trashed_to_completed :
  rows db_trashed
    = [Task.mk 1 "a" (Some "") None (Some "important") (Some "personnel")
         (Some "deleted") t0 alice]
  ∧ update_task 1 alice (Object {[ "status" := JStr "completed" ]}) db_trashed
    = (Jsonify Success 200,
       mkStore [Task.mk 1 "a" (Some "") None (Some "important")
                  (Some "personnel") (Some "completed") t0 alice] 1)
  ∧ update_task 1 alice (Object {[ "status" := JStr "archived" ]}) db_trashed
    = (Jsonify Success 200,
       mkStore [Task.mk 1 "a" (Some "") None (Some "important")
                  (Some "personnel") (Some "archived") t0 alice] 1)
  ∧ ¬ transition "deleted" "completed".
Proof.
  split; [by vm_compute |]. split; [by vm_compute |].
  split; [by vm_compute |]. unfold transition. naive_solver.
Qed.

Lemma find_by_id (l : list task) r :
  NoDup (map Task.id l) → r ∈ l →
  List.find (λ t, bool_decide (Task.id t = Task.id r)) l = Some r.
Proof.
  induction l as [|x l IH]; simpl; intros Hnd Hr; [by inversion Hr |].
  apply NoDup_cons in Hnd as [Hx Hnd].
  apply elem_of_cons in Hr as [->|Hr].
  - by rewrite bool_decide_eq_true_2.
  - rewrite bool_decide_eq_false_2; [by apply IH |].
    intros E. apply Hx. rewrite E. by apply (list_elem_of_fmap_2 Task.id).
Qed.

Lemma NoDup_ids_filter (P : task → Prop) `{!∀ x, Decision (P x)}
    (l : list task) :
  NoDup (map Task.id l) → NoDup (map Task.id (filter P l)).
Proof.
  induction l as [|x l IH]; simpl; intros Hnd; [done |].
  apply NoDup_cons in Hnd as [Hx Hnd]. rewrite filter_cons.
  destruct (decide (P x)); [| by apply IH].
  simpl. apply NoDup_cons. split; [| by apply IH].
  intros Hin. apply Hx.
  apply (list_elem_of_fmap Task.id) in Hin as (y & Ey & Hy).
  apply list_elem_of_filter in Hy as [_ Hy].
  rewrite Ey. by apply (list_elem_of_fmap_2 Task.id).
Qed.

Lemma NoDup_ids_get_all_tasks u db :
  NoDup (map Task.id (rows db)) → NoDup (map Task.id (get_all_tasks u db)).
Proof.
  intros Hnd. unfold get_all_tasks.
  rewrite (fmap_Permutation Task.id _ _ (order_by_Permutation _)).
  by apply NoDup_ids_filter.
Qed.

Lemma set_status_same r s :
  Task.status r = Some s → Task.set_status (Some s) r = r.
Proof. destruct r. simpl. by intros ->. Qed.

Lemma targets_spec task_id u r :
  targets task_id u r = true ↔ Task.id r = task_id ∧ Task.user_id r = u.
Proof.
  unfold targets. by rewrite andb_true_iff, !bool_decide_eq_true.
Qed.

Lemma unique_by_id (l : list task) x r :
  NoDup (map Task.id l) → x ∈ l → r ∈ l → Task.id x = Task.id r → x = r.
Proof.
  induction l as [|y l IH]; simpl; intros Hnd Hx Hr E; [by inversion Hx |].
  apply NoDup_cons in Hnd as [Hy Hnd].
  apply elem_of_cons in Hx as [-> | Hx]; apply elem_of_cons in Hr as [-> | Hr].
  - done.
  - exfalso. apply Hy. rewrite E. by apply (list_elem_of_fmap_2 Task.id).
  - exfalso. apply Hy. rewrite <- E. by apply (list_elem_of_fmap_2 Task.id).
  - by apply IH.
Qed.

(** A rowid can be bound to a [?]. *)
Lemma rowid_range z : rowid z → - 2 ^ 63 <= z < 2 ^ 63.
Proof. unfold rowid. lia. Qed.

(** A status-only PUT with a text value, on an id that can be bound. *)
Lemma put_status_rows u task_id s db :
  - 2 ^ 63 <= task_id < 2 ^ 63 →
  snd (update_task task_id u (Object {[ "status" := JStr s ]}) db)
  = mkStore (map (λ x, if targets task_id u x
                       then Task.set_status (Some s) x else x) (rows db))
      (seq db).
Proof.
  intros Hid. rewrite update_task_status_only. unfold update_status.
  by rewrite (adapt_id _ Hid).
Qed.

(** When ids are distinct, [id = ? AND user_id = ?] with the id and the
    owner of a row of the table selects that row alone. *)
Lemma map_targets_row (F : task → task) u r (l : list task) :
  NoDup (map Task.id l) → r ∈ l → Task.user_id r = u →
  map (λ x, if targets (Task.id r) u x then F x else x) l
  = map (λ x, if bool_decide (x = r) then F x else x) l.
Proof.
  intros Hnd Hr Hu. apply map_ext_in. intros x Hx.
  apply list_elem_of_In in Hx.
  destruct (targets (Task.id r) u x) eqn:E.
  - apply targets_spec in E as [Ei _].
    assert (x = r) as -> by (by apply (unique_by_id l)).
    by rewrite bool_decide_eq_true_2.
  - rewrite bool_decide_eq_false_2; [done |]. intros ->.
    unfold targets in E. by rewrite Hu, !bool_decide_eq_true_2 in E.
Qed.

(** A status-only PUT on a row of the caller stores the value sent. *)
Lemma put_status_stored u r s db :
  - 2 ^ 63 <= Task.id r < 2 ^ 63 →
  r ∈ rows db → Task.user_id r = u →
  Task.set_status (Some s) r
  ∈ rows (snd (update_task (Task.id r) u (Object {[ "status" := JStr s ]}) db)).
Proof.
  intros Hid Hr Hu. rewrite put_status_rows by done. simpl.
  apply (list_elem_of_fmap
           (λ x, if targets (Task.id r) u x
                 then Task.set_status (Some s) x else x)).
  exists r. split; [| done].
  unfold targets. by rewrite !bool_decide_eq_true_2.
Qed.

(** The table after the page has sent a status for a row of its owner:
    that row holds the status, every other row is as it was. *)
Lemma put_row_status u db r s' :
  NoDup (map Task.id (rows db)) → rowid (Task.id r) →
  r ∈ rows db → Task.user_id r = u →
  serve u (Some (PUT (Task.id r) {[ "status" := JStr s' ]})) db
  = mkStore
      (map (λ x, if bool_decide (x = r) then Task.set_status (Some s') x
                 else x) (rows db))
      (seq db).
Proof.
  intros Hnd Hid Hr Hu. unfold serve.
  rewrite put_status_rows by by apply rowid_range.
  f_equal. by apply map_targets_row.
Qed.

Lemma keep_row_status db r s :
  Task.status r = Some s →
  db = mkStore
         (map (λ x, if bool_decide (x = r) then Task.set_status (Some s) x
                    else x) (rows db))
         (seq db).
Proof.
  intros Hs. destruct db as [l n]. simpl. f_equal.
  rewrite <- (map_id l) at 1. apply map_ext. intros x.
  case_bool_decide as E; [| done]. subst x. by rewrite set_status_same.
Qed.

(** C6 (amended): on a task list that is up to date, for a task whose
    status is pending, completed or deleted, the controls of the page send
    these requests and no other: toggle sends nothing for a deleted task,
    [completed] for a pending one and [pending] for a completed one; move
    to trash sends [deleted] once confirmed and nothing otherwise; restore
    sends [pending]. The table after the request holds the task with the
    status sent (its own when nothing was sent) and every other row as it
    was. So through the page a task stays where it is or moves along
    pending to completed, completed to pending, pending to deleted,
    completed to deleted, deleted to pending; a deleted task never goes
    to completed, and the status stays one of the three. The PUT route
    itself stores whatever status it is sent. *)
Theorem page_script_transitions u db r s c :
  NoDup (map Task.id (rows db)) → rowid (Task.id r) →
  r ∈ rows db → Task.user_id r = u → Task.status r = Some s →
  s = "pending" ∨ s = "completed" ∨ s = "deleted" →
  let req := script c (get_all_tasks u db) (Task.id r) in
  let put := λ s', Some (PUT (Task.id r) {[ "status" := JStr s' ]}) in
  req = match c with
        | Toggle =>
            if bool_decide (s = "deleted") then None
            else if bool_decide (s = "completed") then put "pending"
            else put "completed"
        | MoveToTrash confirmed => if confirmed then put "deleted" else None
        | Restore => put "pending"
        end
  ∧ ∃ s',
      (req = None ∧ s' = s ∨ req = put s')
      ∧ serve u req db
        = mkStore
            (map (λ x, if bool_decide (x = r)
                       then Task.set_status (Some s') x else x) (rows db))
            (seq db)
      ∧ Task.set_status (Some s') r ∈ rows (serve u req db)
      ∧ (s' = s ∨ transition s s')
      ∧ (s' = "pending" ∨ s' = "completed" ∨ s' = "deleted")
      ∧ (c = Toggle → s = "deleted" → req = None ∧ s' = s)
      ∧ (c = Restore → s' = "pending").
Proof.
  intros Hnd Hid Hr Hu Hs H3 req put.
  assert (req = match c with
        | Toggle =>
            if bool_decide (s = "deleted") then None
            else if bool_decide (s = "completed") then put "pending"
            else put "completed"
        | MoveToTrash confirmed => if confirmed then put "deleted" else None
        | Restore => put "pending"
        end) as Hreq.
  { subst req. destruct c as [|confirmed|]; simpl.
    - unfold toggleTask.
      rewrite find_by_id;
        [| by apply NoDup_ids_get_all_tasks | by apply elem_of_get_all_tasks].
      rewrite Hs. clear. subst put.
      destruct (decide (s = "deleted")) as [-> | Hd]; [done |].
      rewrite (bool_decide_eq_false_2 (Some s = Some "deleted")) by congruence.
      rewrite (bool_decide_eq_false_2 (s = "deleted")) by done.
      destruct (decide (s = "completed")) as [-> | Hc]; [done |].
      rewrite (bool_decide_eq_false_2 (Some s = Some "completed"))
        by congruence.
      by rewrite (bool_decide_eq_false_2 (s = "completed")).
    - by destruct confirmed.
    - done. }
  split; [done |].
  assert (∀ s', req = put s' →
            serve u req db
            = mkStore
                (map (λ x, if bool_decide (x = r)
                           then Task.set_status (Some s') x else x) (rows db))
                (seq db)) as Hput.
  { intros s' ->. by apply put_row_status. }
  assert (req = None →
            serve u req db
            = mkStore
                (map (λ x, if bool_decide (x = r)
                           then Task.set_status (Some s) x else x) (rows db))
                (seq db)) as Hnone.
  { intros ->. by apply keep_row_status. }
  assert (∀ s', serve u req db
            = mkStore
                (map (λ x, if bool_decide (x = r)
                           then Task.set_status (Some s') x else x) (rows db))
                (seq db) →
            Task.set_status (Some s') r ∈ rows (serve u req db)) as Hin.
  { intros s' ->. simpl.
    apply (list_elem_of_fmap
             (λ x, if bool_decide (x = r)
                   then Task.set_status (Some s') x else x)).
    exists r. by rewrite bool_decide_eq_true_2. }
  assert (∀ s', req = put s' →
            (req = None ∧ s' = s ∨ req = put s')
            ∧ serve u req db
              = mkStore
                  (map (λ x, if bool_decide (x = r)
                             then Task.set_status (Some s') x else x)
                       (rows db))
                  (seq db)
            ∧ Task.set_status (Some s') r ∈ rows (serve u req db)) as Hsent.
  { intros s' E. split; [by right |]. split; [by apply Hput |].
    by apply Hin, Hput. }
  assert (req = None →
            (req = None ∧ s = s ∨ req = put s)
            ∧ serve u req db
              = mkStore
                  (map (λ x, if bool_decide (x = r)
                             then Task.set_status (Some s) x else x)
                       (rows db))
                  (seq db)
            ∧ Task.set_status (Some s) r ∈ rows (serve u req db)) as Hkept.
  { intros E. split; [by left |]. split; [by apply Hnone |].
    by apply Hin, Hnone. }
  clear Hput Hnone Hin. clearbody req put. unfold transition.
  destruct c as [|confirmed|].
  - destruct H3 as [-> | [-> | ->]]; simpl in Hreq.
    + exists "completed". apply Hsent in Hreq as (H1 & H2 & H4).
      clear Hsent Hkept.
      split; [exact H1 |]. split; [exact H2 |]. split; [exact H4 |].
      split; [right; left; by split |]. split; [right; by left |].
      split; [intros _ [=] | intros [=]].
    + exists "pending". apply Hsent in Hreq as (H1 & H2 & H4).
      clear Hsent Hkept.
      split; [exact H1 |]. split; [exact H2 |]. split; [exact H4 |].
      split; [right; right; left; by split |]. split; [by left |].
      split; [intros _ [=] | intros [=]].
    + exists "deleted". pose proof Hreq as E.
      apply Hkept in E as (H1 & H2 & H4). clear Hsent Hkept.
      split; [exact H1 |]. split; [exact H2 |]. split; [exact H4 |].
      split; [by left |]. split; [right; by right |].
      split; [intros _ _; by split | intros [=]].
  - destruct confirmed.
    + exists "deleted". apply Hsent in Hreq as (H1 & H2 & H4).
      clear Hsent Hkept.
      split; [exact H1 |]. split; [exact H2 |]. split; [exact H4 |].
      split.
      { destruct H3 as [-> | [-> | ->]];
          [right; right; right; left; by split
          | right; right; right; right; left; by split
          | by left]. }
      split; [right; by right |].
      split; [intros [=] | intros [=]].
    + exists s. apply Hkept in Hreq as (H1 & H2 & H4).
      clear Hsent Hkept.
      split; [exact H1 |]. split; [exact H2 |]. split; [exact H4 |].
      split; [by left |]. split; [exact H3 |].
      split; [intros [=] | intros [=]].
  - exists "pending". apply Hsent in Hreq as (H1 & H2 & H4).
    clear Hsent Hkept.
    split; [exact H1 |]. split; [exact H2 |]. split; [exact H4 |].
    split.
    { destruct H3 as [-> | [-> | ->]];
        [by left
        | right; right; left; by split
        | right; right; right; right; right; by split]. }
    split; [by left |].
    split; [intros [=] | by intros _].
Qed.

Lemma page_script_transitions_witness :
  script Toggle (get_all_tasks alice db_trashed) 1 = None
  ∧ ∃ s', Task.set_status (Some s')
            (Task.mk 1 "a" (Some "") None (Some "important")
               (Some "personnel") (Some "deleted") t0 alice)
            ∈ rows (serve alice
                      (script Restore (get_all_tasks alice db_trashed) 1)
                      db_trashed)
      ∧ s' = "pending".
Proof.
  assert (NoDup (map Task.id (rows db_trashed))) as Hnd.
  { vm_compute. apply NoDup_cons. split; [| apply NoDup_nil_2].
    intros H. inversion H. }
  assert (Task.mk 1 "a" (Some "") None (Some "important") (Some "personnel")
            (Some "deleted") t0 alice ∈ rows db_trashed) as Hr.
  { vm_compute. apply list_elem_of_here. }
  assert (rowid 1) as Hid by (unfold rowid; lia).
  split.
  - exact (proj1 (page_script_transitions alice db_trashed
                    (Task.mk 1 "a" (Some "") None (Some "important")
                       (Some "personnel") (Some "deleted") t0 alice)
                    "deleted" Toggle
                    Hnd Hid Hr eq_refl eq_refl (or_intror (or_intror eq_refl)))).
  - destruct (page_script_transitions alice db_trashed
                (Task.mk 1 "a" (Some "") None (Some "important")
                   (Some "personnel") (Some "deleted") t0 alice)
                "deleted" Restore
                Hnd Hid Hr eq_refl eq_refl (or_intror (or_intror eq_refl)))
      as (_ & s' & _ & _ & Hin & _ & _ & _ & Hp).
    exists s'. split; [exact Hin | by apply Hp].
Defined.

(** ** The primary key is kept *)

(** The table the server starts from has distinct ids, and every writing
    operation keeps them distinct: the transition theorem's premise that
    ids are distinct holds of every table the routes can produce. *)
Lemma ids_ok_init : ids_ok init_db.
Proof. split; [apply NoDup_nil_2 | by intros r Hr; inversion Hr]. Qed.

Lemma ids_ok_filter (P : task → Prop) `{!∀ x, Decision (P x)} db :
  ids_ok db → ids_ok (mkStore (filter P (rows db)) (seq db)).
Proof.
  intros [Hnd Hle]. split; simpl.
  - by apply NoDup_ids_filter.
  - intros r Hr. apply list_elem_of_filter in Hr as [_ Hr]. by apply Hle.
Qed.

Lemma ids_ok_run u m db : ids_ok db → ids_ok (snd (run u m db)).
Proof.
  intros Hok.
  assert (∀ task_id (data : payload),
            ids_ok (snd (update_task task_id u data db))) as Hput.
  { intros task_id data. destruct Hok as [Hnd Hle].
    destruct (update_task_rows task_id u data db)
      as (g & _ & _ & Hid & Hrows & Hseq).
    split; rewrite Hrows.
    - rewrite map_map. by rewrite (map_ext _ Task.id Hid).
    - intros r Hr. apply (list_elem_of_fmap g) in Hr as (r0 & -> & Hr0).
      rewrite Hid, Hseq. by apply Hle. }
  destruct m as [now body|task_id data|task_id st|task_id|]; simpl.
  - destruct body as [data|items|s|z|b|];
      [| by rewrite create_task_not_Object_snd ..].
    destruct (data !! "title") as [title|] eqn:Ht.
    + rewrite (create_task_with_title _ _ _ _ _ Ht).
      destruct (insert_task _ _ _ _ _ _ _ _ _) as [db1|e] eqn:Hi; [| done].
      apply insert_task_Ok in Hi as (t & ? & ? & ? & ? & ? & _ & ->).
      destruct Hok as [Hnd Hle]. split; simpl.
      * rewrite map_app. simpl. apply NoDup_app. split; [done |].
        split; [| apply NoDup_singleton].
        intros i Hi Hi'. apply list_elem_of_singleton in Hi'. subst i.
        apply (list_elem_of_fmap Task.id) in Hi as (r & Er & Hr).
        apply Hle in Hr. lia.
      * intros r Hr. apply elem_of_app in Hr as [Hr|Hr].
        -- apply Hle in Hr. lia.
        -- apply list_elem_of_singleton in Hr. subst r. simpl. lia.
    + by rewrite (create_task_without_title _ _ _ _ Ht).
  - apply Hput.
  - apply Hput.
  - destruct (hard_delete_cases task_id u db) as [[_ ->] | [_ ->]]; [| done].
    by apply ids_ok_filter.
  - by apply ids_ok_filter.
Qed.


(** * Further properties of the routes *)

(** ** The PUT route *)

Lemma targets_set_status task_id u s r :
  targets task_id u (Task.set_status s r) = targets task_id u r.
Proof. done. Qed.

Lemma targets_set_fields task_id u ti de du pr ca r :
  targets task_id u (Task.set_fields ti de du pr ca r) = targets task_id u r.
Proof. done. Qed.

(** Rewriting the reached rows twice is rewriting them once. *)
Lemma map_targets_idem (F : task → task) task_id u (l : list task) :
  (∀ r, targets task_id u (F r) = targets task_id u r) →
  (∀ r, F (F r) = F r) →
  map (λ r, if targets task_id u r then F r else r)
    (map (λ r, if targets task_id u r then F r else r) l)
  = map (λ r, if targets task_id u r then F r else r) l.
Proof.
  intros Ht HF. rewrite map_map. apply map_ext. intros r.
  destruct (targets task_id u r) eqn:E; [| by rewrite E].
  by rewrite Ht, E, HF.
Qed.

Lemma existsb_map_targets (F : task → task) task_id u (l : list task) :
  (∀ r, targets task_id u (F r) = targets task_id u r) →
  existsb (targets task_id u)
    (map (λ r, if targets task_id u r then F r else r) l)
  = existsb (targets task_id u) l.
Proof.
  intros Ht. induction l as [|x l IH]; simpl; [done |].
  rewrite IH. f_equal.
  destruct (targets task_id u x) eqn:E; [by rewrite Ht | done].
Qed.

Lemma update_status_idem st task_id u db db' :
  update_status st task_id u db = Ok db' →
  update_status st task_id u db' = Ok db'.
Proof.
  unfold update_status. generalize (adapt (JInt task_id)) as bound.
  intros bound. destruct (adapt st) as [v|]; simpl; [| done].
  destruct bound; simpl; [| done].
  intros [= <-]. simpl. f_equal. f_equal.
  by apply map_targets_idem.
Qed.

Lemma update_fields_idem ti de du pr ca task_id u db db' :
  update_fields ti de du pr ca task_id u db = Ok db' →
  update_fields ti de du pr ca task_id u db' = Ok db'.
Proof.
  unfold update_fields. generalize (adapt (JInt task_id)) as bound.
  intros bound.
  destruct (adapt ti) as [vti|]; simpl; [| done].
  destruct (adapt de); simpl; [| done].
  destruct (adapt du); simpl; [| done].
  destruct (adapt pr); simpl; [| done].
  destruct (adapt ca); simpl; [| done].
  destruct bound; simpl; [| done].
  destruct (text_affinity vti).
  - intros [= <-]. simpl. f_equal. f_equal. by apply map_targets_idem.
  - destruct (existsb _ (rows db)) eqn:E; [done |].
    intros [= <-]. by rewrite E.
Qed.

(** X1: sending the same PUT a second time, whatever JSON value its body
    is, gives the same answer and leaves the table as the first request
    left it. *)
Theorem update_task_idempotent task_id u (body : payload) db :
  update_task task_id u body (snd (update_task task_id u body db))
  = update_task task_id u body db.
Proof.
  destruct body as [data|items|s|z|b|];
    [| by rewrite !update_task_not_Object ..].
  rewrite !update_task_Object.
  destruct (has_key "status" data && (size data =? 1)%nat).
  - destruct (subscript data "status") as [st|]; simpl; [| done].
    destruct (update_status st task_id u db) as [db'|e] eqn:E; simpl.
    + by rewrite (update_status_idem _ _ _ _ _ E).
    + by rewrite E.
  - destruct (subscript data "title") as [ti|]; simpl; [| done].
    destruct (subscript data "description") as [de|]; simpl; [| done].
    destruct (subscript data "due_date") as [du|]; simpl; [| done].
    destruct (subscript data "priority") as [pr|]; simpl; [| done].
    destruct (subscript data "category") as [ca|]; simpl; [| done].
    destruct (update_fields ti de du pr ca task_id u db) as [db'|e] eqn:E;
      simpl.
    + by rewrite (update_fields_idem _ _ _ _ _ _ _ _ _ E).
    + by rewrite E.
Qed.

Lemma map_proj_targets {A} (proj : task → A) (F : task → task) task_id u
    (l : list task) :
  (∀ r, proj (F r) = proj r) →
  map proj (map (λ r, if targets task_id u r then F r else r) l)
  = map proj l.
Proof.
  intros HF. rewrite map_map. apply map_ext. intros r.
  by destruct (targets task_id u r).
Qed.

(** What a PUT may change, by the shape of its body. *)
Lemma update_task_shape task_id u (data : gmap string json) db :
  snd (update_task task_id u (Object data) db) = db
  ∨ (has_key "status" data && (size data =? 1)%nat = true
     ∧ ∃ s, snd (update_task task_id u (Object data) db)
            = mkStore (map (λ r, if targets task_id u r
                                 then Task.set_status s r else r) (rows db))
                (seq db))
  ∨ (has_key "status" data && (size data =? 1)%nat = false
     ∧ ∃ ti de du pr ca,
         snd (update_task task_id u (Object data) db)
         = mkStore (map (λ r, if targets task_id u r
                              then Task.set_fields ti de du pr ca r else r)
                      (rows db))
             (seq db)).
Proof.
  rewrite !update_task_Object. unfold update_status, update_fields.
  generalize (adapt (JInt task_id)) as bound. intros bound.
  destruct (has_key "status" data && (size data =? 1)%nat).
  - destruct (subscript data "status") as [st|]; simpl; [| by left].
    destruct (adapt st); simpl; [| by left].
    destruct bound; simpl; [| by left].
    right; left. eauto.
  - destruct (subscript data "title") as [ti|]; simpl; [| by left].
    destruct (subscript data "description") as [de|]; simpl; [| by left].
    destruct (subscript data "due_date") as [du|]; simpl; [| by left].
    destruct (subscript data "priority") as [pr|]; simpl; [| by left].
    destruct (subscript data "category") as [ca|]; simpl; [| by left].
    destruct (adapt ti) as [vti|]; simpl; [| by left].
    destruct (adapt de); simpl; [| by left].
    destruct (adapt du); simpl; [| by left].
    destruct (adapt pr); simpl; [| by left].
    destruct (adapt ca); simpl; [| by left].
    destruct bound; simpl; [| by left].
    destruct (text_affinity vti).
    + right; right. split; [done |]. simpl. by do 5 eexists.
    + left. by destruct (existsb _ _).
Qed.

(** X2: whatever JSON value its body is, a PUT keeps the rows in place
    with their id, owner and creation time, and keeps the sequence; a body
    that is an object with the status alone changes no other column, and
    any other body changes no status. *)
Theorem update_task_preserves task_id u (body : payload) db :
  let db' := snd (update_task task_id u body db) in
  map Task.id (rows db') = map Task.id (rows db)
  ∧ map Task.user_id (rows db') = map Task.user_id (rows db)
  ∧ map Task.created_at (rows db') = map Task.created_at (rows db)
  ∧ seq db' = seq db
  ∧ (∀ data, body = Object data →
     has_key "status" data && (size data =? 1)%nat = true →
     map Task.title (rows db') = map Task.title (rows db)
     ∧ map Task.description (rows db') = map Task.description (rows db)
     ∧ map Task.due_date (rows db') = map Task.due_date (rows db)
     ∧ map Task.priority (rows db') = map Task.priority (rows db)
     ∧ map Task.category (rows db') = map Task.category (rows db))
  ∧ ((∀ data, body = Object data →
      has_key "status" data && (size data =? 1)%nat = false) →
     map Task.status (rows db') = map Task.status (rows db)).
Proof.
  intros db'. subst db'.
  destruct body as [data|items|s|z|b|];
    [| by rewrite update_task_not_Object ..].
  destruct (update_task_shape task_id u data db)
    as [-> | [(Hs & s & ->) | (Hs & ti & de & du & pr & ca & ->)]]; simpl.
  - done.
  - do 4 (split; [by apply map_proj_targets || done |]). split.
    + intros d [= <-] _.
      repeat split; by apply map_proj_targets.
    + intros H. specialize (H data eq_refl). congruence.
  - do 4 (split; [by apply map_proj_targets || done |]). split.
    + intros d [= <-] H. congruence.
    + intros _. by apply map_proj_targets.
Qed.

(** X3: an object that is not the status alone must hold all five edit
    fields: when one is missing the route fails on the first missing one,
    in the order title, description, due_date, priority, category (every
    field before it is there), and the table is not touched. *)
Theorem update_task_missing_field task_id u (data : gmap string json) db :
  has_key "status" data && (size data =? 1)%nat = false →
  data !! "title" = None ∨ data !! "description" = None
  ∨ data !! "due_date" = None ∨ data !! "priority" = None
  ∨ data !! "category" = None →
  ∃ before_k k after_k,
    ["title"; "description"; "due_date"; "priority"; "category"]
    = before_k ++ k :: after_k
    ∧ (∀ k', k' ∈ before_k → is_Some (data !! k'))
    ∧ data !! k = None
    ∧ update_task task_id u (Object data) db
      = (InternalServerError (KeyError k), db).
Proof.
  intros Hs Hmiss. rewrite update_task_Object. unfold subscript. rewrite Hs.
  clear Hs.
  destruct (data !! "title") as [ti|] eqn:E1; simpl.
  2: { exists [], "title", ["description"; "due_date"; "priority"; "category"].
       split; [done |]. split; [| done]. intros k' Hk'. by inversion Hk'. }
  destruct (data !! "description") as [de|] eqn:E2; simpl.
  2: { exists ["title"], "description", ["due_date"; "priority"; "category"].
       split; [done |]. split; [| done]. intros k' Hk'.
       apply list_elem_of_singleton in Hk'. subst k'. rewrite E1. by exists ti. }
  destruct (data !! "due_date") as [du|] eqn:E3; simpl.
  2: { exists ["title"; "description"], "due_date", ["priority"; "category"].
       split; [done |]. split; [| done]. intros k' Hk'.
       apply elem_of_cons in Hk' as [-> | Hk']; [rewrite E1; by exists ti |].
       apply list_elem_of_singleton in Hk'. subst k'. rewrite E2. by exists de. }
  destruct (data !! "priority") as [pr|] eqn:E4; simpl.
  2: { exists ["title"; "description"; "due_date"], "priority", ["category"].
       split; [done |]. split; [| done]. intros k' Hk'.
       apply elem_of_cons in Hk' as [-> | Hk']; [rewrite E1; by exists ti |].
       apply elem_of_cons in Hk' as [-> | Hk']; [rewrite E2; by exists de |].
       apply list_elem_of_singleton in Hk'. subst k'. rewrite E3. by exists du. }
  destruct (data !! "category") as [ca|] eqn:E5; simpl.
  2: { exists ["title"; "description"; "due_date"; "priority"], "category", [].
       split; [done |]. split; [| done]. intros k' Hk'.
       apply elem_of_cons in Hk' as [-> | Hk']; [rewrite E1; by exists ti |].
       apply elem_of_cons in Hk' as [-> | Hk']; [rewrite E2; by exists de |].
       apply elem_of_cons in Hk' as [-> | Hk']; [rewrite E3; by exists du |].
       apply list_elem_of_singleton in Hk'. subst k'. rewrite E4. by exists pr. }
  exfalso. destruct Hmiss as [H | [H | [H | [H | H]]]]; discriminate.
Qed.

Lemma update_task_missing_field_witness :
  ∃ before_k k after_k,
    ["title"; "description"; "due_date"; "priority"; "category"]
    = before_k ++ k :: after_k
    ∧ (∀ k', k' ∈ before_k →
         is_Some (({[ "status" := JStr "completed"; "title" := JStr "b" ]}
                     : gmap string json) !! k'))
    ∧ ({[ "status" := JStr "completed"; "title" := JStr "b" ]}
         : gmap string json) !! k = None
    ∧ update_task 1 alice
        (Object {[ "status" := JStr "completed"; "title" := JStr "b" ]})
        db_trashed
      = (InternalServerError (KeyError k), db_trashed).
Proof.
  apply (update_task_missing_field 1 alice
           {[ "status" := JStr "completed"; "title" := JStr "b" ]} db_trashed).
  - vm_compute. reflexivity.
  - right; left. vm_compute. reflexivity.
Defined.

(** ** Deleting for good *)


Lemma filter_none (P : task → Prop) `{!∀ x, Decision (P x)} (l : list task) :
  (∀ x, x ∈ l → ¬ P x) → filter P l = [].
Proof.
  induction l as [|x l IH]; intros Hl; [done |].
  rewrite filter_cons_False by (apply Hl; set_solver).
  apply IH. intros y Hy. apply Hl. set_solver.
Qed.

(** X4: [task_id] is what the URL rule hands to the view, a natural
    number of any size. For an id that fits 64 bits the DELETE route
    answers with success; it removes the row of the caller with the given
    id and keeps every other row in place; afterwards no listing of the
    caller shows that id, and a second DELETE and any PUT on that id
    change nothing. For a larger id the statement cannot be run: the
    answer is the server's error page and the table is as it was. *)
Theorem hard_delete_removes task_id u db :
  0 <= task_id →
  let db' := snd (hard_delete_single_task task_id u db) in
  (task_id < 2 ^ 63 →
     fst (hard_delete_single_task task_id u db) = Jsonify Success 200
     ∧ rows db'
       = filter (λ r, ¬ (Task.id r = task_id ∧ Task.user_id r = u)) (rows db)
     ∧ seq db' = seq db
     ∧ (∀ sf cf pf r, r ∈ get_tasks u sf cf pf db' → Task.id r ≠ task_id)
     ∧ hard_delete_single_task task_id u db' = (Jsonify Success 200, db')
     ∧ (∀ data : payload, snd (update_task task_id u data db') = db'))
  ∧ (2 ^ 63 <= task_id →
     hard_delete_single_task task_id u db
     = (InternalServerError OverflowError, db)).
Proof.
  intros Hpos db'. split; [| apply hard_delete_overflow].
  intros Hid.
  assert (hard_delete_single_task task_id u db
          = (Jsonify Success 200,
             mkStore (filter (λ r, ¬ targets task_id u r) (rows db)) (seq db)))
    as Hdel.
  { destruct (hard_delete_cases task_id u db) as [[_ H] | [H _]]; [done | lia]. }
  subst db'. rewrite Hdel. simpl.
  set (db' := mkStore (filter (λ r, ¬ targets task_id u r) (rows db)) (seq db)).
  assert (rows db'
    = filter (λ r, ¬ (Task.id r = task_id ∧ Task.user_id r = u)) (rows db))
    as Hrows.
  { simpl. apply list_filter_iff. intros r.
    by rewrite <- targets_spec, Is_true_true. }
  assert (∀ r, r ∈ rows db' → ¬ (Task.id r = task_id ∧ Task.user_id r = u))
    as Habs.
  { intros r. rewrite Hrows, list_elem_of_filter. tauto. }
  split; [done |]. split; [done |]. split; [done |].
  split; [| split].
  - intros sf cf pf r Hr Hi.
    apply elem_of_get_tasks in Hr as [Hr Hw].
    apply where_clause_spec in Hw as [Hu _]. by apply (Habs r).
  - unfold hard_delete_single_task.
    rewrite absent_delete_task by done.
    rewrite adapt_id by lia. done.
  - intros data.
    by destruct (absent_update_task task_id u db' Habs data) as (? & -> & _).
Qed.

Lemma hard_delete_removes_witness :
  rows (snd (hard_delete_single_task 1 alice db_one)) = []
  ∧ hard_delete_single_task (2 ^ 63) alice db_one
    = (InternalServerError OverflowError, db_one).
Proof.
  split.
  - assert (filter (λ r, ¬ (Task.id r = 1 ∧ Task.user_id r = alice))
              (rows db_one) = []) as <- by (vm_compute; reflexivity).
    refine (proj1 (proj2 (proj1
      (hard_delete_removes 1 alice db_one _) _))); lia.
  - refine (proj2 (hard_delete_removes (2 ^ 63) alice db_one _) _); lia.
Defined.

(** ** The trash, once emptied *)

Lemma clear_trash_rows u db :
  rows (snd (clear_trash u db))
  = filter (λ r, ¬ (Task.status r = Some "deleted" ∧ Task.user_id r = u))
      (rows db).
Proof.
  simpl. apply list_filter_iff. intros r.
  by rewrite andb_True, <- sql_eq_spec, bool_decide_spec, Is_true_true.
Qed.

Lemma status_clause_not_deleted sf r :
  sf ≠ "deleted" → status_clause sf r = true →
  Task.status r ≠ Some "deleted".
Proof.
  intros Hsf H. apply status_clause_spec in H. naive_solver.
Qed.

(** X5: once the trash of an account is emptied, its [deleted] listing is
    empty under every category and priority filter, every listing under
    another status filter, of any account, is what it was, and emptying
    again changes nothing. *)
Theorem clear_trash_then_list u db :
  let db' := snd (clear_trash u db) in
  (∀ cf pf, get_tasks u "deleted" cf pf db' = [])
  ∧ (∀ u' sf cf pf, sf ≠ "deleted" →
       get_tasks u' sf cf pf db' = get_tasks u' sf cf pf db)
  ∧ clear_trash u db' = (Jsonify Success 200, db').
Proof.
  intros db'. pose proof (clear_trash_rows u db) as Hrows.
  fold db' in Hrows. split; [| split].
  - intros cf pf. unfold get_tasks. rewrite filter_none; [done |].
    intros r Hr Hw. apply Is_true_true, where_clause_spec in Hw
      as (Hu & Hs & _).
    apply status_clause_deleted in Hs.
    rewrite Hrows in Hr. apply list_elem_of_filter in Hr as [Hn _]. tauto.
  - intros u' sf cf pf Hsf. unfold get_tasks. rewrite Hrows.
    rewrite list_filter_filter. f_equal. apply list_filter_iff. intros r.
    split; [tauto |]. intros Hw. split; [done |]. intros [Hd _].
    apply Is_true_true, where_clause_spec in Hw as (_ & Hs & _).
    by apply (status_clause_not_deleted sf r).
  - unfold clear_trash at 1. f_equal.
    assert (filter (λ r, ¬ (sql_eq (Task.status r) "deleted"
                           && bool_decide (Task.user_id r = u)))
              (rows db') = rows db') as ->; [| by destruct db'].
    change (rows db') with (rows (snd (clear_trash u db))). simpl.
    rewrite list_filter_filter. apply list_filter_iff. tauto.
Qed.

(** ** Creating, and what it leaves *)

Lemma insert_task_ok_iff ti de du pr ca st u now db :
  (∃ db', insert_task ti de du pr ca st u now db = Ok db') ↔
    (∃ vti t, adapt ti = Ok vti ∧ text_affinity vti = Some t)
    ∧ (∃ v, adapt de = Ok v) ∧ (∃ v, adapt du = Ok v)
    ∧ (∃ v, adapt pr = Ok v) ∧ (∃ v, adapt ca = Ok v)
    ∧ (∃ v, adapt st = Ok v).
Proof.
  unfold insert_task.
  destruct (adapt ti) as [vti|]; simpl; [| naive_solver].
  destruct (adapt de); simpl; [| naive_solver].
  destruct (adapt du); simpl; [| naive_solver].
  destruct (adapt pr); simpl; [| naive_solver].
  destruct (adapt ca); simpl; [| naive_solver].
  destruct (adapt st); simpl; [| naive_solver].
  destruct (text_affinity vti) eqn:E; naive_solver.
Qed.

(** X6: POST /api/tasks, whatever JSON value its body is, either answers
    201 and appends exactly one row, with the next id of the sequence, the
    clock's time and the caller as owner, or answers 400 (an object then
    has no title field) or 500 and leaves the table untouched. It answers
    201 exactly when the body is an object with a title that is not null
    and the title and the five other values (given or default) can be
    bound; it answers 400 exactly when the body is falsy (null, false, 0,
    or an empty object, array or string) or is an object, an array or a
    string that holds no ['title']. *)
Theorem create_task_outcomes u now (body : payload) db :
  let res := create_task u now body db in
  ((fst res = Jsonify Success 201
    ∧ ∃ r, snd res = mkStore (rows db ++ [r]) (seq db + 1)
        ∧ Task.id r = seq db + 1 ∧ Task.created_at r = now
        ∧ Task.user_id r = u)
   ∨ (snd res = db
      ∧ ((fst res = Jsonify ErrorInvalid 400
          ∧ ∀ data, body = Object data → data !! "title" = None)
         ∨ ∃ e, fst res = Jsonify (ErrorExn e) 500)))
  ∧ (fst res = Jsonify Success 201 ↔
     ∃ data title, body = Object data
       ∧ data !! "title" = Some title
       ∧ (∃ v t, adapt title = Ok v ∧ text_affinity v = Some t)
       ∧ (∃ v, adapt (get data "description" (JStr "")) = Ok v)
       ∧ (∃ v, adapt (get data "due_date" JNull) = Ok v)
       ∧ (∃ v, adapt (get data "priority" (JStr "important")) = Ok v)
       ∧ (∃ v, adapt (get data "category" (JStr "personnel")) = Ok v)
       ∧ (∃ v, adapt (get data "status" (JStr "pending")) = Ok v))
  ∧ (fst res = Jsonify ErrorInvalid 400 ↔
     truthy body = false ∨ contains "title" body = Ok false).
Proof.
  intros res. subst res.
  assert ((∃ data, body = Object data) ∨ ∀ d, body ≠ Object d)
    as [[data ->] | Hd] by (destruct body; eauto).
  - destruct (data !! "title") as [title|] eqn:Ht.
    + assert (truthy (Object data) = true) as Htruthy.
      { simpl. apply negb_true_iff, Nat.eqb_neq, map_size_non_empty_iff.
        intros ->. by rewrite lookup_empty in Ht. }
      assert (contains "title" (Object data) = Ok true) as Hcontains.
      { simpl. by rewrite (has_key_true _ _ _ Ht). }
      rewrite Htruthy, Hcontains.
      rewrite (create_task_with_title _ _ _ _ _ Ht).
      pose proof (insert_task_ok_iff title (get data "description" (JStr ""))
        (get data "due_date" JNull) (get data "priority" (JStr "important"))
        (get data "category" (JStr "personnel"))
        (get data "status" (JStr "pending")) u now db) as Hiff.
      destruct (insert_task _ _ _ _ _ _ _ _ _) as [db1|e] eqn:Hi; simpl.
      * split; [| split].
        -- left. split; [done |].
           apply insert_task_Ok in Hi as (t & ? & ? & ? & ? & ? & _ & ->).
           by eexists.
        -- split; [| done]. intros _. exists data, title.
           split; [done |]. split; [done |]. apply Hiff. by exists db1.
        -- split; [done | by intros [? | ?]].
      * split; [right; split; [done |]; right; by exists e |]. split.
        -- split; [done |]. intros (data' & title' & [= <-] & Ht' & H).
           rewrite Ht in Ht'. injection Ht' as <-.
           apply Hiff in H as [? ?]. done.
        -- split; [done | by intros [? | ?]].
    + rewrite (create_task_without_title _ _ _ _ Ht). simpl.
      split; [| split].
      * right. split; [done |]. left. split; [done |].
        by intros data' [= <-].
      * split; [done |]. intros (data' & title' & [= <-] & Ht' & _).
        by rewrite Ht in Ht'.
      * split; [| done]. intros _. right.
        by rewrite (has_key_false _ _ Ht).
  - rewrite (create_task_not_Object _ _ _ _ Hd).
    destruct (truthy body) eqn:Htruthy; simpl.
    + destruct (contains "title" body) as [[|]|e] eqn:Hc; simpl.
      * split; [right; split; [done |]; right; by eexists |].
        split; [split; [done |] |].
        -- intros (data & _ & -> & _). by destruct (Hd data).
        -- split; [done | by intros [? | ?]].
      * split; [right; split; [done |]; left; split; [done |] |].
        { intros data ->. by destruct (Hd data). }
        split; [split; [done |] |].
        -- intros (data & _ & -> & _). by destruct (Hd data).
        -- split; [by right | done].
      * split; [right; split; [done |]; right; by eexists |].
        split; [split; [done |] |].
        -- intros (data & _ & -> & _). by destruct (Hd data).
        -- split; [done | by intros [? | ?]].
    + split; [right; split; [done |]; left; split; [done |] |].
      { intros data ->. by destruct (Hd data). }
      split; [split; [done |] |].
      * intros (data & _ & -> & _). by destruct (Hd data).
      * split; [by left | done].
Qed.

(** X7: a task created without a status field is at once in the owner's
    [pending] and [all] listings and in the list-all answer, and nothing
    that was listed before, for any account and filters, is lost. *)
Theorem create_then_list u now (data : gmap string json) db db' :
  create_task u now (Object data) db = (Jsonify Success 201, db') →
  data !! "status" = None →
  ∃ r, rows db' = rows db ++ [r]
    ∧ r ∈ get_tasks u "pending" "all" "all" db'
    ∧ r ∈ get_tasks u "all" "all" "all" db'
    ∧ r ∈ get_all_tasks u db'
    ∧ ∀ u' sf cf pf x,
        x ∈ get_tasks u' sf cf pf db → x ∈ get_tasks u' sf cf pf db'.
Proof.
  intros H Hst.
  destruct (data !! "title") as [title|] eqn:Ht;
    [| by rewrite (create_task_without_title _ _ _ _ Ht) in H].
  rewrite (create_task_with_title _ _ _ _ _ Ht) in H.
  destruct (insert_task _ _ _ _ _ _ _ _ _) as [db1|e] eqn:Hi; [| done].
  injection H as ->.
  apply insert_task_Ok in Hi as (t & vde & vdu & vpr & vca & vst & Hv & ->).
  unfold get in Hv. rewrite Hst in Hv. simpl in Hv. injection Hv as <-.
  eexists. split; [done |]. simpl.
  assert (∀ (x : task) (l : list task), x ∈ l ++ [x]) as Hlast.
  { intros x l. apply elem_of_app. right. apply list_elem_of_here. }
  split; [| split; [| split]].
  - apply elem_of_get_tasks. simpl. split; [apply Hlast |].
    apply where_clause_spec. simpl. repeat split; reflexivity.
  - apply elem_of_get_tasks. simpl. split; [apply Hlast |].
    apply where_clause_spec. simpl. repeat split; reflexivity.
  - apply elem_of_get_all_tasks. simpl. split; [apply Hlast | done].
  - intros u' sf cf pf x. rewrite !elem_of_get_tasks. simpl.
    intros [Hx Hw]. split; [| done]. apply elem_of_app. by left.
Qed.

Lemma create_then_list_witness :
  ∃ r, rows db_one = rows init_db ++ [r]
    ∧ r ∈ get_tasks alice "pending" "all" "all" db_one.
Proof.
  assert (create_task alice t0 (Object {[ "title" := JStr "a" ]}) init_db
          = (Jsonify Success 201, db_one)) as H
    by (vm_compute; reflexivity).
  assert (({[ "title" := JStr "a" ]} : gmap string json) !! "status" = None)
    as Hs by (vm_compute; reflexivity).
  destruct (create_then_list alice t0 _ init_db db_one H Hs)
    as (r & Hr & Hp & _).
  exists r. split; [exact Hr | exact Hp].
Defined.

(** ** Filtered listings inside the list-all answer *)

Lemma insert_row_head x l :
  (∀ y, head l = Some y → order_le x y = true) → insert_row x l = x :: l.
Proof.
  destruct l as [|y l]; simpl; [done |].
  intros Hy. by rewrite (Hy y).
Qed.

(** Dropping rows from a sorted list commutes with inserting a row. *)
Lemma filter_insert_row (P : task → Prop) `{!∀ x, Decision (P x)} x l :
  StronglySorted (λ a b, order_le a b = true) l →
  filter P (insert_row x l)
  = if decide (P x) then insert_row x (filter P l) else filter P l.
Proof.
  induction 1 as [|y l Hl IH Hy]; simpl.
  - rewrite filter_cons, filter_nil. by destruct (decide (P x)).
  - destruct (order_le x y) eqn:E.
    + rewrite (filter_cons _ x). destruct (decide (P x)); [| done].
      symmetry. apply insert_row_head. intros z Hz.
      assert (z ∈ y :: l) as Hin.
      { apply head_Some_elem_of in Hz.
        by apply list_elem_of_filter in Hz as [_ ?]. }
      apply elem_of_cons in Hin as [-> | Hin]; [done |].
      apply (order_le_trans x y z); [done |].
      rewrite Forall_forall in Hy. by apply Hy.
    + rewrite (filter_cons _ y), IH, (filter_cons _ y).
      destruct (decide (P y)), (decide (P x)); simpl; try done.
      by rewrite E.
Qed.

Lemma order_by_filter (P : task → Prop) `{!∀ x, Decision (P x)} l :
  order_by (filter P l) = filter P (order_by l).
Proof.
  induction l as [|x l IH]; simpl; [done |].
  rewrite filter_cons, filter_insert_row by apply order_by_sorted.
  destruct (decide (P x)); simpl; by rewrite IH.
Qed.

Lemma StronglySorted_filter (R : relation task) (P : task → Prop)
    `{!∀ x, Decision (P x)} (l : list task) :
  StronglySorted R l → StronglySorted R (filter P l).
Proof.
  induction 1 as [|x l Hl IH Hx]; [constructor |].
  rewrite filter_cons. destruct (decide (P x)); [| done].
  constructor; [done |].
  rewrite Forall_forall in Hx. apply Forall_forall. intros y Hy.
  apply Hx. by apply list_elem_of_filter in Hy as [_ ?].
Qed.

(** X8: every filtered listing is the list-all answer of the same account
    with the rows that fail the status, category or priority test taken
    out, the others keeping their order. With the stable sorter of this
    model that holds always; and it holds of any two answers that are
    sorted by the ORDER BY clause, whatever the sorter, as long as no two
    rows of the account tie on due date and creation time. *)
Theorem get_tasks_within_all u sf cf pf db :
  get_tasks u sf cf pf db
  = filter (λ r, status_clause sf r && category_clause cf r
                 && priority_clause pf r)
      (get_all_tasks u db)
  ∧ ∀ listed all_listed : list task,
      listed ≡ₚ filter (λ r, where_clause u sf cf pf r) (rows db) →
      StronglySorted (λ a b, order_le a b = true) listed →
      all_listed ≡ₚ tasks_of u db →
      StronglySorted (λ a b, order_le a b = true) all_listed →
      (∀ x y, x ∈ tasks_of u db → y ∈ tasks_of u db →
              order_le x y = true → order_le y x = true → x = y) →
      listed
      = filter (λ r, status_clause sf r && category_clause cf r
                     && priority_clause pf r) all_listed.
Proof.
  split.
  - rewrite get_tasks_tasks_of. unfold get_all_tasks, tasks_of.
    apply order_by_filter.
  - intros listed all_listed Hl Hsl Ha Hsa Hties.
    assert (listed
            ≡ₚ filter (λ r, status_clause sf r && category_clause cf r
                            && priority_clause pf r) all_listed) as Hperm.
    { rewrite Hl, Ha. unfold tasks_of. rewrite list_filter_filter.
      apply reflexive_eq. apply list_filter_iff. intros r.
      unfold where_clause. rewrite !andb_True, bool_decide_spec.
      naive_solver. }
    apply (StronglySorted_unique_strong (λ a b, order_le a b = true));
      [| done | by apply StronglySorted_filter | done].
    intros x y Hx Hy. apply Hties.
    + rewrite Hl in Hx. apply list_elem_of_filter in Hx as [Hw Hx].
      apply list_elem_of_filter. split; [| done].
      apply Is_true_true, where_clause_spec in Hw. tauto.
    + apply list_elem_of_filter in Hy as [_ Hy]. by rewrite Ha in Hy.
Qed.

(** ** The counters of the dashboard *)

Lemma active_count (l : list task) :
  length (filter (λ t, Task.status t ≠ Some "deleted") l)
  = (length (filter (λ t, status_clause "all" t) l)
     + length (filter (λ t, Task.status t = None) l))%nat
  ∧ (length (filter (λ t, Task.status t = Some "pending") l)
     + length (filter (λ t, Task.status t = Some "completed") l)
     ≤ length (filter (λ t, status_clause "all" t) l))%nat.
Proof.
  induction l as [|x l [IH1 IH2]]; [done |].
  rewrite !filter_cons.
  assert (status_clause "all" x ↔
          ∃ s, Task.status x = Some s ∧ s ≠ "deleted") as Hall.
  { rewrite Is_true_true. apply status_clause_all. }
  destruct (Task.status x) as [s|] eqn:Es.
  - destruct (decide (s = "deleted")) as [-> | Hs].
    + rewrite decide_False by naive_solver.
      rewrite (decide_False (P := Is_true _)) by (rewrite Hall; naive_solver).
      rewrite !(decide_False (P := Some "deleted" = _)) by done.
      done.
    + rewrite decide_True by naive_solver.
      rewrite (decide_True (P := Is_true _)) by (rewrite Hall; naive_solver).
      rewrite (decide_False (P := Some s = None)) by done.
      split; [simpl; lia |].
      destruct (decide (Some s = Some "pending")) as [E1|E1],
               (decide (Some s = Some "completed")) as [E2|E2];
        simpl; try lia.
      congruence.
  - rewrite decide_True by done.
    rewrite (decide_False (P := Is_true _)) by (rewrite Hall; naive_solver).
    rewrite (decide_True (P := None = None)) by done.
    rewrite !(decide_False (P := None = Some _)) by done.
    split; [simpl; lia | done].
Qed.

(** X9: on a fresh task list the dashboard's pending and completed
    counters are the sizes of the [pending] and [completed] listings; the
    total counter is the size of the [all] listing plus the number of the
    account's rows whose status is NULL (which [all] does not list); and
    pending plus completed never exceeds the [all] listing. *)
Theorem updateStats_counts u db :
  let stats := updateStats (get_all_tasks u db) in
  snd (fst stats) = length (get_tasks u "pending" "all" "all" db)
  ∧ snd stats = length (get_tasks u "completed" "all" "all" db)
  ∧ fst (fst stats)
    = (length (get_tasks u "all" "all" "all" db)
       + length (filter (λ r, Task.status r = None) (tasks_of u db)))%nat
  ∧ (snd (fst stats) + snd stats
     ≤ length (get_tasks u "all" "all" "all" db))%nat.
Proof.
  intros stats. subst stats. unfold updateStats. simpl.
  assert (∀ sf, get_tasks u sf "all" "all" db
                = filter (λ r, status_clause sf r) (get_all_tasks u db))
    as Hsf.
  { intros sf. rewrite get_tasks_tasks_of. unfold get_all_tasks, tasks_of.
    rewrite order_by_filter. apply list_filter_iff.
    intros r. unfold category_clause, priority_clause. simpl.
    by rewrite !andb_true_r. }
  destruct (active_count (get_all_tasks u db)) as [Ht Hle].
  rewrite !Hsf. split; [| split; [| split]].
  - f_equal. apply list_filter_iff. intros r.
    by rewrite Is_true_true, status_clause_pending.
  - f_equal. apply list_filter_iff. intros r.
    by rewrite Is_true_true, status_clause_completed.
  - rewrite Ht. f_equal. unfold get_all_tasks, tasks_of.
    by rewrite order_by_Permutation.
  - done.
Qed.

(** ** Tables the routes can produce *)

Lemma ids_ok_run_all ms db : ids_ok db → ids_ok (run_all ms db).
Proof.
  revert db. induction ms as [|[u m] ms IH]; intros db Hok; [done |].
  apply IH. by apply ids_ok_run.
Qed.

(** X10: after any run of writing requests, by any accounts and with any
    bodies, starting from the empty table, the ids of the rows are
    distinct and none is above the sequence: an id names at most one
    task, and ids of deleted tasks are not handed out again. *)
Theorem reachable_ids_ok ms :
  ids_ok (run_all ms init_db)
  ∧ ∀ u now data,
      let db := run_all ms init_db in
      ∀ r, r ∈ rows db →
           ∀ r', r' ∈ rows (snd (create_task u now (Object data) db)) →
                 r' ∉ rows db → Task.id r < Task.id r'.
Proof.
  pose proof (ids_ok_run_all ms init_db ids_ok_init) as Hok.
  split; [done |]. intros u now data db r Hr r' Hr' Hnew.
  destruct Hok as [_ Hle]. fold db in Hle.
  destruct (data !! "title") as [title|] eqn:Ht.
  - rewrite (create_task_with_title _ _ _ _ _ Ht) in Hr'.
    destruct (insert_task _ _ _ _ _ _ _ _ _) as [db1|e] eqn:Hi; [| done].
    apply insert_task_Ok in Hi as (t & ? & ? & ? & ? & ? & _ & ->).
    simpl in Hr'. apply elem_of_app in Hr' as [Hr'|Hr']; [done |].
    apply list_elem_of_singleton in Hr'. subst r'. simpl.
    apply Hle in Hr. lia.
  - by rewrite (create_task_without_title _ _ _ _ Ht) in Hr'.
Qed.

(** ** Status changes, seen through the listings *)

(** X11: when ids are distinct rowids, after a status-only PUT with a
    text value the task is listed under exactly the filters its new status
    and its unchanged category and priority satisfy; so a task moved to
    the trash leaves the [all] listing and enters the [deleted] one. *)
Theorem set_status_then_list u db r s :
  NoDup (map Task.id (rows db)) → rowid (Task.id r) →
  r ∈ rows db → Task.user_id r = u →
  let db' := snd (update_task (Task.id r) u (Object {[ "status" := JStr s ]}) db) in
  (∀ sf cf pf,
     (∃ r', r' ∈ get_tasks u sf cf pf db' ∧ Task.id r' = Task.id r) ↔
     where_clause u sf cf pf (Task.set_status (Some s) r) = true)
  ∧ (s = "deleted" →
     Task.set_status (Some s) r ∈ get_tasks u "deleted" "all" "all" db'
     ∧ ∀ cf pf r', r' ∈ get_tasks u "all" cf pf db' →
                   Task.id r' ≠ Task.id r).
Proof.
  intros Hnd Hrow Hr Hu db'. apply rowid_range in Hrow.
  assert (∀ r', r' ∈ rows db' → Task.id r' = Task.id r →
                r' = Task.set_status (Some s) r) as Huniq.
  { intros r' Hr' Hid. subst db'. rewrite put_status_rows in Hr' by done.
    simpl in Hr'.
    apply (list_elem_of_fmap _ (rows db)) in Hr' as (x & -> & Hx).
    assert (x = r) as ->.
    { apply (unique_by_id (rows db)); try done.
      by destruct (targets (Task.id r) u x). }
    unfold targets. by rewrite Hu, !bool_decide_eq_true_2. }
  assert (Task.set_status (Some s) r ∈ rows db') as Hin
    by by apply put_status_stored.
  assert (∀ sf cf pf,
     (∃ r', r' ∈ get_tasks u sf cf pf db' ∧ Task.id r' = Task.id r) ↔
     where_clause u sf cf pf (Task.set_status (Some s) r) = true) as Hiff.
  { intros sf cf pf. split.
    - intros (r' & Hr' & Hid). apply elem_of_get_tasks in Hr' as [Hr' Hw].
      by rewrite <- (Huniq r' Hr' Hid).
    - intros Hw. exists (Task.set_status (Some s) r). split; [| done].
      by apply elem_of_get_tasks. }
  split; [done |]. intros ->. split.
  - apply elem_of_get_tasks. split; [done |].
    apply where_clause_spec. simpl. by rewrite Hu.
  - intros cf pf r' Hr' Hid.
    assert (where_clause u "all" cf pf (Task.set_status (Some "deleted") r)
            = true) as Hw by (apply Hiff; eauto).
    apply where_clause_spec in Hw as (_ & Hs & _). done.
Qed.

Lemma set_status_then_list_witness :
  let r := Task.mk 1 "a" (Some "") None (Some "important") (Some "personnel")
             (Some "pending") t0 alice in
  Task.set_status (Some "deleted") r
  ∈ get_tasks alice "deleted" "all" "all"
      (snd (update_task 1 alice (Object {[ "status" := JStr "deleted" ]}) db_one)).
Proof.
  intros r.
  refine (proj1 (proj2 (set_status_then_list alice db_one r "deleted" _ _ _ _)
                   eq_refl)).
  - vm_compute. apply NoDup_cons. split; [| apply NoDup_nil_2].
    intros H. inversion H.
  - unfold rowid. simpl. lia.
  - vm_compute. apply list_elem_of_here.
  - reflexivity.
Defined.

Lemma find_by_id_eq (l : list task) r i :
  NoDup (map Task.id l) → r ∈ l → Task.id r = i →
  List.find (λ t, bool_decide (Task.id t = i)) l = Some r.
Proof. intros Hnd Hr <-. by apply find_by_id. Qed.

(** What [toggleTask] does to a fresh list that holds the task. *)
Lemma toggle_fresh u db r :
  NoDup (map Task.id (rows db)) → rowid (Task.id r) →
  r ∈ rows db → Task.user_id r = u →
  Task.status r ≠ Some "deleted" →
  serve u (toggleTask (get_all_tasks u db) (Task.id r)) db
  = mkStore
      (map (λ x, if targets (Task.id r) u x
                 then Task.set_status
                        (Some (if bool_decide (Task.status r = Some "completed")
                               then "pending" else "completed")) x
                 else x) (rows db))
      (seq db).
Proof.
  intros Hnd Hrow Hr Hu Hs. unfold toggleTask.
  rewrite find_by_id;
    [| by apply NoDup_ids_get_all_tasks | by apply elem_of_get_all_tasks].
  rewrite bool_decide_eq_false_2 by done.
  unfold serve. by apply put_status_rows, rowid_range.
Qed.

(** X12: toggling a pending or completed task twice, the task list being
    refreshed in between, brings the table back to what it was (ids being
    distinct rowids). *)
Theorem toggle_twice u db r s :
  NoDup (map Task.id (rows db)) → rowid (Task.id r) →
  r ∈ rows db → Task.user_id r = u →
  Task.status r = Some s → s = "pending" ∨ s = "completed" →
  let once := serve u (toggleTask (get_all_tasks u db) (Task.id r)) db in
  once ≠ db
  ∧ serve u (toggleTask (get_all_tasks u once) (Task.id r)) once = db.
Proof.
  intros Hnd Hrow Hr Hu Hs H2 once. subst once.
  set (s' := if bool_decide (Task.status r = Some "completed")
             then "pending" else "completed").
  assert (s' ≠ s ∧ s' ≠ "deleted"
          ∧ (if bool_decide (Some s' = Some "completed")
             then "pending" else "completed") = s) as (Hne & Hnd' & Hback).
  { subst s'. rewrite Hs. clear -H2.
    destruct H2 as [-> | ->]; vm_compute; repeat split; congruence. }
  assert (Task.status r ≠ Some "deleted") as Hlive.
  { rewrite Hs. clear -H2. destruct H2 as [-> | ->]; discriminate. }
  rewrite (toggle_fresh u db r) by done. fold s'.
  set (g := λ x, if targets (Task.id r) u x
                 then Task.set_status (Some s') x else x).
  set (db1 := mkStore (map g (rows db)) (seq db)).
  set (r1 := Task.set_status (Some s') r).
  assert (g r = r1) as Hgr.
  { unfold g, targets. by rewrite Hu, !bool_decide_eq_true_2. }
  assert (r1 ∈ rows db1) as Hr1.
  { simpl. rewrite <- Hgr. by apply (list_elem_of_fmap_2 g). }
  assert (NoDup (map Task.id (rows db1))) as Hnd1.
  { simpl. unfold g. by rewrite map_proj_targets. }
  split.
  - intros E. rewrite E in Hr1.
    assert (r1 = r) as Er by (by apply (unique_by_id (rows db))).
    apply (f_equal Task.status) in Er. simpl in Er. congruence.
  - pose proof (toggle_fresh u db1 r1 Hnd1 Hrow Hr1 Hu) as Htog.
    simpl in Htog. rewrite Htog by congruence. rewrite Hback.
    destruct db as [l n]. simpl in *. f_equal.
    rewrite map_map. rewrite <- (map_id l) at 2. apply map_ext_in.
    intros x Hx. apply list_elem_of_In in Hx. unfold g.
    destruct (targets (Task.id r) u x) eqn:E;
      [rewrite targets_set_status, E | by rewrite E].
    apply targets_spec in E as [Ei _].
    assert (x = r) as -> by (by apply (unique_by_id l)).
    transitivity (Task.set_status (Some s) r); [reflexivity |].
    by apply set_status_same.
Qed.

Lemma toggle_twice_witness :
  serve alice
    (toggleTask
       (get_all_tasks alice
          (serve alice (toggleTask (get_all_tasks alice db_one) 1) db_one)) 1)
    (serve alice (toggleTask (get_all_tasks alice db_one) 1) db_one)
  = db_one.
Proof.
  refine (proj2 (toggle_twice alice db_one
            (Task.mk 1 "a" (Some "") None (Some "important")
               (Some "personnel") (Some "pending") t0 alice)
            "pending" _ _ _ _ _ _)).
  - vm_compute. apply NoDup_cons. split; [| apply NoDup_nil_2].
    intros H. inversion H.
  - unfold rowid. simpl. lia.
  - vm_compute. apply list_elem_of_here.
  - reflexivity.
  - reflexivity.
  - left. reflexivity.
Defined.

(** ** The forms of the page *)

Lemma adapt_or_null value :
  adapt (or_null value)
  = Ok (if bool_decide (value = "") then SqlNull else SqlText value).
Proof. unfold or_null. by case_bool_decide. Qed.

Lemma text_affinity_or_null value :
  text_affinity (if bool_decide (value = "") then SqlNull else SqlText value)
  = (if bool_decide (value = "") then None else Some value).
Proof. by case_bool_decide. Qed.

(** X13: the add form sends nothing when its title is blank after
    trimming; otherwise the server answers 201 and appends one row that
    holds the trimmed title and description, the chosen priority and
    category, no due date when the date field is empty, the status
    [pending] and the caller as owner. *)
Theorem addTask_creates (trim : string → string) f u now db :
  match addTask trim f with
  | None => trim (f_title f) = ""
  | Some data =>
      trim (f_title f) ≠ ""
      ∧ create_task u now (Object data) db
        = (Jsonify Success 201,
           mkStore
             (rows db ++
              [Task.mk (seq db + 1) (trim (f_title f))
                 (Some (trim (f_description f)))
                 (if bool_decide (f_due_date f = "") then None
                  else Some (f_due_date f))
                 (Some (f_priority f)) (Some (f_category f))
                 (Some "pending") now u])
             (seq db + 1))
  end.
Proof.
  unfold addTask. case_bool_decide as Ht; [done |]. split; [done |].
  rewrite (create_task_with_title _ _ _ _ (JStr (trim (f_title f))))
    by apply lookup_insert_eq.
  unfold get.
  repeat (rewrite lookup_insert_eq || rewrite lookup_insert_ne by done).
  rewrite lookup_singleton_eq. simpl.
  unfold insert_task. simpl. rewrite adapt_or_null. simpl.
  by rewrite text_affinity_or_null.
Qed.

(** X14: saving the edit modal, open on the rowid of a task, is always
    answered with success, an empty title included: the row of the caller
    with the edited id takes the five values of the form (an empty date
    field becoming no due date) and keeps its status; every other row is
    left as it is. *)
Theorem saveEdit_updates editingTaskId f u db :
  rowid editingTaskId →
  serve u (Some (saveEdit editingTaskId f)) db
  = mkStore
      (map (λ r, if targets editingTaskId u r
                 then Task.set_fields (f_title f) (Some (f_description f))
                        (if bool_decide (f_due_date f = "") then None
                         else Some (f_due_date f))
                        (Some (f_priority f)) (Some (f_category f)) r
                 else r)
           (rows db))
      (seq db)
  ∧ fst (update_task editingTaskId u
           (Object (edit_body (JStr (f_title f)) (JStr (f_description f))
              (or_null (f_due_date f)) (JStr (f_priority f))
              (JStr (f_category f)))) db)
    = Jsonify Success 200
  ∧ map Task.status (rows (serve u (Some (saveEdit editingTaskId f)) db))
    = map Task.status (rows db).
Proof.
  intros Hid. apply rowid_range, adapt_id in Hid.
  unfold saveEdit, serve. rewrite update_task_edit.
  unfold update_fields. rewrite Hid. simpl. rewrite adapt_or_null. simpl.
  rewrite text_affinity_or_null. simpl.
  split; [done |]. split; [done |]. by apply map_proj_targets.
Qed.

Lemma saveEdit_updates_witness :
  rows (serve alice
          (Some (saveEdit 1 (mkForm "" "d" "" "urgent" "travail"))) db_one)
  = [Task.mk 1 "" (Some "d") None (Some "urgent") (Some "travail")
       (Some "pending") t0 alice].
Proof.
  assert (rowid 1) as Hid by (unfold rowid; lia).
  rewrite (proj1 (saveEdit_updates 1 (mkForm "" "d" "" "urgent" "travail")
                    alice db_one Hid)).
  vm_compute. reflexivity.
Defined.

(** ** Uploaded file names *)








Example allowed_file_samples :
  allowed_file "photo.JPG" = true
  ∧ allowed_file "archive.tar.gif" = true
  ∧ allowed_file "photo.jpg.php" = false
  ∧ allowed_file "png" = false
  ∧ allowed_file "photo." = false.
Proof. by vm_compute. Qed.

(** * Accounts *)

Lemma find_app_new {A} (p : A → bool) (l : list A) x :
  existsb p l = false → p x = true → List.find p (l ++ [x]) = Some x.
Proof.
  induction l as [|y l IH]; simpl; intros Hl Hx; [by rewrite Hx |].
  apply orb_false_iff in Hl as [Hy Hl]. rewrite Hy. by apply IH.
Qed.

Lemma find_Some_elem {A} (p : A → bool) (l : list A) x :
  List.find p l = Some x → x ∈ l ∧ p x = true.
Proof.
  intros H. apply find_some in H as [Hin Hp].
  split; [by apply list_elem_of_In | done].
Qed.

Lemma existsb_username (l : list user) n :
  existsb (λ r, bool_decide (User.username r = n)) l = true
  ↔ ∃ r, r ∈ l ∧ User.username r = n.
Proof.
  rewrite existsb_exists. setoid_rewrite list_elem_of_In.
  by setoid_rewrite bool_decide_eq_true.
Qed.

Lemma current_user_Some session s cu :
  current_user session s = Some cu →
  cu ∈ users s ∧ session = Some (User.id cu).
Proof.
  destruct session as [i|]; simpl; [| done]. unfold load_user.
  intros H. apply find_Some_elem in H as [Hin Hp].
  apply bool_decide_eq_true in Hp. by subst i.
Qed.

Section account_routes.
Variable generate_password_hash : string → string → string.
Variable check_password_hash : string → string → bool.
Variable strip : string → string.

#[local] Abbreviation register_ := (register generate_password_hash).
#[local] Abbreviation login_ := (login check_password_hash).
#[local] Abbreviation settings_ :=
  (settings generate_password_hash check_password_hash strip).
#[local] Abbreviation handle_ :=
  (handle generate_password_hash check_password_hash strip).
#[local] Abbreviation browse_ :=
  (browse generate_password_hash check_password_hash strip).

Lemma register_new_account (form : gmap string string) salt now session s
    username password :
  current_user session s = None →
  form !! "username" = Some username → form !! "password" = Some password →
  username ≠ "" → password ≠ "" →
  (∀ r, r ∈ users s → User.username r ≠ username) →
  register_ form salt now session s
  = (Redirect "index",
     mkSite (tasks_table s)
       (users s ++
        [User.mk (users_seq s + 1) username
           (generate_password_hash password salt) None now])
       (users_seq s + 1),
     Some (users_seq s + 1)).
Proof.
  intros Hcu Hu Hp Hn Hpw Hfree. unfold register. rewrite Hcu, Hu, Hp.
  rewrite bool_decide_eq_false_2 by (by intros [? ?]).
  rewrite !bool_decide_eq_false_2 by done. simpl.
  assert (existsb (λ r, bool_decide (User.username r = username)) (users s)
          = false) as Hex.
  { apply not_true_is_false. rewrite existsb_username.
    intros (r & Hr & E). by apply (Hfree r). }
  rewrite Hex. unfold by_username. simpl.
  rewrite (find_app_new _ _ _ Hex); [done |].
  by apply bool_decide_eq_true.
Qed.

(** X16: for a visitor who is not logged in, registration with a blank
    name or password, or with a name some account already has, shows an
    error and changes nothing; otherwise it appends one account with the
    next id, the hash of the password and no photo, leaves the tasks
    alone, and logs the visitor in as that account. *)
Theorem register_outcomes (form : gmap string string) salt now session s
    username password :
  current_user session s = None →
  form !! "username" = Some username → form !! "password" = Some password →
  (username = "" ∨ password = "" →
     register_ form salt now session s
     = (AuthForm (Some FieldsRequired) true, s, session))
  ∧ (username ≠ "" → password ≠ "" →
     (∃ r, r ∈ users s ∧ User.username r = username) →
     register_ form salt now session s
     = (AuthForm (Some UsernameTaken) true, s, session))
  ∧ (username ≠ "" → password ≠ "" →
     (∀ r, r ∈ users s → User.username r ≠ username) →
     register_ form salt now session s
     = (Redirect "index",
        mkSite (tasks_table s)
          (users s ++
           [User.mk (users_seq s + 1) username
              (generate_password_hash password salt) None now])
          (users_seq s + 1),
        Some (users_seq s + 1))).
Proof.
  intros Hcu Hu Hp. unfold register. rewrite Hcu, Hu, Hp.
  rewrite bool_decide_eq_false_2 by (by intros [? ?]).
  split; [| split].
  - intros [-> | ->]; simpl; [done |]. by rewrite orb_true_r.
  - intros Hn Hpw Hex. rewrite !bool_decide_eq_false_2 by done. simpl.
    by rewrite (proj2 (existsb_username _ _) Hex).
  - intros Hn Hpw Hfree. rewrite !bool_decide_eq_false_2 by done. simpl.
    pose proof (register_new_account form salt now session s username
                  password Hcu Hu Hp Hn Hpw Hfree) as Hnew.
    unfold register in Hnew. rewrite Hcu, Hu, Hp in Hnew.
    rewrite bool_decide_eq_false_2 in Hnew by (by intros [? ?]).
    by rewrite !bool_decide_eq_false_2 in Hnew by done.
Qed.

(** X17: logging in changes no table, and it opens a session only for an
    account whose name is the one typed and whose stored hash accepts the
    password typed; in every other case the session is what it was. *)
Theorem login_sound (form : gmap string string) session s :
  let res := login_ form session s in
  snd (fst res) = s
  ∧ (snd res = session
     ∨ ∃ r username password,
         r ∈ users s
         ∧ form !! "username" = Some username
         ∧ form !! "password" = Some password
         ∧ User.username r = username
         ∧ check_password_hash (User.password_hash r) password = true
         ∧ snd res = Some (User.id r)
         ∧ fst (fst res) = Redirect "index").
Proof.
  unfold login. case_bool_decide; [by split; [| left] |].
  destruct (form !! "username") as [username|] eqn:Hu; [| by split; [| left]].
  destruct (form !! "password") as [password|] eqn:Hp; [| by split; [| left]].
  destruct (by_username username s) as [r|] eqn:Hr; [| by split; [| left]].
  destruct (check_password_hash _ _) eqn:Hc; [| by split; [| left]].
  split; [done |]. right. exists r, username, password.
  apply find_Some_elem in Hr as [Hin Hn].
  apply bool_decide_eq_true in Hn. done.
Qed.

(** X18: provided the hash library accepts a password against its own
    hash, a visitor who registers with a free name and then, logged out,
    logs in with the same name and password, is logged in as the account
    just created. *)
Theorem register_then_login (form : gmap string string) salt now s
    username password :
  (∀ p sa, check_password_hash (generate_password_hash p sa) p = true) →
  form !! "username" = Some username → form !! "password" = Some password →
  username ≠ "" → password ≠ "" →
  (∀ r, r ∈ users s → User.username r ≠ username) →
  let registered := register_ form salt now None s in
  let left_again := logout (snd registered) (snd (fst registered)) in
  snd registered = Some (users_seq s + 1)
  ∧ snd left_again = None
  ∧ login_ form (snd left_again) (snd (fst left_again))
    = (Redirect "index", snd (fst registered), Some (users_seq s + 1)).
Proof.
  intros Hhash Hu Hp Hn Hpw Hfree.
  pose proof (register_new_account form salt now None s username password
                eq_refl Hu Hp Hn Hpw Hfree) as Hreg.
  intros registered left_again. subst registered left_again.
  rewrite Hreg. simpl.
  assert (existsb (λ r, bool_decide (User.username r = username)) (users s)
          = false) as Hex.
  { apply not_true_is_false. rewrite existsb_username.
    intros (r & Hr & E). by apply (Hfree r). }
  assert (∀ l, by_username username
                 (mkSite (tasks_table s)
                    (users s ++
                     [User.mk (users_seq s + 1) username
                        (generate_password_hash password salt) None now]) l)
               = Some (User.mk (users_seq s + 1) username
                         (generate_password_hash password salt) None now))
    as Hfind.
  { intros l. unfold by_username. simpl.
    rewrite (find_app_new _ _ _ Hex); [done |]. by apply bool_decide_eq_true. }
  split; [done |].
  unfold logout.
  destruct (current_user _ _) eqn:Hcu; simpl.
  - split; [done |]. unfold login. simpl.
    rewrite Hu, Hp, Hfind. simpl. by rewrite Hhash.
  - exfalso. simpl in Hcu. unfold load_user in Hcu. simpl in Hcu.
    assert (In (User.mk (users_seq s + 1) username
                  (generate_password_hash password salt) None now)
              (users s ++
               [User.mk (users_seq s + 1) username
                  (generate_password_hash password salt) None now])) as Hin
      by (apply in_or_app; right; by left).
    apply (find_none _ _ Hcu) in Hin. simpl in Hin.
    by apply bool_decide_eq_false in Hin.
Qed.
End account_routes.

Lemma register_then_login_witness :
  login (λ h p, bool_decide (h = p))
    {[ "username" := "ana"; "password" := "s3cret" ]} None
    (snd (fst (register (λ p _, p)
                 {[ "username" := "ana"; "password" := "s3cret" ]}
                 "salt" t0 None empty_site)))
  = (Redirect "index",
     snd (fst (register (λ p _, p)
                 {[ "username" := "ana"; "password" := "s3cret" ]}
                 "salt" t0 None empty_site)),
     Some 1).
Proof.
  assert (({[ "username" := "ana"; "password" := "s3cret" ]}
             : gmap string string) !! "username" = Some "ana") as Hu
    by (vm_compute; reflexivity).
  assert (({[ "username" := "ana"; "password" := "s3cret" ]}
             : gmap string string) !! "password" = Some "s3cret") as Hp
    by (vm_compute; reflexivity).
  refine (proj2 (proj2 (register_then_login (λ p _, p)
            (λ h p, bool_decide (h = p)) _ "salt" t0 empty_site
            "ana" "s3cret" _ Hu Hp _ _ _))).
  - intros p _. by apply bool_decide_eq_true.
  - discriminate.
  - discriminate.
  - intros r Hr. inversion Hr.
Defined.

Lemma register_outcomes_witness :
  register (λ p _, p) {[ "username" := "ana"; "password" := "" ]}
    "salt" t0 None empty_site
  = (AuthForm (Some FieldsRequired) true, empty_site, None).
Proof.
  assert (({[ "username" := "ana"; "password" := "" ]}
             : gmap string string) !! "username" = Some "ana") as Hu
    by (vm_compute; reflexivity).
  assert (({[ "username" := "ana"; "password" := "" ]}
             : gmap string string) !! "password" = Some "") as Hp
    by (vm_compute; reflexivity).
  refine (proj1 (register_outcomes (λ p _, p) _ "salt" t0 None empty_site
                   "ana" "" eq_refl Hu Hp) _).
  right. reflexivity.
Defined.

(** ** The settings page *)

Lemma find_None_intro {A} (p : A → bool) (l : list A) :
  (∀ x, x ∈ l → p x = false) → List.find p l = None.
Proof.
  induction l as [|y l IH]; simpl; intros H; [done |].
  rewrite (H y) by apply list_elem_of_here.
  apply IH. intros x Hx. apply H. by apply list_elem_of_further.
Qed.

Lemma blank_false v : blank v = false → ∃ x, v = Some x ∧ x ≠ "".
Proof.
  destruct v as [x|]; simpl; [| done].
  intros H. apply bool_decide_eq_false in H. by exists x.
Qed.

Section account_settings.
Variable generate_password_hash : string → string → string.
Variable check_password_hash : string → string → bool.
Variable strip : string → string.

#[local] Abbreviation settings_ :=
  (settings generate_password_hash check_password_hash strip).

(** X19: deleting the account asks for the password: with none typed, or
    one the stored hash refuses, nothing changes; with the right one the
    account's row and all its tasks are removed, the tasks of every other
    account stay as they were, in order, and the session is closed and
    would no longer load an account. *)
Theorem delete_account_outcomes (form : gmap string string) file image
    timestamp salt session s cu :
  current_user session s = Some cu →
  form !! "action" = Some "delete_account" →
  let res := settings_ form file image timestamp salt session s in
  let typed := form !! "delete_password" in
  (blank typed = true →
     res = (SettingsPage (Some DeletePasswordRequired) false, s, session))
  ∧ (blank typed = false →
     check_password_hash (User.password_hash cu) (default "" typed) = false →
     res = (SettingsPage (Some DeletePasswordWrong) false, s, session))
  ∧ (blank typed = false →
     check_password_hash (User.password_hash cu) (default "" typed) = true →
     fst (fst res) = AuthForm (Some AccountDeleted) false
     ∧ snd res = None
     ∧ users (snd (fst res))
       = filter (λ r, User.id r ≠ User.id cu) (users s)
     ∧ tasks_of (User.id cu) (tasks_table (snd (fst res))) = []
     ∧ (∀ u', u' ≠ User.id cu →
          tasks_of u' (tasks_table (snd (fst res)))
          = tasks_of u' (tasks_table s))
     ∧ current_user session (snd (fst res)) = None).
Proof.
  intros Hcu Ha res typed. subst res typed.
  unfold settings. rewrite Hcu, Ha. simpl.
  split; [by intros -> |]. split; [by intros -> -> |].
  intros -> ->. simpl.
  split; [done |]. split; [done |]. split; [done |].
  split; [| split].
  - unfold tasks_of. simpl. apply filter_none.
    intros t Ht. apply list_elem_of_filter in Ht as [Hne _]. done.
  - intros u' Hu'. unfold tasks_of. simpl.
    rewrite list_filter_filter. apply list_filter_iff. intros t.
    split; [tauto |]. intros E. split; [done | congruence].
  - apply current_user_Some in Hcu as [_ ->]. simpl. unfold load_user. simpl.
    apply find_None_intro. intros r Hr.
    apply list_elem_of_filter in Hr as [Hne _].
    by apply bool_decide_eq_false.
Qed.

(** X20: changing the password needs the three fields filled, the new
    password typed twice alike, and the old one accepted by the stored
    hash; failing any of these nothing changes. On success only the
    [password_hash] of the caller's row changes, to the hash of the new
    password. *)
Theorem change_password_outcomes (form : gmap string string) file image
    timestamp salt session s cu :
  current_user session s = Some cu →
  form !! "action" = Some "change_password" →
  let res := settings_ form file image timestamp salt session s in
  let old := form !! "old_password" in
  let new := form !! "new_password" in
  let confirm := form !! "confirm_password" in
  (blank old || blank new || blank confirm = true →
     res = (SettingsPage (Some PasswordFieldsRequired) false, s, session))
  ∧ (blank old || blank new || blank confirm = false → new ≠ confirm →
     res = (SettingsPage (Some PasswordMismatch) false, s, session))
  ∧ (blank old || blank new || blank confirm = false → new = confirm →
     check_password_hash (User.password_hash cu) (default "" old) = false →
     res = (SettingsPage (Some OldPasswordWrong) false, s, session))
  ∧ (blank old || blank new || blank confirm = false → new = confirm →
     check_password_hash (User.password_hash cu) (default "" old) = true →
     res = (SettingsPage (Some PasswordChanged) true,
            update_user (User.id cu)
              (User.set_password_hash
                 (generate_password_hash (default "" new) salt)) s,
            session)).
Proof.
  intros Hcu Ha res old new confirm. subst res old new confirm.
  unfold settings. rewrite Hcu, Ha. simpl.
  split; [by intros -> |]. split; [| split].
  - intros -> Hne. simpl. by rewrite bool_decide_eq_false_2.
  - intros -> E ->. simpl. by rewrite bool_decide_eq_true_2.
  - intros -> E ->. simpl. by rewrite bool_decide_eq_true_2.
Qed.

(** X21: changing the user name trims it first; a blank name is refused,
    the current name is kept with a success notice, and a name that
    another account holds is refused, all three without any change; a
    name nobody holds replaces the caller's and nothing else. *)
Theorem change_username_outcomes (form : gmap string string) file image
    timestamp salt session s cu :
  current_user session s = Some cu →
  form !! "action" = Some "change_username" →
  let res := settings_ form file image timestamp salt session s in
  let new_username := strip (default "" (form !! "new_username")) in
  (new_username = "" →
     res = (SettingsPage (Some UsernameEmpty) false, s, session))
  ∧ (new_username ≠ "" → new_username = User.username cu →
     res = (SettingsPage (Some UsernameSame) true, s, session))
  ∧ (new_username ≠ "" → new_username ≠ User.username cu →
     (∃ r, r ∈ users s ∧ User.username r = new_username
           ∧ User.id r ≠ User.id cu) →
     snd (fst res) = s ∧ snd res = session
     ∧ ∃ msg, fst (fst res) = SettingsPage (Some msg) false)
  ∧ (new_username ≠ "" → new_username ≠ User.username cu →
     (∀ r, r ∈ users s → User.username r ≠ new_username) →
     res = (SettingsPage (Some UsernameChanged) true,
            update_user (User.id cu) (User.set_username new_username) s,
            session)).
Proof.
  intros Hcu Ha res new_username. subst res.
  unfold settings. rewrite Hcu, Ha. simpl. fold new_username.
  split; [| split; [| split]].
  - intros ->. by rewrite bool_decide_eq_true_2.
  - intros Hn E. rewrite bool_decide_eq_false_2 by done.
    by rewrite bool_decide_eq_true_2.
  - intros Hn Hne (r & Hr & Hname & Hid).
    rewrite !bool_decide_eq_false_2 by done.
    destruct (by_username new_username s) as [existing|] eqn:Hex.
    + case_bool_decide as Hsame; simpl; [| eauto].
      assert (existsb
                (λ r0, bool_decide (User.username r0 = new_username)
                       && negb (bool_decide (User.id r0 = User.id cu)))
                (users s) = true) as ->; [| eauto].
      apply existsb_exists. exists r. split; [by apply list_elem_of_In |].
      by rewrite bool_decide_eq_true_2, bool_decide_eq_false_2.
    + exfalso. unfold by_username in Hex.
      assert (In r (users s)) as Hin by (by apply list_elem_of_In).
      apply (find_none _ _ Hex) in Hin.
      by apply bool_decide_eq_false in Hin.
  - intros Hn Hne Hfree. rewrite !bool_decide_eq_false_2 by done.
    assert (by_username new_username s = None) as ->; [| done].
    apply find_None_intro. intros r Hr.
    apply bool_decide_eq_false. by apply Hfree.
Qed.

(** X22: uploading a profile photo changes the database only when the
    request carries a file whose name [allowed_file] accepts and the image
    was processed and written; then the caller's [profile_photo] becomes
    /static/uploads/<id>_<timestamp>.jpg, whatever the uploaded name, and
    nothing else changes. In every other case the page shows an error and
    the database is untouched. The session stays as it is. *)
Theorem upload_photo_outcomes (form : gmap string string) file image
    timestamp salt session s cu :
  current_user session s = Some cu →
  form !! "action" = Some "upload_photo" →
  let res := settings_ form file image timestamp salt session s in
  let accepted :=
    negb (blank file) && allowed_file (default "" file)
    && match image with ImageSaved => true | _ => false end in
  snd res = session
  ∧ (accepted = true →
     res = (SettingsPage (Some PhotoUpdated) true,
            update_user (User.id cu)
              (User.set_profile_photo
                 (Some ("/static/uploads/" +:+ pretty (User.id cu) +:+ "_"
                        +:+ timestamp +:+ ".jpg"))) s,
            session))
  ∧ (accepted = false →
     snd (fst res) = s
     ∧ ∃ msg, fst (fst res) = SettingsPage (Some msg) false).
Proof.
  intros Hcu Ha res accepted. subst res accepted.
  unfold settings. rewrite Hcu, Ha. simpl.
  destruct (negb (blank file) && allowed_file (default "" file)); simpl.
  - destruct image; simpl; split; try done; split; try done; eauto.
  - split; [done |]. split; [done |]. eauto.
Qed.
End account_settings.

Example site_ana_value :
  site_ana
  = (mkSite
       (mkStore [Task.mk 1 "a" (Some "") None (Some "important")
                   (Some "personnel") (Some "pending") t1 1] 1)
       [User.mk 1 "ana" "s3cret" None t0] 1,
     Some 1).
Proof. vm_compute. reflexivity. Qed.

Lemma delete_account_outcomes_witness :
  snd (settings plain_hash plain_check (λ x, x)
         {[ "action" := "delete_account"; "delete_password" := "s3cret" ]}
         None ImageSaved "20240501_100000" "salt" (snd site_ana)
         (fst site_ana))
  = None.
Proof.
  assert (current_user (snd site_ana) (fst site_ana)
          = Some (User.mk 1 "ana" "s3cret" None t0)) as Hcu
    by (vm_compute; reflexivity).
  assert (({[ "action" := "delete_account"; "delete_password" := "s3cret" ]}
             : gmap string string) !! "action" = Some "delete_account")
    as Ha by (vm_compute; reflexivity).
  refine (proj1 (proj2 (proj2 (proj2
    (delete_account_outcomes plain_hash plain_check (λ x, x) _ None
       ImageSaved "20240501_100000" "salt" _ _ _ Hcu Ha)) _ _))).
  - vm_compute. reflexivity.
  - vm_compute. reflexivity.
Defined.

Lemma change_password_outcomes_witness :
  settings plain_hash plain_check (λ x, x)
    {[ "action" := "change_password"; "old_password" := "s3cret";
       "new_password" := "n3w"; "confirm_password" := "other" ]}
    None ImageSaved "20240501_100000" "salt" (snd site_ana) (fst site_ana)
  = (SettingsPage (Some PasswordMismatch) false, fst site_ana, snd site_ana).
Proof.
  assert (current_user (snd site_ana) (fst site_ana)
          = Some (User.mk 1 "ana" "s3cret" None t0)) as Hcu
    by (vm_compute; reflexivity).
  assert (({[ "action" := "change_password"; "old_password" := "s3cret";
              "new_password" := "n3w"; "confirm_password" := "other" ]}
             : gmap string string) !! "action" = Some "change_password")
    as Ha by (vm_compute; reflexivity).
  refine (proj1 (proj2
    (change_password_outcomes plain_hash plain_check (λ x, x) _ None
       ImageSaved "20240501_100000" "salt" _ _ _ Hcu Ha)) _ _).
  - vm_compute. reflexivity.
  - vm_compute. discriminate.
Defined.

Lemma change_username_outcomes_witness :
  settings plain_hash plain_check (λ x, x)
    {[ "action" := "change_username"; "new_username" := "" ]}
    None ImageSaved "20240501_100000" "salt" (snd site_ana) (fst site_ana)
  = (SettingsPage (Some UsernameEmpty) false, fst site_ana, snd site_ana).
Proof.
  assert (current_user (snd site_ana) (fst site_ana)
          = Some (User.mk 1 "ana" "s3cret" None t0)) as Hcu
    by (vm_compute; reflexivity).
  assert (({[ "action" := "change_username"; "new_username" := "" ]}
             : gmap string string) !! "action" = Some "change_username")
    as Ha by (vm_compute; reflexivity).
  refine (proj1
    (change_username_outcomes plain_hash plain_check (λ x, x) _ None
       ImageSaved "20240501_100000" "salt" _ _ _ Hcu Ha) _).
  vm_compute. reflexivity.
Defined.

Lemma upload_photo_outcomes_witness :
  settings plain_hash plain_check (λ x, x)
    {[ "action" := "upload_photo" ]}
    (Some "me.PNG") ImageSaved "20240501_100000" "salt" (snd site_ana)
    (fst site_ana)
  = (SettingsPage (Some PhotoUpdated) true,
     update_user 1
       (User.set_profile_photo (Some "/static/uploads/1_20240501_100000.jpg"))
       (fst site_ana),
     snd site_ana).
Proof.
  assert (current_user (snd site_ana) (fst site_ana)
          = Some (User.mk 1 "ana" "s3cret" None t0)) as Hcu
    by (vm_compute; reflexivity).
  assert (({[ "action" := "upload_photo" ]}
             : gmap string string) !! "action" = Some "upload_photo")
    as Ha by (vm_compute; reflexivity).
  refine (proj1 (proj2
    (upload_photo_outcomes plain_hash plain_check (λ x, x) _ (Some "me.PNG")
       ImageSaved "20240501_100000" "salt" _ _ _ Hcu Ha)) _).
  vm_compute. reflexivity.
Defined.

(** ** What every reachable database satisfies *)

Lemma NoDup_map_filter {A B} (f : A → B) (P : A → Prop)
    `{!∀ x, Decision (P x)} (l : list A) :
  NoDup (map f l) → NoDup (map f (filter P l)).
Proof.
  induction l as [|x l IH]; simpl; intros Hnd; [done |].
  apply NoDup_cons in Hnd as [Hx Hnd]. rewrite filter_cons.
  destruct (decide (P x)); [| by apply IH].
  simpl. apply NoDup_cons. split; [| by apply IH].
  intros Hin. apply Hx.
  apply (list_elem_of_fmap f) in Hin as (y & Ey & Hy).
  apply list_elem_of_filter in Hy as [_ Hy].
  rewrite Ey. by apply (list_elem_of_fmap_2 f).
Qed.

Lemma site_ok_empty : site_ok empty_site.
Proof.
  repeat split; simpl; try apply NoDup_nil_2;
    intros r Hr; inversion Hr.
Qed.

Lemma site_ok_register s n h now :
  site_ok s → (∀ r, r ∈ users s → User.username r ≠ n) →
  site_ok (mkSite (tasks_table s)
             (users s ++ [User.mk (users_seq s + 1) n h None now])
             (users_seq s + 1)).
Proof.
  intros (Hid & Hname & Hle & Htasks & Hown) Hfree.
  split; [| split; [| split; [| split]]]; simpl.
  - rewrite map_app. simpl. apply NoDup_app. split; [done |].
    split; [| apply NoDup_singleton].
    intros i Hi Hi'. apply list_elem_of_singleton in Hi'. subst i.
    apply (list_elem_of_fmap User.id) in Hi as (r & Er & Hr).
    apply Hle in Hr. lia.
  - rewrite map_app. simpl. apply NoDup_app. split; [done |].
    split; [| apply NoDup_singleton].
    intros i Hi Hi'. apply list_elem_of_singleton in Hi'. subst i.
    apply (list_elem_of_fmap User.username) in Hi as (r & Er & Hr).
    by apply (Hfree r).
  - intros r Hr. apply elem_of_app in Hr as [Hr|Hr].
    + apply Hle in Hr. lia.
    + apply list_elem_of_singleton in Hr. subst r. simpl. lia.
  - done.
  - intros t Ht. destruct (Hown t Ht) as (r & Hr & E).
    exists r. split; [| done]. apply elem_of_app. by left.
Qed.

Lemma site_ok_update_user s i (f : user → user) :
  site_ok s →
  (∀ r, User.id (f r) = User.id r) →
  (∀ r, User.username (f r) = User.username r) →
  site_ok (update_user i f s).
Proof.
  intros (Hid & Hname & Hle & Htasks & Hown) Hfi Hfn.
  unfold update_user.
  set (g := λ r, if bool_decide (User.id r = i) then f r else r).
  assert (∀ r, User.id (g r) = User.id r) as Hgi.
  { intros r. unfold g. by case_bool_decide. }
  assert (∀ r, User.username (g r) = User.username r) as Hgn.
  { intros r. unfold g. by case_bool_decide. }
  split; [| split; [| split; [| split]]]; simpl.
  - rewrite map_map. by rewrite (map_ext _ User.id Hgi).
  - rewrite map_map. by rewrite (map_ext _ User.username Hgn).
  - intros r Hr. apply (list_elem_of_fmap g) in Hr as (r0 & -> & Hr0).
    rewrite Hgi. by apply Hle.
  - done.
  - intros t Ht. destruct (Hown t Ht) as (r & Hr & E).
    exists (g r). split; [by apply (list_elem_of_fmap_2 g) |].
    by rewrite Hgi.
Qed.

Lemma unique_user (l : list user) x r :
  NoDup (map User.id l) → x ∈ l → r ∈ l → User.id x = User.id r → x = r.
Proof.
  induction l as [|y l IH]; simpl; intros Hnd Hx Hr E; [by inversion Hx |].
  apply NoDup_cons in Hnd as [Hy Hnd].
  apply elem_of_cons in Hx as [-> | Hx]; apply elem_of_cons in Hr as [-> | Hr].
  - done.
  - exfalso. apply Hy. rewrite E. by apply (list_elem_of_fmap_2 User.id).
  - exfalso. apply Hy. rewrite <- E. by apply (list_elem_of_fmap_2 User.id).
  - by apply IH.
Qed.

Lemma site_ok_rename s cu n :
  site_ok s → cu ∈ users s →
  (∀ r, r ∈ users s → User.username r = n → User.id r = User.id cu) →
  site_ok (update_user (User.id cu) (User.set_username n) s).
Proof.
  intros (Hid & Hname & Hle & Htasks & Hown) Hcu Honly.
  set (g := λ r, if bool_decide (User.id r = User.id cu)
                 then User.set_username n r else r).
  assert (∀ r, User.id (g r) = User.id r) as Hgi.
  { intros r. unfold g. by case_bool_decide. }
  split; [| split; [| split; [| split]]]; simpl; fold g.
  - rewrite map_map. by rewrite (map_ext _ User.id Hgi).
  - rewrite map_map.
    apply (NoDup_fmap_2_strong (λ r, User.username (g r)));
      [| by apply (NoDup_fmap_1 User.id)].
    intros x y Hx Hy E. unfold g in E.
    destruct (bool_decide (User.id x = User.id cu)) eqn:Ex,
             (bool_decide (User.id y = User.id cu)) eqn:Ey; simpl in E.
    + apply bool_decide_eq_true in Ex, Ey.
      apply (unique_user (users s)); try done. congruence.
    + apply bool_decide_eq_false in Ey. exfalso. apply Ey.
      by apply Honly.
    + apply bool_decide_eq_false in Ex. exfalso. apply Ex.
      by apply Honly.
    + apply (NoDup_fmap_1 User.username) in Hname as Hnd.
      assert (Inj_on : ∀ a b, a ∈ users s → b ∈ users s →
                User.username a = User.username b → a = b).
      { clear -Hname. induction (users s) as [|z l IH]; simpl in *;
          intros a b Ha Hb Eab; [by inversion Ha |].
        apply NoDup_cons in Hname as [Hz Hl].
        apply elem_of_cons in Ha as [-> | Ha];
          apply elem_of_cons in Hb as [-> | Hb].
        - done.
        - exfalso. apply Hz. rewrite Eab.
          by apply (list_elem_of_fmap_2 User.username).
        - exfalso. apply Hz. rewrite <- Eab.
          by apply (list_elem_of_fmap_2 User.username).
        - by apply IH. }
      by apply Inj_on.
  - intros r Hr. apply (list_elem_of_fmap _ (users s)) in Hr as (r0 & -> & Hr0).
    rewrite Hgi. by apply Hle.
  - done.
  - intros t Ht. destruct (Hown t Ht) as (r & Hr & E).
    exists (g r). split; [by apply (list_elem_of_fmap_2 g) |].
    by rewrite Hgi.
Qed.

Lemma site_ok_delete s i :
  site_ok s →
  site_ok (mkSite
             (mkStore (filter (λ r, Task.user_id r ≠ i)
                         (rows (tasks_table s)))
                (seq (tasks_table s)))
             (filter (λ r, User.id r ≠ i) (users s))
             (users_seq s)).
Proof.
  intros (Hid & Hname & Hle & Htasks & Hown).
  split; [| split; [| split; [| split]]]; simpl.
  - by apply NoDup_map_filter.
  - by apply NoDup_map_filter.
  - intros r Hr. apply list_elem_of_filter in Hr as [_ Hr]. by apply Hle.
  - by apply ids_ok_filter.
  - intros t Ht. apply list_elem_of_filter in Ht as [Hne Ht].
    destruct (Hown t Ht) as (r & Hr & E).
    exists r. split; [| done]. apply list_elem_of_filter. split; [| done].
    congruence.
Qed.

(** A writing request leaves rows of owners that were there, or rows of
    the caller. *)
Lemma run_owner u m db t' :
  t' ∈ rows (snd (run u m db)) →
  Task.user_id t' = u
  ∨ ∃ t, t ∈ rows db ∧ Task.user_id t = Task.user_id t'.
Proof.
  assert (∀ task_id (data : payload),
    t' ∈ rows (snd (update_task task_id u data db)) →
    ∃ t, t ∈ rows db ∧ Task.user_id t = Task.user_id t') as Hput.
  { intros task_id data.
    destruct (update_task_rows task_id u data db)
      as (g & _ & Hu & _ & -> & _).
    intros Ht. apply (list_elem_of_fmap g) in Ht as (t & -> & Ht).
    exists t. by rewrite Hu. }
  destruct m as [now body|task_id data|task_id st|task_id|]; simpl.
  - destruct body as [data|items|s|z|b|];
      [| rewrite create_task_not_Object_snd by done; right; by exists t' ..].
    destruct (data !! "title") as [title|] eqn:Ht.
    + rewrite (create_task_with_title _ _ _ _ _ Ht).
      destruct (insert_task _ _ _ _ _ _ _ _ _) as [db1|e] eqn:Hi;
        [| right; by exists t'].
      apply insert_task_Ok in Hi as (t & ? & ? & ? & ? & ? & _ & ->).
      simpl. intros H. apply elem_of_app in H as [H|H].
      * right. by exists t'.
      * apply list_elem_of_singleton in H. subst t'. by left.
    + rewrite (create_task_without_title _ _ _ _ Ht). right. by exists t'.
  - intros H. right. by apply (Hput task_id data).
  - intros H. right. by apply (Hput task_id (Object {[ "status" := st ]})).
  - destruct (hard_delete_cases task_id u db) as [[_ ->] | [_ ->]];
      [| right; by exists t'].
    intros H. apply list_elem_of_filter in H as [_ H]. right. by exists t'.
  - intros H. apply list_elem_of_filter in H as [_ H]. right. by exists t'.
Qed.

Lemma site_ok_api s cu m :
  site_ok s → cu ∈ users s →
  site_ok (mkSite (snd (run (User.id cu) m (tasks_table s))) (users s)
             (users_seq s)).
Proof.
  intros (Hid & Hname & Hle & Htasks & Hown) Hcu.
  split; [done |]. split; [done |]. split; [done |]. simpl.
  split; [by apply ids_ok_run |].
  intros t Ht. apply run_owner in Ht as [E | (t0 & Ht0 & E)].
  - by exists cu.
  - destruct (Hown t0 Ht0) as (r & Hr & Er). exists r. split; [done |].
    congruence.
Qed.

Section reachable.
Variable generate_password_hash : string → string → string.
Variable check_password_hash : string → string → bool.
Variable strip : string → string.

#[local] Abbreviation handle_ :=
  (handle generate_password_hash check_password_hash strip).
#[local] Abbreviation browse_ :=
  (browse generate_password_hash check_password_hash strip).

Lemma register_site_ok (form : gmap string string) salt now session s :
  site_ok s →
  site_ok (snd (fst (register generate_password_hash form salt now
                       session s))).
Proof.
  intros Hok. unfold register. case_bool_decide; [done |].
  destruct (form !! "username") as [username|]; [| done].
  destruct (form !! "password") as [password|]; [| done].
  destruct (_ || _); [done |]. simpl.
  destruct (existsb _ (users s)) eqn:Hex; [done |].
  assert (site_ok
    (mkSite (tasks_table s)
       (users s ++
        [User.mk (users_seq s + 1) username
           (generate_password_hash password salt) None now])
       (users_seq s + 1))) as Hok'.
  { apply site_ok_register; [done |]. intros r Hr E.
    apply not_true_iff_false in Hex. apply Hex.
    apply existsb_username. by exists r. }
  by destruct (by_username username _).
Qed.

Lemma settings_site_ok (form : gmap string string) file image timestamp
    salt session s :
  site_ok s →
  site_ok (snd (fst (settings generate_password_hash check_password_hash
                       strip form file image timestamp salt session s))).
Proof.
  intros Hok. unfold settings.
  destruct (current_user session s) as [cu|] eqn:Hcu; [| done].
  apply current_user_Some in Hcu as [Hcu _].
  case_bool_decide.
  { destruct (_ && _); [| done].
    destruct image; try done. by apply site_ok_update_user. }
  case_bool_decide; [by apply site_ok_update_user |].
  case_bool_decide.
  { case_bool_decide; [done |]. case_bool_decide; [done |].
    destruct (by_username _ s) as [existing|] eqn:Hex.
    - case_bool_decide as Hsame; simpl; [| done].
      destruct (existsb _ (users s)) eqn:Hother; [done |]. simpl.
      apply site_ok_rename; [done | done |]. intros r Hr Hn.
      destruct (decide (User.id r = User.id cu)) as [|Hne]; [done |].
      exfalso. apply not_true_iff_false in Hother. apply Hother.
      apply existsb_exists. exists r. split; [by apply list_elem_of_In |].
      by rewrite bool_decide_eq_true_2, bool_decide_eq_false_2.
    - simpl. apply site_ok_rename; [done | done |]. intros r Hr Hn.
      exfalso. unfold by_username in Hex.
      assert (In r (users s)) as Hin by (by apply list_elem_of_In).
      apply (find_none _ _ Hex) in Hin.
      by apply bool_decide_eq_false in Hin. }
  case_bool_decide.
  { destruct (_ || _); [done |]. destruct (negb _); [done |].
    destruct (check_password_hash _ _); [| done].
    by apply site_ok_update_user. }
  case_bool_decide; [| done].
  destruct (blank _); [done |].
  destruct (check_password_hash _ _); [| done].
  by apply site_ok_delete.
Qed.

Lemma login_keeps_site (form : gmap string string) session s :
  snd (fst (login check_password_hash form session s)) = s.
Proof.
  unfold login. case_bool_decide; [done |].
  destruct (form !! "username"); [| done].
  destruct (form !! "password"); [| done].
  destruct (by_username _ s); [| done].
  by destruct (check_password_hash _ _).
Qed.

Lemma handle_site_ok req s session :
  site_ok s → site_ok (fst (handle_ req (s, session))).
Proof.
  intros Hok. destruct req as [form salt now|form| |form file image ts salt|m];
    simpl.
  - pose proof (register_site_ok form salt now session s Hok) as H.
    by destruct (register _ _ _ _ _ _) as [[? ?] ?].
  - pose proof (login_keeps_site form session s) as H.
    destruct (login _ _ _ _) as [[? ?] ?]. simpl in H. by subst.
  - unfold logout. by destruct (current_user session s).
  - pose proof (settings_site_ok form file image ts salt session s Hok) as H.
    by destruct (settings _ _ _ _ _ _ _ _ _ _) as [[? ?] ?].
  - destruct (current_user session s) as [cu|] eqn:Hcu; [| done].
    apply current_user_Some in Hcu as [Hcu _]. simpl.
    by apply site_ok_api.
Qed.

(** X23: whatever requests a browser sends, starting from the empty
    database, user ids and user names stay distinct, task ids stay
    distinct, and every task belongs to an account that still exists:
    registration and renaming never produce two accounts of one name, and
    no route leaves a task without its owner. *)
Theorem browse_site_ok reqs : site_ok (fst (browse_ reqs (empty_site, None))).
Proof.
  assert (∀ st, site_ok (fst st) → site_ok (fst (browse_ reqs st))) as H.
  { induction reqs as [|req reqs IH]; intros [s session] Hok; [done |].
    simpl. apply IH. by apply handle_site_ok. }
  apply H. apply site_ok_empty.
Qed.
End reachable.
